(** * amdgpu_dm_color: DRM colour management mapped to the DC pipeline

    A shallow embedding of
    [drivers/gpu/drm/amd/display/amdgpu_dm/amdgpu_dm_color.c].

    C integers are [Z] with their wrap-around written out, arrays are
    lists read with [!!] and written with [<[i:=v]>], pointers that may be
    NULL are [option]s, and the functions that mutate their arguments
    return the mutated objects.  The parts of the kernel that the file
    calls but does not define (the DC colour module, the MPC 3D LUT pool,
    the allocator) are the fields of the interface [DcLib]; they act on an
    abstract [world]. *)

From Stdlib Require Import ZArith Lia Bool List.
From stdpp Require Import base tactics option list.

Local Open Scope Z_scope.

(** ** C integer conversions *)

(** Conversion to [uint32_t]. *)
Definition u32 (x : Z) : Z := x mod 2 ^ 32.

(** Conversion to [int] (two's complement, as the kernel is built). *)
Definition s32 (x : Z) : Z := (x + 2 ^ 31) mod 2 ^ 32 - 2 ^ 31.

(** Conversion to [long long], the carrier of [struct fixed31_32]. *)
Definition s64 (x : Z) : Z := (x + 2 ^ 63) mod 2 ^ 64 - 2 ^ 63.

(** ** Data model *)

(** [struct drm_color_lut]: one sample, four [__u16] channels. *)
Record drm_color_lut := Build_drm_color_lut {
  red : Z;
  green : Z;
  blue : Z;
  reserved : Z
}.

(** A [struct drm_property_blob] that holds an array of samples. *)
Record drm_property_blob := Build_drm_property_blob {
  blob_data : list drm_color_lut
}.

(** Modelled from the spec: [drm_color_lut_size] is declared in
    [drm_color_mgmt.h]; "extract(handle) -> (SampleCurve, size)" gives
    the number of samples the blob holds. *)
Definition drm_color_lut_size (blob : drm_property_blob) : Z :=
  Z.of_nat (length (blob_data blob)).

(** [struct drm_color_ctm]: nine [__u64] in S31.32 sign-magnitude. *)
Record drm_color_ctm := Build_drm_color_ctm {
  ctm_matrix : list Z
}.

(** [struct fixed31_32] is its [long long value]. *)
Definition fixed31_32 := Z.

Definition dc_fixpt_zero : fixed31_32 := 0.
Definition dc_fixpt_one : fixed31_32 := 2 ^ 32.

Definition MAX_DRM_LUT_VALUE : Z := 65535.

(** Modelled from the spec: [MAX_COLOR_LEGACY_LUT_ENTRIES] is declared
    in [amdgpu_mode.h]; "legacy = 256". *)
Definition MAX_COLOR_LEGACY_LUT_ENTRIES : Z := 256.

(** Modelled from the spec: [MAX_COLOR_3DLUT_ENTRIES] is declared in
    [amdgpu_mode.h]; "3D = 17^3 samples". *)
Definition MAX_COLOR_3DLUT_ENTRIES : Z := 17 * 17 * 17.

(** ** __extract_blob_lut *)

(** Returns the LUT pointer and, through [*size], the LUT size. *)
Definition __extract_blob_lut (blob : option drm_property_blob)
  : option (list drm_color_lut) * Z :=
  (match blob with Some b => Some (blob_data b) | None => None end,
   match blob with Some b => drm_color_lut_size b | None => 0 end).

(** ** __is_lut_linear *)

(** [lut[i]]; a read past the end of the array is undefined in C and is
    given the zero sample here.  The callers pass the size of the blob. *)
Definition lut_at (lut : list drm_color_lut) (i : Z) : drm_color_lut :=
  match lut !! Z.to_nat i with
  | Some e => e
  | None => Build_drm_color_lut 0 0 0 0
  end.

(** The loop [for (i = ...; i < size; i++)], [n] iterations left to run.
    [i] is an [int]; [size] and [expected] are [uint32_t], so the
    comparison, the division and the subtraction are unsigned and [delta]
    is the difference converted back to [int].

    The function returns [Some] of what the C function returns.  The
    divisor [size - 1] is zero for a LUT of one sample: the division is
    then a divide error and the function does not return, which is
    [None].  The channels are compared first, so the division is only
    reached by a sample whose three channels are equal. *)
Fixpoint __is_lut_linear_loop (n : nat) (lut : list drm_color_lut)
    (size : Z) (i : Z) : option bool :=
  match n with
  | O => Some true
  | S n' =>
    if negb (u32 i <? size) then Some true
    else
      let e := lut_at lut i in
      if negb (red e =? green e) || negb (green e =? blue e) then Some false
      else if u32 (size - 1) =? 0 then None
      else
        let expected := u32 (s32 (i * MAX_DRM_LUT_VALUE)) / u32 (size - 1) in
        let delta := s32 (u32 (red e) - expected) in
        if (delta <? -1) || (1 <? delta) then Some false
        else __is_lut_linear_loop n' lut size (s32 (i + 1))
  end.

Definition __is_lut_linear (lut : list drm_color_lut) (size : Z)
  : option bool :=
  __is_lut_linear_loop (Z.to_nat size) lut size 0.

(** The linearity check as the specification words it: all three channels
    equal and the value within one of [round(i * 65535 / (N - 1))]. *)
Definition round_div (a b : Z) : Z := (2 * a + b) / (2 * b).

Definition spec_sample_linear (N : Z) (i : Z) (e : drm_color_lut) : bool :=
  (red e =? green e) && (green e =? blue e)
  && (Z.abs (red e - round_div (i * 65535) (N - 1)) <=? 1).

Definition spec_is_linear (lut : list drm_color_lut) : bool :=
  forallb (fun i => spec_sample_linear (Z.of_nat (length lut)) (Z.of_nat i)
                      (lut_at lut (Z.of_nat i)))
          (seq 0 (length lut)).

(** What the code checks of sample [i]: truncating division. *)
Definition sample_linear (N : Z) (i : Z) (e : drm_color_lut) : Prop :=
  red e = green e /\ green e = blue e /\
  Z.abs (red e - (i * 65535) / (N - 1)) <= 1.

(** Channel values are [__u16]. *)
Definition lut_wf (lut : list drm_color_lut) : Prop :=
  Forall (fun e => 0 <= red e < 65536 /\ 0 <= green e < 65536 /\
                   0 <= blue e < 65536) lut.

(** ** Enumerations of DC and DRM that the file uses *)

Inductive dc_transfer_func_type :=
  | TF_TYPE_PREDEFINED
  | TF_TYPE_DISTRIBUTED_POINTS
  | TF_TYPE_BYPASS.

Inductive dc_transfer_func_predefined :=
  | TRANSFER_FUNCTION_SRGB
  | TRANSFER_FUNCTION_BT709
  | TRANSFER_FUNCTION_PQ
  | TRANSFER_FUNCTION_LINEAR
  | TRANSFER_FUNCTION_UNITY
  | TRANSFER_FUNCTION_HLG
  | TRANSFER_FUNCTION_GAMMA22
  | TRANSFER_FUNCTION_GAMMA24
  | TRANSFER_FUNCTION_GAMMA26.

(** [DRM_TRANSFER_FUNCTION_OTHER v] stands for any value of the C enum
    that the switch in [drm_tf_to_dc_tf] does not name. *)
Inductive drm_transfer_function :=
  | DRM_TRANSFER_FUNCTION_DEFAULT
  | DRM_TRANSFER_FUNCTION_SRGB
  | DRM_TRANSFER_FUNCTION_BT709
  | DRM_TRANSFER_FUNCTION_PQ
  | DRM_TRANSFER_FUNCTION_LINEAR
  | DRM_TRANSFER_FUNCTION_UNITY
  | DRM_TRANSFER_FUNCTION_HLG
  | DRM_TRANSFER_FUNCTION_GAMMA22
  | DRM_TRANSFER_FUNCTION_GAMMA24
  | DRM_TRANSFER_FUNCTION_GAMMA26
  | DRM_TRANSFER_FUNCTION_OTHER (v : Z).

Inductive dc_gamma_type :=
  | GAMMA_RGB_256
  | GAMMA_RGB_FLOAT_1024
  | GAMMA_CS_TFM_1D
  | GAMMA_CUSTOM.

(** Modelled from the spec: [enum surface_pixel_format] is declared in
    [dc_hw_types.h].  Of its values the model keeps the "4:2:0
    chroma-subsampled formats": the two 8-bit ones, which the switch in
    [amdgpu_dm_update_plane_color_mgmt] names, and the two 10-bit ones;
    [SURFACE_PIXEL_FORMAT_OTHER v] stands for every other value. *)
Inductive surface_pixel_format :=
  | SURFACE_PIXEL_FORMAT_VIDEO_420_YCbCr
  | SURFACE_PIXEL_FORMAT_VIDEO_420_YCrCb
  | SURFACE_PIXEL_FORMAT_VIDEO_420_10bpc_YCbCr
  | SURFACE_PIXEL_FORMAT_VIDEO_420_10bpc_YCrCb
  | SURFACE_PIXEL_FORMAT_OTHER (v : Z).

(** "4:2:0 chroma-subsampled formats", in the specification's words. *)
Definition is_420_subsampled (format : surface_pixel_format) : bool :=
  match format with
  | SURFACE_PIXEL_FORMAT_VIDEO_420_YCbCr
  | SURFACE_PIXEL_FORMAT_VIDEO_420_YCrCb
  | SURFACE_PIXEL_FORMAT_VIDEO_420_10bpc_YCbCr
  | SURFACE_PIXEL_FORMAT_VIDEO_420_10bpc_YCrCb => true
  | SURFACE_PIXEL_FORMAT_OTHER _ => false
  end.

(** What the functions return: [OK] is 0, [EINVAL] and [ENOMEM] are the
    negated errno values, [DC_ERROR_UNEXPECTED] is the [dc_status].
    [OOPS] and [DIVIDE_ERROR] are no return values: the function
    dereferenced a NULL pointer, or divided by zero. *)
Inductive status :=
  | OK
  | EINVAL
  | ENOMEM
  | DC_ERROR_UNEXPECTED
  | OOPS
  | DIVIDE_ERROR.

(** The C test [if (r)]. *)
Definition failed (r : status) : bool :=
  match r with OK => false | _ => true end.

(** ** Structures of DC *)

Record dc_gamma := Build_dc_gamma {
  gamma_type : dc_gamma_type;
  num_entries : Z;
  entries_red : list fixed31_32;
  entries_green : list fixed31_32;
  entries_blue : list fixed31_32
}.

(** [struct dc_transfer_func]; [tf_pts] is filled by the colour module. *)
Record dc_transfer_func := Build_dc_transfer_func {
  func_type : dc_transfer_func_type;
  tf : dc_transfer_func_predefined;
  sdr_ref_white_level : Z;
  tf_pts : list fixed31_32
}.

Record dc_rgb := Build_dc_rgb {
  rgb_red : Z;
  rgb_green : Z;
  rgb_blue : Z
}.

(** [struct dc_3dlut]: [lut_3d.tetrahedral_17.lut0..3], the two mode
    flags of [lut_3d] and [state.bits.initialized]. *)
Record dc_3dlut := Build_dc_3dlut {
  lut0 : list dc_rgb;
  lut1 : list dc_rgb;
  lut2 : list dc_rgb;
  lut3 : list dc_rgb;
  use_tetrahedral_9 : bool;
  use_12bits : bool;
  initialized : bool
}.

Record dc_gamut_remap := Build_dc_gamut_remap {
  matrix : list fixed31_32;
  enable_remap : bool
}.

Record dc_csc_transform := Build_dc_csc_transform {
  enable_adjustment : bool
}.

(** [struct dc_stream_state].  [out_transfer_func] points to an object
    the stream owns; [lut3d_func] and [func_shaper] may be NULL. *)
Record dc_stream_state := Build_dc_stream_state {
  out_transfer_func : dc_transfer_func;
  lut3d_func : option dc_3dlut;
  func_shaper : option dc_transfer_func;
  gamut_remap_matrix : dc_gamut_remap;
  csc_color_matrix : dc_csc_transform
}.

Record dc_plane_state := Build_dc_plane_state {
  format : surface_pixel_format;
  in_transfer_func : dc_transfer_func;
  hdr_mult : fixed31_32
}.

(** ** Structures of DRM and amdgpu *)

Record drm_crtc_state := Build_drm_crtc_state {
  degamma_lut : option drm_property_blob;
  ctm : option drm_color_ctm;
  gamma_lut : option drm_property_blob;
  shaper_lut : option drm_property_blob;
  lut3d : option drm_property_blob;
  regamma_tf : drm_transfer_function
}.

Record dm_crtc_state := Build_dm_crtc_state {
  base : drm_crtc_state;
  stream : dc_stream_state;
  cm_has_degamma : bool;
  cm_is_degamma_srgb : bool
}.

Record drm_plane_state := Build_drm_plane_state {
  plane_degamma_lut : option drm_property_blob;
  degamma_tf : drm_transfer_function;
  plane_hdr_mult : Z
}.

(** [struct amdgpu_device]: [asic_type] and
    [dm.dc->caps.color.mpc.num_3dluts]. *)
Record amdgpu_device := Build_amdgpu_device {
  asic_type : Z;
  num_3dluts : Z
}.

(** Field assignments. *)
Definition set_func_type (v : dc_transfer_func_type) (f : dc_transfer_func) :=
  Build_dc_transfer_func v (tf f) (sdr_ref_white_level f) (tf_pts f).
Definition set_tf (v : dc_transfer_func_predefined) (f : dc_transfer_func) :=
  Build_dc_transfer_func (func_type f) v (sdr_ref_white_level f) (tf_pts f).
Definition set_sdr_ref_white_level (v : Z) (f : dc_transfer_func) :=
  Build_dc_transfer_func (func_type f) (tf f) v (tf_pts f).

Definition set_gamma_type (v : dc_gamma_type) (g : dc_gamma) :=
  Build_dc_gamma v (num_entries g) (entries_red g) (entries_green g)
                 (entries_blue g).
Definition set_num_entries (v : Z) (g : dc_gamma) :=
  Build_dc_gamma (gamma_type g) v (entries_red g) (entries_green g)
                 (entries_blue g).

Definition set_out_transfer_func (v : dc_transfer_func) (s : dc_stream_state) :=
  Build_dc_stream_state v (lut3d_func s) (func_shaper s)
                        (gamut_remap_matrix s) (csc_color_matrix s).
Definition set_lut3d_func (v : option dc_3dlut) (s : dc_stream_state) :=
  Build_dc_stream_state (out_transfer_func s) v (func_shaper s)
                        (gamut_remap_matrix s) (csc_color_matrix s).
Definition set_func_shaper (v : option dc_transfer_func) (s : dc_stream_state) :=
  Build_dc_stream_state (out_transfer_func s) (lut3d_func s) v
                        (gamut_remap_matrix s) (csc_color_matrix s).
Definition set_gamut_remap_matrix (v : dc_gamut_remap) (s : dc_stream_state) :=
  Build_dc_stream_state (out_transfer_func s) (lut3d_func s) (func_shaper s)
                        v (csc_color_matrix s).
Definition set_csc_color_matrix (v : dc_csc_transform) (s : dc_stream_state) :=
  Build_dc_stream_state (out_transfer_func s) (lut3d_func s) (func_shaper s)
                        (gamut_remap_matrix s) v.

Definition set_stream (v : dc_stream_state) (c : dm_crtc_state) :=
  Build_dm_crtc_state (base c) v (cm_has_degamma c) (cm_is_degamma_srgb c).
Definition set_cm_has_degamma (v : bool) (c : dm_crtc_state) :=
  Build_dm_crtc_state (base c) (stream c) v (cm_is_degamma_srgb c).
Definition set_cm_is_degamma_srgb (v : bool) (c : dm_crtc_state) :=
  Build_dm_crtc_state (base c) (stream c) (cm_has_degamma c) v.

Definition set_in_transfer_func (v : dc_transfer_func) (p : dc_plane_state) :=
  Build_dc_plane_state (format p) v (hdr_mult p).
Definition set_hdr_mult (v : fixed31_32) (p : dc_plane_state) :=
  Build_dc_plane_state (format p) (in_transfer_func p) v.

(** ** __drm_ctm_to_dc_matrix *)

(** Modelled from the spec: [dc_fixpt_from_s3132] is declared in
    [fixed31_32.h]; it converts "each retained coefficient from
    sign-magnitude to two's-complement fixed-point".  Bit 63 of the
    [__u64] is the sign, the low 63 bits are the magnitude. *)
Definition dc_fixpt_from_s3132 (x : Z) : fixed31_32 :=
  s64 (if Z.testbit x 63 then - Z.land x (Z.ones 63) else x).

(** [ctm->matrix[k]]. *)
Definition ctm_at (c : drm_color_ctm) (k : Z) : Z :=
  default 0 (ctm_matrix c !! Z.to_nat k).

(** The loop [for (i = ...; i < 12; i++)] with [n] iterations left; C's
    [%] and [/] on [int] are [Z.rem] and [Z.quot]. *)
Fixpoint __drm_ctm_to_dc_matrix_loop (n : nat) (i : Z) (c : drm_color_ctm)
    (m : list fixed31_32) : list fixed31_32 :=
  match n with
  | O => m
  | S n' =>
    if Z.rem i 4 =? 3 then
      __drm_ctm_to_dc_matrix_loop n' (i + 1) c
        (<[Z.to_nat i := dc_fixpt_zero]> m)
    else
      __drm_ctm_to_dc_matrix_loop n' (i + 1) c
        (<[Z.to_nat i := dc_fixpt_from_s3132 (ctm_at c (i - Z.quot i 4))]> m)
  end.

Definition __drm_ctm_to_dc_matrix (c : drm_color_ctm)
    (m : list fixed31_32) : list fixed31_32 :=
  __drm_ctm_to_dc_matrix_loop 12 0 c m.

(** ** drm_tf_to_dc_tf *)

Definition drm_tf_to_dc_tf (drm_tf : drm_transfer_function)
  : dc_transfer_func_predefined :=
  match drm_tf with
  | DRM_TRANSFER_FUNCTION_DEFAULT => TRANSFER_FUNCTION_LINEAR
  | DRM_TRANSFER_FUNCTION_SRGB => TRANSFER_FUNCTION_SRGB
  | DRM_TRANSFER_FUNCTION_BT709 => TRANSFER_FUNCTION_BT709
  | DRM_TRANSFER_FUNCTION_PQ => TRANSFER_FUNCTION_PQ
  | DRM_TRANSFER_FUNCTION_LINEAR => TRANSFER_FUNCTION_LINEAR
  | DRM_TRANSFER_FUNCTION_UNITY => TRANSFER_FUNCTION_UNITY
  | DRM_TRANSFER_FUNCTION_HLG => TRANSFER_FUNCTION_HLG
  | DRM_TRANSFER_FUNCTION_GAMMA22 => TRANSFER_FUNCTION_GAMMA22
  | DRM_TRANSFER_FUNCTION_GAMMA24 => TRANSFER_FUNCTION_GAMMA24
  | DRM_TRANSFER_FUNCTION_GAMMA26 => TRANSFER_FUNCTION_GAMMA26
  | DRM_TRANSFER_FUNCTION_OTHER _ => TRANSFER_FUNCTION_LINEAR
  end.

Definition is_TRANSFER_FUNCTION_LINEAR (t : dc_transfer_func_predefined) : bool :=
  match t with TRANSFER_FUNCTION_LINEAR => true | _ => false end.

Definition is_TRANSFER_FUNCTION_SRGB (t : dc_transfer_func_predefined) : bool :=
  match t with TRANSFER_FUNCTION_SRGB => true | _ => false end.

Definition is_DRM_TRANSFER_FUNCTION_DEFAULT (t : drm_transfer_function) : bool :=
  match t with DRM_TRANSFER_FUNCTION_DEFAULT => true | _ => false end.

(** ** The kernel around the file *)

(** Computations that call into DC thread the state of DC and of the
    allocator. *)
Definition M (world A : Type) : Type := world -> A * world.

Definition ret {world A} (a : A) : M world A := fun w => (a, w).

Definition bind {world A B} (m : M world A) (k : A -> M world B) : M world B :=
  fun w => let (a, w') := m w in k a w'.

Notation "'let*' p ':=' m 'in' k" :=
  (bind m (fun x => match x with p => k end))
  (at level 10, p pattern, m at level 100, k at level 200).

(** What the file takes from the rest of the kernel.

    - [MAX_COLOR_LUT_ENTRIES] ([amdgpu_mode.h]) and [CHIP_RAVEN]
      ([amd_shared.h]) are constants; the full LUT size is more than one
      sample and fits a [uint32_t].
    - [drm_color_lut_extract user_input bit_precision],
      [dc_fixpt_from_int] and [dc_fixpt_from_fraction] are pure.
    - [dc_create_gamma] returns a fresh object or NULL.
    - [mod_color_calculate_regamma_params func gamma mapUserRamp
      canRomBeUsed] and [mod_color_calculate_degamma_params func gamma
      mapUserRamp] write through [func] and report success; the file
      passes NULL for their other pointer arguments.
    - [dc_acquire_release_mpc_3dlut_for_ctx acquire stream lut shaper]
      reports success and writes through [&lut3d_func] and
      [&func_shaper]; its [dc] and [ctx] arguments are part of the
      world. *)
Class DcLib (world : Type) := {
  MAX_COLOR_LUT_ENTRIES : Z;
  MAX_COLOR_LUT_ENTRIES_range : 1 < MAX_COLOR_LUT_ENTRIES < 2 ^ 32;
  CHIP_RAVEN : Z;
  drm_color_lut_extract : Z -> Z -> Z;
  dc_fixpt_from_int : Z -> fixed31_32;
  dc_fixpt_from_fraction : Z -> Z -> fixed31_32;
  dc_create_gamma : M world (option dc_gamma);
  mod_color_calculate_regamma_params :
    dc_transfer_func -> option dc_gamma -> bool -> bool ->
    M world (bool * dc_transfer_func);
  mod_color_calculate_degamma_params :
    dc_transfer_func -> option dc_gamma -> bool ->
    M world (bool * dc_transfer_func);
  dc_acquire_release_mpc_3dlut_for_ctx :
    bool -> dc_stream_state -> option dc_3dlut -> option dc_transfer_func ->
    M world (bool * option dc_3dlut * option dc_transfer_func)
}.

Section Color.

Context {world : Type} {L : DcLib world}.

(** ** __drm_lut_to_dc_gamma *)

(** One iteration: the three channels of [lut[i]] go through
    [drm_color_lut_extract (.., 16)] and [conv] into [entries[i]]. *)
Definition __drm_lut_to_dc_gamma_entry (conv : Z -> fixed31_32)
    (lut : list drm_color_lut) (i : Z) (gamma : dc_gamma) : dc_gamma :=
  let r := drm_color_lut_extract (red (lut_at lut i)) 16 in
  let g := drm_color_lut_extract (green (lut_at lut i)) 16 in
  let b := drm_color_lut_extract (blue (lut_at lut i)) 16 in
  Build_dc_gamma (gamma_type gamma) (num_entries gamma)
    (<[Z.to_nat i := conv r]> (entries_red gamma))
    (<[Z.to_nat i := conv g]> (entries_green gamma))
    (<[Z.to_nat i := conv b]> (entries_blue gamma)).

Fixpoint __drm_lut_to_dc_gamma_loop (conv : Z -> fixed31_32) (n : nat)
    (lut : list drm_color_lut) (i : Z) (gamma : dc_gamma) : dc_gamma :=
  match n with
  | O => gamma
  | S n' =>
    __drm_lut_to_dc_gamma_loop conv n' lut (i + 1)
      (__drm_lut_to_dc_gamma_entry conv lut i gamma)
  end.

(** [None] when [lut] is NULL: the first iteration dereferences it. *)
Definition __drm_lut_to_dc_gamma (lut : option (list drm_color_lut))
    (gamma : dc_gamma) (is_legacy : bool) : option dc_gamma :=
  match lut with
  | None => None
  | Some l =>
    if is_legacy then
      Some (__drm_lut_to_dc_gamma_loop dc_fixpt_from_int
              (Z.to_nat MAX_COLOR_LEGACY_LUT_ENTRIES) l 0 gamma)
    else
      Some (__drm_lut_to_dc_gamma_loop
              (fun v => dc_fixpt_from_fraction v MAX_DRM_LUT_VALUE)
              (Z.to_nat MAX_COLOR_LUT_ENTRIES) l 0 gamma)
  end.

(** ** Stage builders *)

(** The builders return the status and the transfer function they wrote
    through [func].  [ASSERT] only logs and is left out. *)

Definition __set_legacy_tf (func : dc_transfer_func)
    (lut : option (list drm_color_lut)) (lut_size : Z) (has_rom : bool)
  : M world (status * dc_transfer_func) :=
  let* gamma := dc_create_gamma in
  match gamma with
  | None => ret (ENOMEM, func)
  | Some gamma =>
    let gamma := set_gamma_type GAMMA_RGB_256 gamma in
    let gamma := set_num_entries lut_size gamma in
    match __drm_lut_to_dc_gamma lut gamma true with
    | None => ret (OOPS, func)
    | Some gamma =>
      let* (res, func) :=
        mod_color_calculate_regamma_params func (Some gamma) true has_rom in
      ret (if res : bool then OK else ENOMEM, func)
    end
  end.

(** [inl r] stands for the early [return r] of the first block. *)
Definition __set_output_tf (func : dc_transfer_func)
    (lut : option (list drm_color_lut)) (lut_size : Z) (has_rom : bool)
  : M world (status * dc_transfer_func) :=
  let* gamma :=
    if negb (lut_size =? 0) then
      let* gamma := dc_create_gamma in
      match gamma with
      | None => ret (inl ENOMEM)
      | Some gamma =>
        let gamma := set_num_entries lut_size gamma in
        match __drm_lut_to_dc_gamma lut gamma false with
        | None => ret (inl OOPS)
        | Some gamma => ret (inr (Some gamma))
        end
      end
    else ret (inr None) in
  match gamma with
  | inl r => ret (r, func)
  | inr gamma =>
    if is_TRANSFER_FUNCTION_LINEAR (tf func) then
      let gamma := option_map (set_gamma_type GAMMA_CUSTOM) gamma in
      let* (res, func) :=
        mod_color_calculate_degamma_params func gamma
          (bool_decide (is_Some gamma)) in
      ret (if res : bool then OK else ENOMEM, func)
    else
      let gamma := option_map (set_gamma_type GAMMA_CS_TFM_1D) gamma in
      let* (res, func) :=
        mod_color_calculate_regamma_params func gamma
          (bool_decide (is_Some gamma)) has_rom in
      ret (if res : bool then OK else ENOMEM, func)
  end.

Definition amdgpu_dm_set_atomic_regamma (stream : dc_stream_state)
    (regamma_lut : option (list drm_color_lut)) (regamma_size : Z)
    (has_rom : bool) (tf : dc_transfer_func_predefined)
  : M world (status * dc_stream_state) :=
  if negb (regamma_size =? 0) || negb (is_TRANSFER_FUNCTION_LINEAR tf) then
    let func := set_func_type TF_TYPE_DISTRIBUTED_POINTS (out_transfer_func stream) in
    let func := set_tf tf func in
    let func := set_sdr_ref_white_level 80 func in
    let* (ret_, func) := __set_output_tf func regamma_lut regamma_size has_rom in
    ret (ret_, set_out_transfer_func func stream)
  else
    let func := set_func_type TF_TYPE_BYPASS (out_transfer_func stream) in
    let func := set_tf TRANSFER_FUNCTION_LINEAR func in
    ret (OK, set_out_transfer_func func stream).

Definition __set_input_tf (func : dc_transfer_func)
    (lut : option (list drm_color_lut)) (lut_size : Z)
  : M world (status * dc_transfer_func) :=
  let* gamma := dc_create_gamma in
  match gamma with
  | None => ret (ENOMEM, func)
  | Some gamma =>
    let gamma := set_gamma_type GAMMA_CUSTOM gamma in
    let gamma := set_num_entries lut_size gamma in
    match __drm_lut_to_dc_gamma lut gamma false with
    | None => ret (OOPS, func)
    | Some gamma =>
      let* (res, func) :=
        mod_color_calculate_degamma_params func (Some gamma) true in
      ret (if res : bool then OK else ENOMEM, func)
    end
  end.

Definition __set_func_shaper (shaper_func : dc_transfer_func)
    (lut : option (list drm_color_lut)) (lut_size : Z)
  : M world (status * dc_transfer_func) :=
  let* gamma := dc_create_gamma in
  match gamma with
  | None => ret (ENOMEM, shaper_func)
  | Some gamma =>
    let gamma := set_num_entries lut_size gamma in
    match __drm_lut_to_dc_gamma lut gamma false with
    | None => ret (OOPS, shaper_func)
    | Some gamma =>
      let gamma := set_gamma_type GAMMA_CUSTOM gamma in
      let* (res, shaper_func) :=
        mod_color_calculate_degamma_params shaper_func (Some gamma) true in
      ret (if res : bool then OK else ENOMEM, shaper_func)
    end
  end.


(** ** 3D LUT and shaper *)

Definition __to_dc_lut3d_color (lut : drm_color_lut) (bit_precision : Z)
  : dc_rgb :=
  Build_dc_rgb (drm_color_lut_extract (red lut) bit_precision)
               (drm_color_lut_extract (green lut) bit_precision)
               (drm_color_lut_extract (blue lut) bit_precision).

Definition set_lut0 (v : list dc_rgb) (l : dc_3dlut) :=
  Build_dc_3dlut v (lut1 l) (lut2 l) (lut3 l) (use_tetrahedral_9 l)
                 (use_12bits l) (initialized l).

(** The loop [for (lut_i = 0, i = 0; i < lut_size - 4; lut_i++, i += 4)]
    with at most [n] iterations left; [lut_size - 4] is unsigned.  It
    returns the 3D LUT together with [lut_i] and [i] at loop exit. *)
Fixpoint __drm_3dlut_to_dc_3dlut_loop (n : nat) (lut : list drm_color_lut)
    (lut_size : Z) (lut3d : dc_3dlut) (lut_i i : Z) : dc_3dlut * Z * Z :=
  match n with
  | O => (lut3d, lut_i, i)
  | S n' =>
    if u32 i <? u32 (lut_size - 4) then
      let k := Z.to_nat lut_i in
      let lut3d :=
        Build_dc_3dlut
          (<[k := __to_dc_lut3d_color (lut_at lut i) 12]> (lut0 lut3d))
          (<[k := __to_dc_lut3d_color (lut_at lut (i + 1)) 12]> (lut1 lut3d))
          (<[k := __to_dc_lut3d_color (lut_at lut (i + 2)) 12]> (lut2 lut3d))
          (<[k := __to_dc_lut3d_color (lut_at lut (i + 3)) 12]> (lut3 lut3d))
          (use_tetrahedral_9 lut3d) (use_12bits lut3d) (initialized lut3d) in
      __drm_3dlut_to_dc_3dlut_loop n' lut lut_size lut3d (lut_i + 1) (i + 4)
    else (lut3d, lut_i, i)
  end.

Definition __drm_3dlut_to_dc_3dlut (lut : list drm_color_lut) (lut_size : Z)
    (lut3d : dc_3dlut) : dc_3dlut :=
  let '(lut3d, lut_i, i) :=
    __drm_3dlut_to_dc_3dlut_loop (Z.to_nat (u32 (lut_size - 4))) lut lut_size
                                 lut3d 0 0 in
  set_lut0 (<[Z.to_nat lut_i := __to_dc_lut3d_color (lut_at lut i) 12]>
              (lut0 lut3d)) lut3d.

(** [None] when [lut] or [lut3d] is NULL: both are dereferenced.  The
    stream that is returned points to the 3D LUT that was written. *)
Definition amdgpu_dm_atomic_lut3d (stream : dc_stream_state)
    (lut : option (list drm_color_lut)) (lut_size : Z)
    (lut3d : option dc_3dlut) : option dc_stream_state :=
  match lut, lut3d with
  | Some lut, Some lut3d =>
    let lut3d := __drm_3dlut_to_dc_3dlut lut lut_size lut3d in
    let lut3d :=
      Build_dc_3dlut (lut0 lut3d) (lut1 lut3d) (lut2 lut3d) (lut3 lut3d)
                     false true true in
    Some (set_lut3d_func (Some lut3d) stream)
  | _, _ => None
  end.

(** Returns the status, the stream, and the object [func_shaper_new]
    points to as the function left it ([None] for a NULL pointer). *)
Definition amdgpu_dm_atomic_shaper_lut (stream : dc_stream_state)
    (shaper_lut : option (list drm_color_lut)) (shaper_size : Z)
    (func_shaper_new : option dc_transfer_func)
  : M world (status * dc_stream_state * option dc_transfer_func) :=
  match func_shaper_new with
  | None => ret (OOPS, stream, None)
  | Some func =>
    if shaper_size =? 0 then
      let func := set_func_type TF_TYPE_BYPASS func in
      let func := set_tf TRANSFER_FUNCTION_LINEAR func in
      ret (OK, set_func_shaper (Some func) stream, Some func)
    else
      let func := set_func_type TF_TYPE_DISTRIBUTED_POINTS func in
      let func := set_tf TRANSFER_FUNCTION_LINEAR func in
      let* (r, func) := __set_func_shaper func shaper_lut shaper_size in
      if failed r then ret (r, stream, Some func)
      else ret (OK, set_func_shaper (Some func) stream, Some func)
  end.

(** [stream->func_shaper] already points to the object that
    [amdgpu_dm_atomic_shaper_lut] writes through [func_shaper], so what
    that call wrote is seen through the stream also when it fails. *)
Definition amdgpu_dm_atomic_shaper_lut3d (stream : dc_stream_state)
    (drm_shaper_lut : option (list drm_color_lut)) (drm_shaper_size : Z)
    (drm_lut3d : option (list drm_color_lut)) (drm_lut3d_size : Z)
  : M world (status * dc_stream_state) :=
  let acquire := negb (drm_shaper_size =? 0) && negb (drm_lut3d_size =? 0) in
  let lut3d_func := lut3d_func stream in
  let func_shaper := func_shaper stream in
  let* (ok, lut3d_func, func_shaper) :=
    if (acquire && negb (bool_decide (is_Some lut3d_func))
                && negb (bool_decide (is_Some func_shaper)))
       || (negb acquire && bool_decide (is_Some lut3d_func)
                        && bool_decide (is_Some func_shaper))
    then dc_acquire_release_mpc_3dlut_for_ctx acquire stream
                                             lut3d_func func_shaper
    else ret (true, lut3d_func, func_shaper) in
  if negb ok then ret (DC_ERROR_UNEXPECTED, stream)
  else
    let stream := set_lut3d_func lut3d_func stream in
    let stream := set_func_shaper func_shaper stream in
    if negb acquire then ret (OK, stream)
    else
      match amdgpu_dm_atomic_lut3d stream drm_lut3d drm_lut3d_size lut3d_func with
      | None => ret (OOPS, stream)
      | Some stream =>
        let* (r, stream, func) :=
          amdgpu_dm_atomic_shaper_lut stream drm_shaper_lut drm_shaper_size
                                      func_shaper in
        ret (r, set_func_shaper func stream)
      end.

(** ** LUT size validation *)

Definition amdgpu_dm_get_lut3d_size (adev : amdgpu_device) (lut_size : Z) : Z :=
  if negb (num_3dluts adev =? 0) then lut_size else 0.

Definition amdgpu_dm_verify_lut3d_size (adev : amdgpu_device)
    (crtc_state : drm_crtc_state) : status :=
  let exp_size := amdgpu_dm_get_lut3d_size adev MAX_COLOR_LUT_ENTRIES in
  let '(shaper, size) := __extract_blob_lut (shaper_lut crtc_state) in
  if bool_decide (is_Some shaper) && negb (size =? exp_size) then EINVAL
  else
    let exp_size := amdgpu_dm_get_lut3d_size adev MAX_COLOR_3DLUT_ENTRIES in
    let '(lut3d, size) := __extract_blob_lut (lut3d crtc_state) in
    if bool_decide (is_Some lut3d) && negb (size =? exp_size) then EINVAL
    else OK.

Definition amdgpu_dm_verify_lut_sizes (crtc_state : drm_crtc_state) : status :=
  let '(lut, size) := __extract_blob_lut (degamma_lut crtc_state) in
  if bool_decide (is_Some lut) && negb (size =? MAX_COLOR_LUT_ENTRIES) then EINVAL
  else
    let '(lut, size) := __extract_blob_lut (gamma_lut crtc_state) in
    if bool_decide (is_Some lut) && negb (size =? MAX_COLOR_LUT_ENTRIES)
       && negb (size =? MAX_COLOR_LEGACY_LUT_ENTRIES) then EINVAL
    else OK.


(** ** amdgpu_dm_update_crtc_color_mgmt *)

(** [lut && !__is_lut_linear(lut, size)]; [None] when the call divides
    by zero. *)
Definition lut_is_nonlinear (lut : option (list drm_color_lut)) (size : Z)
  : option bool :=
  match lut with
  | Some l =>
    match __is_lut_linear l size with
    | Some b => Some (negb b)
    | None => None
    end
  | None => Some false
  end.

(** The block [if (has_lut3d) ... else ...] of the atomic path: the
    3D LUT is set with the shaper LUT the commit supplies, or unset. *)
Definition crtc_atomic_shaper_lut3d (stream : dc_stream_state)
    (shaper_lut : option (list drm_color_lut)) (shaper_size : Z)
    (lut3d : option (list drm_color_lut)) (lut3d_size : Z)
  : M world (status * dc_stream_state) :=
  let has_shaper_lut := bool_decide (is_Some shaper_lut) in
  let has_lut3d := bool_decide (is_Some lut3d) in
  if has_lut3d then
    let shaper_size := if has_shaper_lut then shaper_size else 0 in
    amdgpu_dm_atomic_shaper_lut3d stream shaper_lut shaper_size
                                  lut3d lut3d_size
  else
    amdgpu_dm_atomic_shaper_lut3d stream None 0 None 0.

(** The block [if (is_legacy) ... else ...] that sets up regamma; a
    failed status stands for the [return r] inside it. *)
Definition crtc_setup_regamma (crtc : dm_crtc_state) (has_rom : bool)
    (tf : dc_transfer_func_predefined)
    (shaper_lut : option (list drm_color_lut)) (shaper_size : Z)
    (lut3d : option (list drm_color_lut)) (lut3d_size : Z)
    (regamma_lut : option (list drm_color_lut)) (regamma_size : Z)
    (has_regamma : bool)
  : M world (status * dm_crtc_state) :=
  let is_legacy := regamma_size =? MAX_COLOR_LEGACY_LUT_ENTRIES in
  if is_legacy then
    let crtc := set_cm_is_degamma_srgb true crtc in
    let func := set_func_type TF_TYPE_DISTRIBUTED_POINTS
                  (out_transfer_func (stream crtc)) in
    let func := set_tf TRANSFER_FUNCTION_SRGB func in
    let* (r, func) := __set_legacy_tf func regamma_lut regamma_size has_rom in
    ret (r, set_stream (set_out_transfer_func func (stream crtc)) crtc)
  else
    let* (r, stream) :=
      crtc_atomic_shaper_lut3d (stream crtc) shaper_lut shaper_size
                               lut3d lut3d_size in
    if failed r then ret (r, set_stream stream crtc)
    else
      let regamma_size := if has_regamma then regamma_size else 0 in
      let* (r, stream) :=
        amdgpu_dm_set_atomic_regamma stream regamma_lut regamma_size
                                     has_rom tf in
      ret (r, set_stream stream crtc).

(** The block "Setup CRTC CTM." at the end of the function. *)
Definition crtc_setup_ctm (crtc : dm_crtc_state) : dm_crtc_state :=
  let stream := stream crtc in
  match ctm (base crtc) with
  | Some ctm =>
    let m := __drm_ctm_to_dc_matrix ctm (matrix (gamut_remap_matrix stream)) in
    let stream := set_gamut_remap_matrix (Build_dc_gamut_remap m true) stream in
    let stream := set_csc_color_matrix (Build_dc_csc_transform false) stream in
    set_stream stream crtc
  | None =>
    let stream :=
      set_gamut_remap_matrix
        (Build_dc_gamut_remap (matrix (gamut_remap_matrix stream)) false)
        stream in
    let stream := set_csc_color_matrix (Build_dc_csc_transform false) stream in
    set_stream stream crtc
  end.

(** [crtc->stream] is a pointer: what is written through [stream] is
    seen through [crtc], also on the error returns.  The [ctx] argument
    is only handed on to [dc_acquire_release_mpc_3dlut_for_ctx] and is
    part of the world; [adev] is [drm_to_adev(crtc->base.state->dev)].
    [has_degamma] and [has_regamma] are computed before anything is
    written; a divide error in [__is_lut_linear] ends the function
    there. *)
Definition amdgpu_dm_update_crtc_color_mgmt (adev : amdgpu_device)
    (crtc : dm_crtc_state) : M world (status * dm_crtc_state) :=
  let has_rom := asic_type adev <=? CHIP_RAVEN in
  let r := amdgpu_dm_verify_lut_sizes (base crtc) in
  if failed r then ret (r, crtc)
  else
    let r := amdgpu_dm_verify_lut3d_size adev (base crtc) in
    if failed r then ret (r, crtc)
    else
      let '(degamma_lut, degamma_size) :=
        __extract_blob_lut (degamma_lut (base crtc)) in
      let '(shaper_lut, shaper_size) :=
        __extract_blob_lut (shaper_lut (base crtc)) in
      let '(lut3d, lut3d_size) := __extract_blob_lut (lut3d (base crtc)) in
      let '(regamma_lut, regamma_size) :=
        __extract_blob_lut (gamma_lut (base crtc)) in
      match lut_is_nonlinear degamma_lut degamma_size with
      | None => ret (DIVIDE_ERROR, crtc)
      | Some has_degamma =>
        match lut_is_nonlinear regamma_lut regamma_size with
        | None => ret (DIVIDE_ERROR, crtc)
        | Some has_regamma =>
          let tf := drm_tf_to_dc_tf (regamma_tf (base crtc)) in
          let crtc := set_cm_has_degamma false crtc in
          let crtc := set_cm_is_degamma_srgb false crtc in
          let* (r, crtc) :=
            crtc_setup_regamma crtc has_rom tf shaper_lut shaper_size
                               lut3d lut3d_size regamma_lut regamma_size
                               has_regamma in
          if failed r then ret (r, crtc)
          else
            let crtc := set_cm_has_degamma has_degamma crtc in
            ret (OK, crtc_setup_ctm crtc)
        end
      end.

(** ** amdgpu_dm_update_plane_color_mgmt *)

(** The switch on [dc_plane_state->format]: the base transfer function
    for implicit degamma, [TRANSFER_FUNCTION_SRGB] unless overridden.
    The last case is the [default]. *)
Definition plane_base_tf (format : surface_pixel_format)
  : dc_transfer_func_predefined :=
  match format with
  | SURFACE_PIXEL_FORMAT_VIDEO_420_YCbCr
  | SURFACE_PIXEL_FORMAT_VIDEO_420_YCrCb => TRANSFER_FUNCTION_BT709
  | _ => TRANSFER_FUNCTION_SRGB
  end.

(** The base curve as the specification words it: "BT.709 for 4:2:0
    chroma-subsampled formats, sRGB otherwise". *)
Definition spec_plane_base_tf (format : surface_pixel_format)
  : dc_transfer_func_predefined :=
  if is_420_subsampled format then TRANSFER_FUNCTION_BT709
  else TRANSFER_FUNCTION_SRGB.

(** [crtc_degamma_lut] is [crtc->base.degamma_lut], named before the
    local [degamma_lut] hides the field.  [has_degamma] is computed before
    [hdr_mult] is stored; a divide error in [__is_lut_linear] ends the
    function there. *)
Definition amdgpu_dm_update_plane_color_mgmt (crtc : dm_crtc_state)
    (plane_state : drm_plane_state) (dc_plane : dc_plane_state)
  : M world (status * dc_plane_state) :=
  let crtc_degamma_lut := degamma_lut (base crtc) in
  let '(degamma_lut, degamma_size) :=
    __extract_blob_lut (plane_degamma_lut plane_state) in
  match lut_is_nonlinear degamma_lut degamma_size with
  | None => ret (DIVIDE_ERROR, dc_plane)
  | Some has_degamma =>
    let drm_tf := degamma_tf plane_state in
    let dc_plane :=
      set_hdr_mult (dc_fixpt_from_s3132 (plane_hdr_mult plane_state))
                   dc_plane in
    let tf := plane_base_tf (format dc_plane) in
    let func := in_transfer_func dc_plane in
    if has_degamma then
      let func := set_func_type TF_TYPE_DISTRIBUTED_POINTS func in
      let func := set_tf (drm_tf_to_dc_tf drm_tf) func in
      let* (r, func) := __set_input_tf func degamma_lut degamma_size in
      ret (r, set_in_transfer_func func dc_plane)
    else if negb (is_DRM_TRANSFER_FUNCTION_DEFAULT drm_tf) then
      let func := set_func_type TF_TYPE_PREDEFINED func in
      let func := set_tf (drm_tf_to_dc_tf drm_tf) func in
      let* (res, func) := mod_color_calculate_degamma_params func None false in
      ret (if res : bool then OK else ENOMEM,
           set_in_transfer_func func dc_plane)
    else if cm_has_degamma crtc then
      let '(degamma_lut, degamma_size) :=
        __extract_blob_lut crtc_degamma_lut in
      let func := set_func_type TF_TYPE_DISTRIBUTED_POINTS func in
      let func :=
        if cm_is_degamma_srgb crtc then set_tf tf func
        else set_tf TRANSFER_FUNCTION_LINEAR func in
      let* (r, func) := __set_input_tf func degamma_lut degamma_size in
      ret (r, set_in_transfer_func func dc_plane)
    else if cm_is_degamma_srgb crtc then
      let func := set_func_type TF_TYPE_PREDEFINED func in
      let func := set_tf tf func in
      if negb (is_TRANSFER_FUNCTION_SRGB tf) then
        let* (res, func) := mod_color_calculate_degamma_params func None false in
        ret (if res : bool then OK else ENOMEM,
             set_in_transfer_func func dc_plane)
      else ret (OK, set_in_transfer_func func dc_plane)
    else
      let func := set_func_type TF_TYPE_BYPASS func in
      let func := set_tf TRANSFER_FUNCTION_LINEAR func in
      ret (OK, set_in_transfer_func func dc_plane)
  end.

End Color.

(** ** Properties that the theorems speak of *)

(** The 3D LUT and the shaper of a stream are held together. *)
Definition pair_invariant (s : dc_stream_state) : Prop :=
  (is_Some (lut3d_func s) /\ is_Some (func_shaper s)) \/
  (lut3d_func s = None /\ func_shaper s = None).

(** Modelled from the spec: [dc_acquire_release_mpc_3dlut_for_ctx] is
    defined in DC; "the 3D-LUT object and shaper stage object are a
    single logical unit": an acquire that succeeds hands out both, a
    release that succeeds leaves both pointers absent. *)
Definition mpc_3dlut_paired {world : Type} (L : DcLib world) : Prop :=
  forall acquire stream l s w l' s' w',
    dc_acquire_release_mpc_3dlut_for_ctx acquire stream l s w
      = ((true, l', s'), w') ->
    if acquire then is_Some l' /\ is_Some s' else l' = None /\ s' = None.

Definition set_regamma_tf (v : drm_transfer_function) (c : dm_crtc_state) :=
  Build_dm_crtc_state
    (Build_drm_crtc_state (degamma_lut (base c)) (ctm (base c))
       (gamma_lut (base c)) (shaper_lut (base c)) (lut3d (base c)) v)
    (stream c) (cm_has_degamma c) (cm_is_degamma_srgb c).

(** ** A small DC to run the model on *)

(** The world counts the free MPC 3D LUTs and the gamma objects that can
    still be allocated. *)
Record sim_world := Build_sim_world {
  sim_free_3dluts : nat;
  sim_free_gammas : nat
}.

Definition sim_gamma : dc_gamma :=
  Build_dc_gamma GAMMA_RGB_256 0 (replicate 4096 0) (replicate 4096 0)
                 (replicate 4096 0).

Definition sim_3dlut : dc_3dlut :=
  Build_dc_3dlut (replicate 1229 (Build_dc_rgb 0 0 0))
                 (replicate 1228 (Build_dc_rgb 0 0 0))
                 (replicate 1228 (Build_dc_rgb 0 0 0))
                 (replicate 1228 (Build_dc_rgb 0 0 0)) false false false.

Definition sim_func : dc_transfer_func :=
  Build_dc_transfer_func TF_TYPE_BYPASS TRANSFER_FUNCTION_LINEAR 0 [].

Definition sim_create_gamma : M sim_world (option dc_gamma) :=
  fun w =>
    match sim_free_gammas w with
    | O => (None, w)
    | S n => (Some sim_gamma, Build_sim_world (sim_free_3dluts w) n)
    end.

Definition sim_acquire_release (acquire : bool) (stream : dc_stream_state)
    (l : option dc_3dlut) (s : option dc_transfer_func)
  : M sim_world (bool * option dc_3dlut * option dc_transfer_func) :=
  fun w =>
    if acquire then
      match sim_free_3dluts w with
      | O => ((false, l, s), w)
      | S n => ((true, Some sim_3dlut, Some sim_func),
                Build_sim_world n (sim_free_gammas w))
      end
    else
      match l, s with
      | Some _, Some _ =>
        ((true, None, None),
         Build_sim_world (S (sim_free_3dluts w)) (sim_free_gammas w))
      | _, _ => ((false, l, s), w)
      end.

Definition sim_lut_extract (user_input bit_precision : Z) : Z :=
  let max := Z.shiftr 65535 (16 - bit_precision) in
  let val :=
    if bit_precision <? 16
    then Z.shiftr (user_input + Z.shiftl 1 (16 - bit_precision - 1))
                  (16 - bit_precision)
    else user_input in
  Z.min val max.

Definition sim_lib : DcLib sim_world := {|
  MAX_COLOR_LUT_ENTRIES := 4096;
  MAX_COLOR_LUT_ENTRIES_range := conj eq_refl eq_refl;
  CHIP_RAVEN := 22;
  drm_color_lut_extract := sim_lut_extract;
  dc_fixpt_from_int := fun v => v * 2 ^ 32;
  dc_fixpt_from_fraction := fun n d => (n * 2 ^ 33 + d) / (2 * d);
  dc_create_gamma := sim_create_gamma;
  mod_color_calculate_regamma_params :=
    fun func gamma mapUserRamp canRomBeUsed =>
      ret (true, set_func_type TF_TYPE_DISTRIBUTED_POINTS func);
  mod_color_calculate_degamma_params :=
    fun func gamma mapUserRamp =>
      ret (true, if mapUserRamp
                 then set_func_type TF_TYPE_DISTRIBUTED_POINTS func
                 else func);
  dc_acquire_release_mpc_3dlut_for_ctx := sim_acquire_release
|}.

(** ** Concrete inputs *)

Definition grey (v : Z) : drm_color_lut := Build_drm_color_lut v v v 0.


Definition ramp5 : list drm_color_lut :=
  [grey 0; grey 16383; grey 32767; grey 49151; grey 65535].

(** A ramp of [n] samples [i * 65535 / (n - 1)]. *)
Definition ramp (n : nat) : list drm_color_lut :=
  map (fun i => grey (Z.of_nat i * 65535 / (Z.of_nat n - 1))) (seq 0 n).

(** The full-size ramp with sample 137 lowered from 2192 to 2191;
    [137 * 65535 / 4095] is 2192.502... *)
Definition ramp4096_low : list drm_color_lut := <[137%nat := grey 2191]> (ramp 4096).

(** The identity matrix in S31.32. *)
Definition ctm_identity : drm_color_ctm :=
  Build_drm_color_ctm [2 ^ 32; 0; 0; 0; 2 ^ 32; 0; 0; 0; 2 ^ 32].

Definition blob_of (n : nat) (e : drm_color_lut) : drm_property_blob :=
  Build_drm_property_blob (replicate n e).

Definition stream0 : dc_stream_state :=
  Build_dc_stream_state sim_func None None
    (Build_dc_gamut_remap (replicate 12 0) false)
    (Build_dc_csc_transform true).

Definition crtc_of (b : drm_crtc_state) (s : dc_stream_state) : dm_crtc_state :=
  Build_dm_crtc_state b s false false.

(** No property set. *)
Definition base0 : drm_crtc_state :=
  Build_drm_crtc_state None None None None None DRM_TRANSFER_FUNCTION_DEFAULT.

(** Only a 3D LUT of the supported size, no shaper LUT. *)
Definition base_lut3d_only : drm_crtc_state :=
  Build_drm_crtc_state None None None None
    (Some (blob_of 4913 (grey 0))) DRM_TRANSFER_FUNCTION_DEFAULT.

(** A DCN 3 device: one MPC 3D LUT, no ROM. *)
Definition adev_dcn3 : amdgpu_device := Build_amdgpu_device 30 1.

(** A device without 3D LUT. *)
Definition adev_no_3dlut : amdgpu_device := Build_amdgpu_device 22 0.

(** A CTM and an sRGB regamma curve, no LUT. *)
Definition base_ctm_srgb : drm_crtc_state :=
  Build_drm_crtc_state None (Some ctm_identity) None None None
                       DRM_TRANSFER_FUNCTION_SRGB.

(** What the CRTC update makes of [base_ctm_srgb] on [stream0]. *)
Definition crtc_ctm_srgb_done : dm_crtc_state :=
  Build_dm_crtc_state base_ctm_srgb
    (Build_dc_stream_state
       (Build_dc_transfer_func TF_TYPE_DISTRIBUTED_POINTS
                               TRANSFER_FUNCTION_SRGB 80 [])
       None None
       (Build_dc_gamut_remap
          [ dc_fixpt_one; 0; 0; 0; 0; dc_fixpt_one; 0; 0;
            0; 0; dc_fixpt_one; 0 ] true)
       (Build_dc_csc_transform false))
    false false.

(** What the CRTC update makes of [base_lut3d_only] on [stream0]. *)
Definition crtc_lut3d_only_done : dm_crtc_state :=
  Build_dm_crtc_state base_lut3d_only
    (Build_dc_stream_state
       (Build_dc_transfer_func TF_TYPE_BYPASS TRANSFER_FUNCTION_LINEAR 0 [])
       None None
       (Build_dc_gamut_remap (replicate 12 0) false)
       (Build_dc_csc_transform false))
    false false.

(** A stream that holds the 3D LUT and shaper pair. *)
Definition stream_held : dc_stream_state :=
  Build_dc_stream_state sim_func (Some sim_3dlut) (Some sim_func)
    (Build_dc_gamut_remap (replicate 12 0) false)
    (Build_dc_csc_transform true).

Definition crtc_released_done : dm_crtc_state :=
  Build_dm_crtc_state base0
    (Build_dc_stream_state
       (Build_dc_transfer_func TF_TYPE_BYPASS TRANSFER_FUNCTION_LINEAR 0 [])
       None None
       (Build_dc_gamut_remap (replicate 12 0) false)
       (Build_dc_csc_transform false))
    false false.

(** A legacy gamma ramp of 256 samples and a PQ curve request. *)
Definition base_legacy : drm_crtc_state :=
  Build_drm_crtc_state None None (Some (Build_drm_property_blob (ramp 256)))
                       None None DRM_TRANSFER_FUNCTION_PQ.

Definition crtc_legacy_done : dm_crtc_state :=
  Build_dm_crtc_state base_legacy
    (Build_dc_stream_state
       (Build_dc_transfer_func TF_TYPE_DISTRIBUTED_POINTS
                               TRANSFER_FUNCTION_SRGB 0 [])
       None None
       (Build_dc_gamut_remap (replicate 12 0) false)
       (Build_dc_csc_transform false))
    false true.

(** A full-size gamma LUT that is all zero, hence not linear. *)
Definition base_gamma_zero : drm_crtc_state :=
  Build_drm_crtc_state None None (Some (blob_of 4096 (grey 0)))
                       None None DRM_TRANSFER_FUNCTION_DEFAULT.

Definition crtc_gamma_zero_done : dm_crtc_state :=
  Build_dm_crtc_state base_gamma_zero
    (Build_dc_stream_state
       (Build_dc_transfer_func TF_TYPE_DISTRIBUTED_POINTS
                               TRANSFER_FUNCTION_LINEAR 80 [])
       None None
       (Build_dc_gamut_remap (replicate 12 0) false)
       (Build_dc_csc_transform false))
    false false.

(** A CRTC whose update found a non-linear degamma LUT in legacy mode,
    and an NV12 plane without colour properties. *)
Definition crtc_degamma_srgb : dm_crtc_state :=
  Build_dm_crtc_state
    (Build_drm_crtc_state (Some (blob_of 4096 (grey 0))) None None None None
                          DRM_TRANSFER_FUNCTION_DEFAULT)
    stream0 true true.

Definition plane_state0 : drm_plane_state :=
  Build_drm_plane_state None DRM_TRANSFER_FUNCTION_DEFAULT (2 ^ 32).

Definition dc_plane_nv12 : dc_plane_state :=
  Build_dc_plane_state SURFACE_PIXEL_FORMAT_VIDEO_420_YCbCr sim_func 0.

(** A 3D LUT and a shaper LUT, both of the supported size. *)
Definition base_lut3d_shaper : drm_crtc_state :=
  Build_drm_crtc_state None None None (Some (Build_drm_property_blob (ramp 4096)))
    (Some (blob_of 4913 (grey 0))) DRM_TRANSFER_FUNCTION_DEFAULT.

(** The same kernel with another MPC 3D LUT pool. *)
Definition with_acquire_release {world : Type}
    (h : bool -> dc_stream_state -> option dc_3dlut -> option dc_transfer_func ->
         M world (bool * option dc_3dlut * option dc_transfer_func))
    (L : DcLib world) : DcLib world := {|
  MAX_COLOR_LUT_ENTRIES := MAX_COLOR_LUT_ENTRIES;
  MAX_COLOR_LUT_ENTRIES_range := MAX_COLOR_LUT_ENTRIES_range;
  CHIP_RAVEN := CHIP_RAVEN;
  drm_color_lut_extract := drm_color_lut_extract;
  dc_fixpt_from_int := dc_fixpt_from_int;
  dc_fixpt_from_fraction := dc_fixpt_from_fraction;
  dc_create_gamma := dc_create_gamma;
  mod_color_calculate_regamma_params := mod_color_calculate_regamma_params;
  mod_color_calculate_degamma_params := mod_color_calculate_degamma_params;
  dc_acquire_release_mpc_3dlut_for_ctx := h
|}.

(** A pool that always refuses. *)
Definition pool_refuses {world : Type} (acquire : bool)
    (stream : dc_stream_state) (l : option dc_3dlut)
    (s : option dc_transfer_func)
  : M world (bool * option dc_3dlut * option dc_transfer_func) :=
  ret (false, l, s).

(** What the CRTC update makes of [base_lut3d_shaper] on [stream_held]
    leaves this shaper behind. *)
Definition crtc_both_held : dm_crtc_state := crtc_of base_lut3d_shaper stream_held.

(** Runs of the model on the small DC. *)

(** The all-zero gamma LUT when no gamma object can be allocated. *)
Definition run_gamma_zero_nomem :=
  amdgpu_dm_update_crtc_color_mgmt (L := sim_lib) adev_dcn3
    (crtc_of base_gamma_zero stream0) (Build_sim_world 1 0).

(** A legacy gamma ramp on a stream that holds the pair. *)
Definition run_legacy_held :=
  amdgpu_dm_update_crtc_color_mgmt (L := sim_lib) adev_dcn3
    (crtc_of base_legacy stream_held) (Build_sim_world 0 2).

(** A 3D LUT and a shaper LUT on a stream that holds nothing. *)
Definition run_lut3d_shaper :=
  amdgpu_dm_update_crtc_color_mgmt (L := sim_lib) adev_dcn3
    (crtc_of base_lut3d_shaper stream0) (Build_sim_world 1 2).

(** A plane with a degamma LUT of its own that is not linear. *)
Definition plane_state_lut : drm_plane_state :=
  Build_drm_plane_state (Some (blob_of 4096 (grey 0)))
                        DRM_TRANSFER_FUNCTION_PQ (2 ^ 32).

Definition dc_plane_rgb : dc_plane_state :=
  Build_dc_plane_state (SURFACE_PIXEL_FORMAT_OTHER 8) sim_func 0.



(** A 10-bit 4:2:0 plane (P010) without colour properties under
    [crtc_degamma_srgb]. *)
Definition dc_plane_p010 : dc_plane_state :=
  Build_dc_plane_state SURFACE_PIXEL_FORMAT_VIDEO_420_10bpc_YCbCr sim_func 0.

Definition run_plane_p010 :=
  amdgpu_dm_update_plane_color_mgmt (L := sim_lib) crtc_degamma_srgb
    plane_state0 dc_plane_p010 (Build_sim_world 1 2).

(** A plane whose degamma LUT has one grey sample. *)
Definition plane_state_one_sample : drm_plane_state :=
  Build_drm_plane_state (Some (blob_of 1 (grey 0)))
                        DRM_TRANSFER_FUNCTION_DEFAULT (2 ^ 32).

Definition run_plane_one_sample :=
  amdgpu_dm_update_plane_color_mgmt (L := sim_lib) crtc_degamma_srgb
    plane_state_one_sample dc_plane_rgb (Build_sim_world 1 2).

(** * Theorems *)

(** ** Integer conversions *)

Lemma u32_small x : 0 <= x < 2 ^ 32 -> u32 x = x.
Proof. intros H. unfold u32. apply Z.mod_small. exact H. Qed.

Lemma s32_small x : - 2 ^ 31 <= x < 2 ^ 31 -> s32 x = x.
Proof. intros H. unfold s32. rewrite Z.mod_small; lia. Qed.

Lemma u32_s32 x : u32 (s32 x) = u32 x.
Proof.
  unfold u32, s32.
  rewrite <- Zminus_mod_idemp_l, Z.mod_mod by lia.
  rewrite Zminus_mod_idemp_l. f_equal. lia.
Qed.


(** ** The linearity detector *)

Lemma lut_at_wf lut i :
  lut_wf lut -> 0 <= i < Z.of_nat (length lut) ->
  0 <= red (lut_at lut i) < 65536.
Proof.
  intros Hwf Hi. unfold lut_at.
  destruct (lut !! Z.to_nat i) as [e|] eqn:He.
  - unfold lut_wf in Hwf. rewrite Forall_lookup in Hwf.
    destruct (Hwf _ _ He) as [H _]. exact H.
  - simpl. lia.
Qed.

Lemma expected_exact i size :
  1 < size <= 65538 -> 0 <= i < size ->
  u32 (s32 (i * MAX_DRM_LUT_VALUE)) / u32 (size - 1) = (i * 65535) / (size - 1)
  /\ 0 <= (i * 65535) / (size - 1) <= 65535.
Proof.
  intros Hs Hi. unfold MAX_DRM_LUT_VALUE.
  rewrite u32_s32, !u32_small by lia.
  split; [reflexivity|]. split.
  - apply Z.div_pos; lia.
  - apply Z.div_le_upper_bound; lia.
Qed.

Lemma __is_lut_linear_loop_spec n : forall lut size i,
  lut_wf lut -> size = Z.of_nat (length lut) -> 1 < size <= 65538 ->
  0 <= i -> i + Z.of_nat n = size ->
  __is_lut_linear_loop n lut size i = Some true <->
  (forall j, i <= j < size -> sample_linear size j (lut_at lut j)).
Proof.
  induction n as [|n IH]; intros lut size i Hwf Hlen Hs Hi Hn.
  - simpl. split; [intros _ j Hj; lia | reflexivity].
  - cbn [__is_lut_linear_loop].
    assert (Hi' : 0 <= i < size) by lia.
    rewrite u32_small by lia.
    destruct (Z.ltb_spec i size) as [_|]; [|lia]. cbn [negb].
    assert (Hz : (u32 (size - 1) =? 0) = false)
      by (rewrite u32_small by lia; apply Z.eqb_neq; lia).
    rewrite Hz.
    destruct (expected_exact i size Hs Hi') as [-> Hexp].
    pose proof (lut_at_wf lut i Hwf ltac:(lia)) as Hred.
    rewrite (u32_small (red _)) by lia.
    rewrite (s32_small (red _ - _)) by lia.
    rewrite (s32_small (i + 1)) by lia.
    assert (Hstep : (forall j, i <= j < size -> sample_linear size j (lut_at lut j))
                    <-> sample_linear size i (lut_at lut i) /\
                        (forall j, i + 1 <= j < size ->
                                   sample_linear size j (lut_at lut j))).
    { split.
      - intros H. split; [apply H; lia | intros j Hj; apply H; lia].
      - intros [H0 H1] j Hj. destruct (Z.eq_dec j i) as [->|]; [exact H0|].
        apply H1. lia. }
    rewrite Hstep. rewrite <- (IH lut size (i + 1)) by (try assumption; lia).
    unfold sample_linear.
    destruct (Z.eqb_spec (red (lut_at lut i)) (green (lut_at lut i))) as [Hrg|Hrg];
      cbn [negb orb]; [|split; [discriminate | intros [[? _] _]; contradiction]].
    destruct (Z.eqb_spec (green (lut_at lut i)) (blue (lut_at lut i))) as [Hgb|Hgb];
      cbn [negb orb]; [|split; [discriminate | intros [[_ [? _]] _]; contradiction]].
    destruct (Z.ltb_spec (red (lut_at lut i) - i * 65535 / (size - 1)) (-1));
      cbn [orb]; [split; [discriminate | intros [[_ [_ ?]] _]; lia]|].
    destruct (Z.ltb_spec 1 (red (lut_at lut i) - i * 65535 / (size - 1)));
      [split; [discriminate | intros [[_ [_ ?]] _]; lia]|].
    split; [intros ->; repeat split; try assumption; lia | intros [_ ?]; assumption].
Qed.

(** The detector returns whenever its divisor is not zero. *)
Lemma __is_lut_linear_loop_defined n : forall lut size i,
  u32 (size - 1) <> 0 -> is_Some (__is_lut_linear_loop n lut size i).
Proof.
  induction n as [|n IH]; intros lut size i Hz;
    cbn [__is_lut_linear_loop]; cbv zeta; [eauto|].
  destruct (negb (u32 i <? size)); [eauto|].
  destruct (negb _ || negb _); [eauto|].
  destruct (Z.eqb_spec (u32 (size - 1)) 0) as [|_]; [contradiction|].
  destruct (_ || _); [eauto|]. apply IH. exact Hz.
Qed.

Lemma lut_is_nonlinear_defined lut size :
  u32 (size - 1) <> 0 -> is_Some (lut_is_nonlinear lut size).
Proof.
  intros Hz. unfold lut_is_nonlinear, __is_lut_linear.
  destruct lut as [l|]; [|eauto].
  destruct (__is_lut_linear_loop_defined (Z.to_nat size) l size 0 Hz) as [b ->].
  eauto.
Qed.


(** On a LUT of one sample the detector answers false when the channels
    differ and divides by zero when they are equal. *)
Lemma __is_lut_linear_one_sample (e : drm_color_lut) :
  __is_lut_linear [e] 1
  = if (red e =? green e) && (green e =? blue e) then None else Some false.
Proof.
  unfold __is_lut_linear. change (Z.to_nat 1) with 1%nat.
  cbn [__is_lut_linear_loop]. change (lut_at [e] 0) with e.
  change (negb (u32 0 <? 1)) with false.
  change (u32 (1 - 1) =? 0) with true. cbv iota zeta.
  destruct (red e =? green e), (green e =? blue e); reflexivity.
Qed.


Lemma ramp5_wf : lut_wf ramp5.
Proof. unfold lut_wf, ramp5, grey. repeat constructor; simpl; lia. Qed.




(** The same at the full size of 4096 samples. *)
Example __is_lut_linear_not_rounding_4096 :
  __is_lut_linear ramp4096_low 4096 = Some true /\
  spec_is_linear ramp4096_low = false.
Proof. split; vm_compute; reflexivity. Qed.

(** A value that rounding would accept and the code rejects. *)
Example __is_lut_linear_rejects_rounded_up :
  __is_lut_linear (<[1%nat := grey 16385]> ramp5) 5 = Some false /\
  spec_is_linear (<[1%nat := grey 16385]> ramp5) = true.
Proof. split; vm_compute; reflexivity. Qed.

(** ** The CTM conversion *)

Lemma dc_fixpt_from_s3132_sign_magnitude (sign : bool) (mag : Z) :
  0 <= mag < 2 ^ 63 ->
  dc_fixpt_from_s3132 (mag + (if sign then 2 ^ 63 else 0))
  = if sign then - mag else mag.
Proof.
  intros Hm. unfold dc_fixpt_from_s3132, s64.
  destruct sign.
  - assert (Hb : Z.testbit (mag + 2 ^ 63) 63 = true).
    { apply Z.testbit_true; [lia|].
      replace (mag + 2 ^ 63) with (mag + 1 * 2 ^ 63) by lia.
      rewrite Z.div_add by lia. rewrite Z.div_small by lia. reflexivity. }
    rewrite Hb, Z.land_ones by lia.
    replace (mag + 2 ^ 63) with (mag + 1 * 2 ^ 63) by lia.
    rewrite Z.mod_add, (Z.mod_small mag) by lia.
    rewrite Z.mod_small; lia.
  - rewrite Z.add_0_r.
    assert (Hb : Z.testbit mag 63 = false).
    { apply Z.testbit_false; [lia|]. rewrite Z.div_small by lia. reflexivity. }
    rewrite Hb. rewrite Z.mod_small; lia.
Qed.

Lemma __drm_ctm_to_dc_matrix_entries (c : drm_color_ctm) (m : list fixed31_32) :
  length m = 12%nat ->
  __drm_ctm_to_dc_matrix c m =
  [ dc_fixpt_from_s3132 (ctm_at c 0); dc_fixpt_from_s3132 (ctm_at c 1);
    dc_fixpt_from_s3132 (ctm_at c 2); dc_fixpt_zero;
    dc_fixpt_from_s3132 (ctm_at c 3); dc_fixpt_from_s3132 (ctm_at c 4);
    dc_fixpt_from_s3132 (ctm_at c 5); dc_fixpt_zero;
    dc_fixpt_from_s3132 (ctm_at c 6); dc_fixpt_from_s3132 (ctm_at c 7);
    dc_fixpt_from_s3132 (ctm_at c 8); dc_fixpt_zero ].
Proof.
  intros Hlen.
  do 12 (destruct m as [|? m]; [discriminate Hlen|]).
  destruct m; [|discriminate Hlen].
  reflexivity.
Qed.

(** C8: for every 3x3 sign-magnitude matrix, the conversion fills the
    twelve entries of the 3x4 matrix so that entry [i] is zero when
    [i mod 4 = 3] and is otherwise the two's-complement value of source
    coefficient [i - i / 4]; the identity matrix gives the homogeneous
    identity with a zero fourth column. *)
Theorem __drm_ctm_to_dc_matrix_spec (c : drm_color_ctm) (m : list fixed31_32) :
  length m = 12%nat ->
  length (__drm_ctm_to_dc_matrix c m) = 12%nat /\
  (forall i, 0 <= i < 12 ->
     __drm_ctm_to_dc_matrix c m !! Z.to_nat i =
     Some (if i mod 4 =? 3 then dc_fixpt_zero
           else dc_fixpt_from_s3132 (ctm_at c (i - i / 4)))) /\
  (forall (sign : bool) mag, 0 <= mag < 2 ^ 63 ->
     dc_fixpt_from_s3132 (mag + (if sign then 2 ^ 63 else 0))
     = if sign then - mag else mag) /\
  __drm_ctm_to_dc_matrix ctm_identity m =
  [ dc_fixpt_one; dc_fixpt_zero; dc_fixpt_zero; dc_fixpt_zero;
    dc_fixpt_zero; dc_fixpt_one; dc_fixpt_zero; dc_fixpt_zero;
    dc_fixpt_zero; dc_fixpt_zero; dc_fixpt_one; dc_fixpt_zero ].
Proof.
  intros Hlen. repeat split.
  - rewrite __drm_ctm_to_dc_matrix_entries by exact Hlen. reflexivity.
  - intros i Hi. rewrite __drm_ctm_to_dc_matrix_entries by exact Hlen.
    assert (Hc : i = 0 \/ i = 1 \/ i = 2 \/ i = 3 \/ i = 4 \/ i = 5 \/
                 i = 6 \/ i = 7 \/ i = 8 \/ i = 9 \/ i = 10 \/ i = 11) by lia.
    destruct Hc as [->|[->|[->|[->|[->|[->|[->|[->|[->|[->|[->| ->]]]]]]]]]]];
      reflexivity.
  - intros sign mag. apply dc_fixpt_from_s3132_sign_magnitude.
  - rewrite __drm_ctm_to_dc_matrix_entries by exact Hlen. reflexivity.
Qed.

Lemma __drm_ctm_to_dc_matrix_spec_witness :
  length (replicate 12 (0 : fixed31_32)) = 12%nat /\
  __drm_ctm_to_dc_matrix ctm_identity (replicate 12 0) !! 5%nat
  = Some dc_fixpt_one /\
  dc_fixpt_from_s3132 (2 ^ 31 + 2 ^ 63) = - 2 ^ 31.
Proof.
  assert (Hlen : length (replicate 12 (0 : fixed31_32)) = 12%nat) by reflexivity.
  destruct (__drm_ctm_to_dc_matrix_spec ctm_identity (replicate 12 0) Hlen)
    as (_ & Hidx & Hsm & _).
  split; [exact Hlen|]. split.
  - exact (Hidx 5 ltac:(lia)).
  - exact (Hsm true (2 ^ 31) ltac:(lia)).
Defined.

(** ** LUT size validation *)

Section Validation.

Context {world : Type} {L : DcLib world}.

Lemma amdgpu_dm_verify_lut_sizes_cases (st : drm_crtc_state) :
  amdgpu_dm_verify_lut_sizes st = EINVAL \/ amdgpu_dm_verify_lut_sizes st = OK.
Proof.
  unfold amdgpu_dm_verify_lut_sizes, __extract_blob_lut.
  repeat (case_match; simplify_eq); auto.
Qed.

Lemma amdgpu_dm_verify_lut3d_size_cases adev (st : drm_crtc_state) :
  amdgpu_dm_verify_lut3d_size adev st = EINVAL \/
  amdgpu_dm_verify_lut3d_size adev st = OK.
Proof.
  unfold amdgpu_dm_verify_lut3d_size, __extract_blob_lut.
  repeat (case_match; simplify_eq); auto.
Qed.

Lemma amdgpu_dm_verify_lut_sizes_EINVAL (st : drm_crtc_state) :
  amdgpu_dm_verify_lut_sizes st = EINVAL <->
  (exists b, degamma_lut st = Some b /\
             drm_color_lut_size b <> MAX_COLOR_LUT_ENTRIES) \/
  (exists b, gamma_lut st = Some b /\
             drm_color_lut_size b <> MAX_COLOR_LUT_ENTRIES /\
             drm_color_lut_size b <> MAX_COLOR_LEGACY_LUT_ENTRIES).
Proof.
  unfold amdgpu_dm_verify_lut_sizes, __extract_blob_lut.
  destruct (degamma_lut st) as [d|], (gamma_lut st) as [g|]; cbn;
    repeat match goal with
           | |- context [?a =? ?b] => destruct (Z.eqb_spec a b); cbn
           end;
    split; intros H; try discriminate H; try reflexivity;
    try (destruct H as [(b & Hb & H) | (b & Hb & H1 & H2)]; simplify_eq; fail);
    eauto 6.
Qed.

Lemma amdgpu_dm_verify_lut3d_size_EINVAL adev (st : drm_crtc_state) :
  amdgpu_dm_verify_lut3d_size adev st = EINVAL <->
  (exists b, shaper_lut st = Some b /\
             drm_color_lut_size b
             <> amdgpu_dm_get_lut3d_size adev MAX_COLOR_LUT_ENTRIES) \/
  (exists b, lut3d st = Some b /\
             drm_color_lut_size b
             <> amdgpu_dm_get_lut3d_size adev MAX_COLOR_3DLUT_ENTRIES).
Proof.
  unfold amdgpu_dm_verify_lut3d_size, __extract_blob_lut.
  destruct (shaper_lut st) as [d|], (lut3d st) as [g|]; cbn;
    repeat match goal with
           | |- context [?a =? ?b] => destruct (Z.eqb_spec a b); cbn
           end;
    split; intros H; try discriminate H; try reflexivity;
    try (destruct H as [(b & Hb & H) | (b & Hb & H)]; simplify_eq; fail);
    eauto 6.
Qed.

Lemma update_crtc_verify_lut_sizes_fails adev crtc (w : world) :
  amdgpu_dm_verify_lut_sizes (base crtc) = EINVAL ->
  amdgpu_dm_update_crtc_color_mgmt adev crtc w = ((EINVAL, crtc), w).
Proof.
  intros H. unfold amdgpu_dm_update_crtc_color_mgmt. rewrite H. reflexivity.
Qed.

Lemma update_crtc_verify_lut3d_size_fails adev crtc (w : world) :
  amdgpu_dm_verify_lut3d_size adev (base crtc) = EINVAL ->
  amdgpu_dm_update_crtc_color_mgmt adev crtc w = ((EINVAL, crtc), w).
Proof.
  intros H. unfold amdgpu_dm_update_crtc_color_mgmt. rewrite H.
  destruct (amdgpu_dm_verify_lut_sizes_cases (base crtc)) as [-> | ->];
    reflexivity.
Qed.

(** C6: [amdgpu_dm_verify_lut_sizes] fails with [EINVAL] exactly when a
    supplied degamma LUT is not of the full size or a supplied gamma LUT
    is neither of the full nor of the legacy size; it succeeds otherwise,
    in particular when both are absent; and when it fails the CRTC update
    returns [EINVAL] with the CRTC state and the world as they were. *)
Theorem amdgpu_dm_verify_lut_sizes_spec adev (crtc : dm_crtc_state) (w : world) :
  (amdgpu_dm_verify_lut_sizes (base crtc) = EINVAL <->
   (exists b, degamma_lut (base crtc) = Some b /\
              drm_color_lut_size b <> MAX_COLOR_LUT_ENTRIES) \/
   (exists b, gamma_lut (base crtc) = Some b /\
              drm_color_lut_size b <> MAX_COLOR_LUT_ENTRIES /\
              drm_color_lut_size b <> MAX_COLOR_LEGACY_LUT_ENTRIES)) /\
  (amdgpu_dm_verify_lut_sizes (base crtc) <> EINVAL ->
   amdgpu_dm_verify_lut_sizes (base crtc) = OK) /\
  (degamma_lut (base crtc) = None -> gamma_lut (base crtc) = None ->
   amdgpu_dm_verify_lut_sizes (base crtc) = OK) /\
  (amdgpu_dm_verify_lut_sizes (base crtc) = EINVAL ->
   amdgpu_dm_update_crtc_color_mgmt adev crtc w = ((EINVAL, crtc), w)).
Proof.
  split; [apply amdgpu_dm_verify_lut_sizes_EINVAL|]. split; [|split].
  - destruct (amdgpu_dm_verify_lut_sizes_cases (base crtc)) as [H|H];
      [intros Hn; contradiction | intros _; exact H].
  - intros Hd Hg. unfold amdgpu_dm_verify_lut_sizes. rewrite Hd, Hg.
    reflexivity.
  - apply update_crtc_verify_lut_sizes_fails.
Qed.

(** C7: [amdgpu_dm_verify_lut3d_size] expects size 0 when the device has
    no 3D LUT and the fixed shaper and 3D LUT sizes otherwise, and fails
    with [EINVAL] exactly when a supplied shaper or 3D LUT blob is not of
    the expected size; a (non-empty) 3D LUT on a device that reports no
    3D LUT makes the CRTC update return [EINVAL] with the CRTC state and
    the world as they were, so nothing is acquired. *)
Theorem amdgpu_dm_verify_lut3d_size_spec adev (crtc : dm_crtc_state) (w : world) :
  (forall lut_size,
     amdgpu_dm_get_lut3d_size adev lut_size
     = if num_3dluts adev =? 0 then 0 else lut_size) /\
  (amdgpu_dm_verify_lut3d_size adev (base crtc) = EINVAL <->
   (exists b, shaper_lut (base crtc) = Some b /\
              drm_color_lut_size b
              <> amdgpu_dm_get_lut3d_size adev MAX_COLOR_LUT_ENTRIES) \/
   (exists b, lut3d (base crtc) = Some b /\
              drm_color_lut_size b
              <> amdgpu_dm_get_lut3d_size adev MAX_COLOR_3DLUT_ENTRIES)) /\
  (amdgpu_dm_verify_lut3d_size adev (base crtc) <> EINVAL ->
   amdgpu_dm_verify_lut3d_size adev (base crtc) = OK) /\
  (forall b, lut3d (base crtc) = Some b -> drm_color_lut_size b <> 0 ->
             num_3dluts adev = 0 ->
     amdgpu_dm_verify_lut3d_size adev (base crtc) = EINVAL /\
     amdgpu_dm_update_crtc_color_mgmt adev crtc w = ((EINVAL, crtc), w)).
Proof.
  split; [|split; [|split]].
  - intros lut_size. unfold amdgpu_dm_get_lut3d_size.
    destruct (num_3dluts adev =? 0); reflexivity.
  - apply amdgpu_dm_verify_lut3d_size_EINVAL.
  - destruct (amdgpu_dm_verify_lut3d_size_cases adev (base crtc)) as [H|H];
      [intros Hn; contradiction | intros _; exact H].
  - intros b Hb Hsz Hcaps.
    assert (H : amdgpu_dm_verify_lut3d_size adev (base crtc) = EINVAL).
    { apply amdgpu_dm_verify_lut3d_size_EINVAL. right. exists b.
      split; [exact Hb|]. unfold amdgpu_dm_get_lut3d_size. rewrite Hcaps.
      exact Hsz. }
    split; [exact H|]. apply update_crtc_verify_lut3d_size_fails. exact H.
Qed.

End Validation.

Lemma amdgpu_dm_verify_lut_sizes_spec_witness :
  amdgpu_dm_verify_lut_sizes (L := sim_lib)
    (Build_drm_crtc_state None None (Some (blob_of 17 (grey 0))) None None
                          DRM_TRANSFER_FUNCTION_DEFAULT) = EINVAL /\
  amdgpu_dm_update_crtc_color_mgmt (L := sim_lib) adev_dcn3
    (crtc_of (Build_drm_crtc_state None None (Some (blob_of 17 (grey 0)))
                                   None None DRM_TRANSFER_FUNCTION_DEFAULT)
             stream0)
    (Build_sim_world 1 2)
  = ((EINVAL,
      crtc_of (Build_drm_crtc_state None None (Some (blob_of 17 (grey 0)))
                                    None None DRM_TRANSFER_FUNCTION_DEFAULT)
              stream0),
     Build_sim_world 1 2).
Proof.
  split; [reflexivity|].
  apply (proj2 (proj2 (proj2
    (amdgpu_dm_verify_lut_sizes_spec (L := sim_lib) adev_dcn3
       (crtc_of (Build_drm_crtc_state None None (Some (blob_of 17 (grey 0)))
                                      None None DRM_TRANSFER_FUNCTION_DEFAULT)
                stream0)
       (Build_sim_world 1 2))))).
  reflexivity.
Defined.

Lemma amdgpu_dm_verify_lut3d_size_spec_witness :
  lut3d base_lut3d_only = Some (blob_of 4913 (grey 0)) /\
  drm_color_lut_size (blob_of 4913 (grey 0)) <> 0 /\
  num_3dluts adev_no_3dlut = 0 /\
  amdgpu_dm_update_crtc_color_mgmt (L := sim_lib) adev_no_3dlut
    (crtc_of base_lut3d_only stream0) (Build_sim_world 1 2)
  = ((EINVAL, crtc_of base_lut3d_only stream0), Build_sim_world 1 2).
Proof.
  split; [reflexivity|]. split; [vm_compute; congruence|].
  split; [reflexivity|].
  apply (proj2 (proj2 (proj2
    (amdgpu_dm_verify_lut3d_size_spec (L := sim_lib) adev_no_3dlut
       (crtc_of base_lut3d_only stream0) (Build_sim_world 1 2))))
    (blob_of 4913 (grey 0))); [reflexivity | vm_compute; congruence | reflexivity].
Defined.

(** ** The CRTC update *)

Section Crtc.

Context {world : Type} {L : DcLib world}.

(** Splits a monadic computation along its calls into DC. *)
Ltac run :=
  unfold bind, ret in *;
  repeat (case_match; simplify_eq; cbn in *); simplify_eq.

Lemma amdgpu_dm_atomic_shaper_lut_frame stream lut size func (w : world)
      r stream' func' w' :
  amdgpu_dm_atomic_shaper_lut stream lut size func w = ((r, stream', func'), w') ->
  out_transfer_func stream' = out_transfer_func stream /\
  lut3d_func stream' = lut3d_func stream /\
  gamut_remap_matrix stream' = gamut_remap_matrix stream /\
  csc_color_matrix stream' = csc_color_matrix stream /\
  (is_Some func -> is_Some func').
Proof.
  unfold amdgpu_dm_atomic_shaper_lut. intros H. run; auto 10.
Qed.

Lemma amdgpu_dm_atomic_lut3d_frame stream lut size l stream' :
  amdgpu_dm_atomic_lut3d stream lut size l = Some stream' ->
  out_transfer_func stream' = out_transfer_func stream /\
  is_Some (lut3d_func stream') /\
  func_shaper stream' = func_shaper stream /\
  gamut_remap_matrix stream' = gamut_remap_matrix stream /\
  csc_color_matrix stream' = csc_color_matrix stream.
Proof.
  unfold amdgpu_dm_atomic_lut3d. intros H.
  destruct lut, l; simplify_eq. cbn. eauto 10.
Qed.

Lemma amdgpu_dm_atomic_shaper_lut3d_frame stream sl ss l3 l3s (w : world)
      r stream' w' :
  amdgpu_dm_atomic_shaper_lut3d stream sl ss l3 l3s w = ((r, stream'), w') ->
  out_transfer_func stream' = out_transfer_func stream /\
  gamut_remap_matrix stream' = gamut_remap_matrix stream /\
  csc_color_matrix stream' = csc_color_matrix stream.
Proof.
  unfold amdgpu_dm_atomic_shaper_lut3d. intros H.
  unfold bind, ret in H.
  repeat (case_match; simplify_eq); cbn; auto;
    repeat match goal with
    | H : amdgpu_dm_atomic_lut3d _ _ _ _ = Some _ |- _ =>
      apply amdgpu_dm_atomic_lut3d_frame in H; cbn in H;
      destruct H as (? & ? & ? & ? & ?)
    | H : amdgpu_dm_atomic_shaper_lut _ _ _ _ _ = _ |- _ =>
      apply amdgpu_dm_atomic_shaper_lut_frame in H;
      destruct H as (? & ? & ? & ? & ?)
    end; repeat split; congruence.
Qed.

Lemma amdgpu_dm_set_atomic_regamma_frame stream lut size has_rom t (w : world)
      r stream' w' :
  amdgpu_dm_set_atomic_regamma stream lut size has_rom t w = ((r, stream'), w') ->
  lut3d_func stream' = lut3d_func stream /\
  func_shaper stream' = func_shaper stream /\
  gamut_remap_matrix stream' = gamut_remap_matrix stream /\
  csc_color_matrix stream' = csc_color_matrix stream.
Proof.
  unfold amdgpu_dm_set_atomic_regamma. intros H.
  unfold bind, ret in H.
  repeat (case_match; simplify_eq); cbn; auto.
Qed.

Lemma crtc_atomic_shaper_lut3d_frame stream sl ss l3 l3s (w : world)
      r stream' w' :
  crtc_atomic_shaper_lut3d stream sl ss l3 l3s w = ((r, stream'), w') ->
  out_transfer_func stream' = out_transfer_func stream /\
  gamut_remap_matrix stream' = gamut_remap_matrix stream /\
  csc_color_matrix stream' = csc_color_matrix stream.
Proof.
  unfold crtc_atomic_shaper_lut3d. intros H.
  destruct (bool_decide (is_Some l3));
    apply amdgpu_dm_atomic_shaper_lut3d_frame in H; exact H.
Qed.

Lemma crtc_setup_regamma_atomic crtc has_rom t sl ss l3 l3s rl rs hr
      (w : world) :
  rs <> MAX_COLOR_LEGACY_LUT_ENTRIES ->
  crtc_setup_regamma crtc has_rom t sl ss l3 l3s rl rs hr w =
  let step := crtc_atomic_shaper_lut3d (stream crtc) sl ss l3 l3s w in
  if failed (fst (fst step))
  then ((fst (fst step), set_stream (snd (fst step)) crtc), snd step)
  else
    let res :=
      amdgpu_dm_set_atomic_regamma (snd (fst step)) rl
        (if hr : bool then rs else 0) has_rom t (snd step) in
    ((fst (fst res), set_stream (snd (fst res)) crtc), snd res).
Proof.
  intros Hrs. unfold crtc_setup_regamma.
  destruct (Z.eqb_spec rs MAX_COLOR_LEGACY_LUT_ENTRIES) as [|_]; [contradiction|].
  unfold bind, ret.
  destruct (crtc_atomic_shaper_lut3d _ _ _ _ _ w) as [[r s1] w1].
  cbn [fst snd]. destruct (failed r); [reflexivity|].
  destruct (amdgpu_dm_set_atomic_regamma _ _ _ _ _ w1) as [[r2 s2] w2].
  reflexivity.
Qed.

Lemma crtc_setup_regamma_frame crtc has_rom t sl ss l3 l3s rl rs hr
      (w : world) r crtc' w' :
  crtc_setup_regamma crtc has_rom t sl ss l3 l3s rl rs hr w = ((r, crtc'), w') ->
  base crtc' = base crtc /\
  cm_has_degamma crtc' = cm_has_degamma crtc /\
  gamut_remap_matrix (stream crtc') = gamut_remap_matrix (stream crtc) /\
  csc_color_matrix (stream crtc') = csc_color_matrix (stream crtc).
Proof.
  unfold crtc_setup_regamma. intros H. unfold bind, ret in H.
  repeat (case_match; simplify_eq); cbn; auto;
    repeat match goal with
    | H : crtc_atomic_shaper_lut3d _ _ _ _ _ _ = _ |- _ =>
      apply crtc_atomic_shaper_lut3d_frame in H;
      destruct H as (? & ? & ?)
    | H : amdgpu_dm_set_atomic_regamma _ _ _ _ _ _ = _ |- _ =>
      apply amdgpu_dm_set_atomic_regamma_frame in H;
      destruct H as (? & ? & ? & ?)
    end; repeat split; congruence.
Qed.

(** The LUT sizes that pass validation are the full size and 256: the
    linearity checks of the degamma and the gamma LUT do not divide by
    zero. *)
Lemma verify_lut_sizes_defined (st : drm_crtc_state) :
  amdgpu_dm_verify_lut_sizes st = OK ->
  is_Some (lut_is_nonlinear (fst (__extract_blob_lut (degamma_lut st)))
                            (snd (__extract_blob_lut (degamma_lut st)))) /\
  is_Some (lut_is_nonlinear (fst (__extract_blob_lut (gamma_lut st)))
                            (snd (__extract_blob_lut (gamma_lut st)))).
Proof.
  pose proof MAX_COLOR_LUT_ENTRIES_range as HM.
  unfold amdgpu_dm_verify_lut_sizes, __extract_blob_lut,
    MAX_COLOR_LEGACY_LUT_ENTRIES.
  intros H. split.
  - destruct (degamma_lut st) as [b|]; cbn [fst snd] in *; [|cbn; eauto].
    rewrite bool_decide_eq_true_2 in H by eauto. cbn [andb] in H.
    destruct (Z.eqb_spec (drm_color_lut_size b) MAX_COLOR_LUT_ENTRIES) as [E|];
      [|discriminate H].
    apply lut_is_nonlinear_defined. rewrite E, u32_small; lia.
  - destruct (degamma_lut st) as [b0|]; cbn [fst snd] in *.
    + destruct (bool_decide _ && negb _); [discriminate H|].
      destruct (gamma_lut st) as [b|]; cbn [fst snd] in *; [|cbn; eauto].
      rewrite bool_decide_eq_true_2 in H by eauto. cbn [andb] in H.
      apply lut_is_nonlinear_defined.
      destruct (Z.eqb_spec (drm_color_lut_size b) MAX_COLOR_LUT_ENTRIES) as [E|];
        [rewrite E, u32_small; lia|].
      destruct (Z.eqb_spec (drm_color_lut_size b) 256) as [E|];
        [|discriminate H].
      rewrite E. vm_compute. discriminate.
    + rewrite bool_decide_eq_false_2 in H by (intros [? ?]; discriminate).
      cbn [andb] in H.
      destruct (gamma_lut st) as [b|]; cbn [fst snd] in *; [|cbn; eauto].
      rewrite bool_decide_eq_true_2 in H by eauto. cbn [andb] in H.
      apply lut_is_nonlinear_defined.
      destruct (Z.eqb_spec (drm_color_lut_size b) MAX_COLOR_LUT_ENTRIES) as [E|];
        [rewrite E, u32_small; lia|].
      destruct (Z.eqb_spec (drm_color_lut_size b) 256) as [E|];
        [|discriminate H].
      rewrite E. vm_compute. discriminate.
Qed.

(** The update once both validations have passed. *)
Lemma update_crtc_valid adev crtc (w : world) :
  amdgpu_dm_verify_lut_sizes (base crtc) = OK ->
  amdgpu_dm_verify_lut3d_size adev (base crtc) = OK ->
  exists has_degamma has_regamma,
  lut_is_nonlinear (fst (__extract_blob_lut (degamma_lut (base crtc))))
                   (snd (__extract_blob_lut (degamma_lut (base crtc))))
  = Some has_degamma /\
  lut_is_nonlinear (fst (__extract_blob_lut (gamma_lut (base crtc))))
                   (snd (__extract_blob_lut (gamma_lut (base crtc))))
  = Some has_regamma /\
  amdgpu_dm_update_crtc_color_mgmt adev crtc w =
  let '((r, c), w') :=
    crtc_setup_regamma
      (set_cm_is_degamma_srgb false (set_cm_has_degamma false crtc))
      (asic_type adev <=? CHIP_RAVEN)
      (drm_tf_to_dc_tf (regamma_tf (base crtc)))
      (fst (__extract_blob_lut (shaper_lut (base crtc))))
      (snd (__extract_blob_lut (shaper_lut (base crtc))))
      (fst (__extract_blob_lut (lut3d (base crtc))))
      (snd (__extract_blob_lut (lut3d (base crtc))))
      (fst (__extract_blob_lut (gamma_lut (base crtc))))
      (snd (__extract_blob_lut (gamma_lut (base crtc)))) has_regamma w in
  if failed r then ((r, c), w')
  else ((OK, crtc_setup_ctm (set_cm_has_degamma has_degamma c)), w').
Proof.
  intros H1 H2.
  destruct (verify_lut_sizes_defined (base crtc) H1) as [[hd Hd] [hr Hr]].
  exists hd, hr. split; [exact Hd|]. split; [exact Hr|].
  unfold amdgpu_dm_update_crtc_color_mgmt.
  rewrite H1, H2. cbn [failed].
  destruct (__extract_blob_lut (degamma_lut (base crtc))) as [dl ds].
  destruct (__extract_blob_lut (shaper_lut (base crtc))) as [sl ss].
  destruct (__extract_blob_lut (lut3d (base crtc))) as [l3 l3s].
  destruct (__extract_blob_lut (gamma_lut (base crtc))) as [rl rs].
  cbn [fst snd] in *. rewrite Hd, Hr. unfold bind, ret.
  destruct (crtc_setup_regamma _ _ _ _ _ _ _ _ _ _ w) as [[r c] w'].
  destruct (failed r); reflexivity.
Qed.

Lemma crtc_setup_ctm_spec (c : dm_crtc_state) :
  enable_adjustment (csc_color_matrix (stream (crtc_setup_ctm c))) = false /\
  enable_remap (gamut_remap_matrix (stream (crtc_setup_ctm c)))
  = bool_decide (is_Some (ctm (base c))) /\
  matrix (gamut_remap_matrix (stream (crtc_setup_ctm c)))
  = match ctm (base c) with
    | Some m => __drm_ctm_to_dc_matrix m (matrix (gamut_remap_matrix (stream c)))
    | None => matrix (gamut_remap_matrix (stream c))
    end /\
  base (crtc_setup_ctm c) = base c /\
  cm_has_degamma (crtc_setup_ctm c) = cm_has_degamma c /\
  cm_is_degamma_srgb (crtc_setup_ctm c) = cm_is_degamma_srgb c /\
  out_transfer_func (stream (crtc_setup_ctm c)) = out_transfer_func (stream c) /\
  lut3d_func (stream (crtc_setup_ctm c)) = lut3d_func (stream c) /\
  func_shaper (stream (crtc_setup_ctm c)) = func_shaper (stream c).
Proof.
  unfold crtc_setup_ctm. destruct (ctm (base c)); repeat split; reflexivity.
Qed.

Lemma crtc_setup_ctm_out (c : dm_crtc_state) :
  out_transfer_func (stream (crtc_setup_ctm c)) = out_transfer_func (stream c).
Proof. apply crtc_setup_ctm_spec. Qed.

Lemma crtc_setup_ctm_lut3d_func (c : dm_crtc_state) :
  lut3d_func (stream (crtc_setup_ctm c)) = lut3d_func (stream c).
Proof. apply crtc_setup_ctm_spec. Qed.

Lemma crtc_setup_ctm_func_shaper (c : dm_crtc_state) :
  func_shaper (stream (crtc_setup_ctm c)) = func_shaper (stream c).
Proof. apply crtc_setup_ctm_spec. Qed.

(** C10: after every run of the CRTC update that returns 0 the colour
    adjustment of the CSC stage is disabled, whether or not a CTM was
    supplied; the gamut remap is enabled exactly when a CTM was supplied,
    and then holds the converted matrix. *)
Theorem update_crtc_adjustment_disabled adev crtc (w : world) r crtc' w' :
  amdgpu_dm_update_crtc_color_mgmt adev crtc w = ((r, crtc'), w') ->
  r = OK ->
  enable_adjustment (csc_color_matrix (stream crtc')) = false /\
  enable_remap (gamut_remap_matrix (stream crtc'))
  = bool_decide (is_Some (ctm (base crtc))) /\
  matrix (gamut_remap_matrix (stream crtc'))
  = match ctm (base crtc) with
    | Some c => __drm_ctm_to_dc_matrix c (matrix (gamut_remap_matrix (stream crtc)))
    | None => matrix (gamut_remap_matrix (stream crtc))
    end.
Proof.
  intros H ->.
  destruct (amdgpu_dm_verify_lut_sizes_cases (base crtc)) as [E1|E1];
    [rewrite update_crtc_verify_lut_sizes_fails in H by exact E1; discriminate H|].
  destruct (amdgpu_dm_verify_lut3d_size_cases adev (base crtc)) as [E2|E2];
    [rewrite update_crtc_verify_lut3d_size_fails in H by exact E2; discriminate H|].
  destruct (update_crtc_valid adev crtc w E1 E2) as (hd & hr & _ & _ & Hv).
  rewrite Hv in H.
  destruct (crtc_setup_regamma _ _ _ _ _ _ _ _ _ _ w) as [[r c] w1] eqn:E.
  apply crtc_setup_regamma_frame in E.
  destruct E as (Hb & _ & Hg & _).
  change (base (set_cm_is_degamma_srgb false (set_cm_has_degamma false crtc)))
    with (base crtc) in Hb.
  change (stream (set_cm_is_degamma_srgb false (set_cm_has_degamma false crtc)))
    with (stream crtc) in Hg.
  destruct (failed r) eqn:Hr; [destruct r; simplify_eq|].
  injection H as <- _.
  pose proof (crtc_setup_ctm_spec (set_cm_has_degamma hd c))
    as (Ha & Hr' & Hm & _).
  change (base (set_cm_has_degamma ?b c)) with (base c) in Hr', Hm.
  change (stream (set_cm_has_degamma ?b c)) with (stream c) in Hm.
  rewrite Hb in Hr', Hm. rewrite Hg in Hm. auto.
Qed.

Lemma failed_false r : failed r = false -> r = OK.
Proof. destruct r; simpl; congruence. Qed.

Lemma crtc_setup_regamma_legacy crtc has_rom t sl ss l3 l3s rl hr
      (w : world) :
  crtc_setup_regamma crtc has_rom t sl ss l3 l3s rl
                     MAX_COLOR_LEGACY_LUT_ENTRIES hr w =
  let res :=
    __set_legacy_tf
      (set_tf TRANSFER_FUNCTION_SRGB
         (set_func_type TF_TYPE_DISTRIBUTED_POINTS
            (out_transfer_func (stream crtc))))
      rl MAX_COLOR_LEGACY_LUT_ENTRIES has_rom w in
  ((fst (fst res),
    Build_dm_crtc_state (base crtc)
      (set_out_transfer_func (snd (fst res)) (stream crtc))
      (cm_has_degamma crtc) true),
   snd res).
Proof.
  unfold crtc_setup_regamma. rewrite Z.eqb_refl. unfold bind, ret.
  destruct (__set_legacy_tf _ _ _ _ w) as [[r f] w']. reflexivity.
Qed.

Lemma verify_set_regamma_tf adev t crtc :
  amdgpu_dm_verify_lut_sizes (base (set_regamma_tf t crtc))
  = amdgpu_dm_verify_lut_sizes (base crtc) /\
  amdgpu_dm_verify_lut3d_size adev (base (set_regamma_tf t crtc))
  = amdgpu_dm_verify_lut3d_size adev (base crtc).
Proof. split; reflexivity. Qed.

Lemma crtc_setup_ctm_set_regamma_tf t (c : dm_crtc_state) :
  crtc_setup_ctm (set_regamma_tf t c) = set_regamma_tf t (crtc_setup_ctm c).
Proof.
  destruct c as [[dl cm gl sl l3 rt] st f1 f2].
  unfold crtc_setup_ctm, set_regamma_tf.
  cbn [base ctm stream degamma_lut gamma_lut shaper_lut lut3d
       cm_has_degamma cm_is_degamma_srgb].
  destruct cm; reflexivity.
Qed.

(** C3: when the gamma LUT of a commit that passes validation has the
    legacy size 256, the CRTC update sets [cm_is_degamma_srgb] and the
    output transfer function is what [__set_legacy_tf] makes of a
    distributed-points function with the sRGB curve; status, stream,
    flags and world are the same whatever [regamma_tf] the commit
    requests. *)
Theorem update_crtc_legacy adev crtc (w : world) b r crtc' w' :
  amdgpu_dm_verify_lut_sizes (base crtc) = OK ->
  amdgpu_dm_verify_lut3d_size adev (base crtc) = OK ->
  gamma_lut (base crtc) = Some b ->
  drm_color_lut_size b = MAX_COLOR_LEGACY_LUT_ENTRIES ->
  amdgpu_dm_update_crtc_color_mgmt adev crtc w = ((r, crtc'), w') ->
  let res :=
    __set_legacy_tf
      (set_tf TRANSFER_FUNCTION_SRGB
         (set_func_type TF_TYPE_DISTRIBUTED_POINTS
            (out_transfer_func (stream crtc))))
      (Some (blob_data b)) MAX_COLOR_LEGACY_LUT_ENTRIES
      (asic_type adev <=? CHIP_RAVEN) w in
  cm_is_degamma_srgb crtc' = true /\
  out_transfer_func (stream crtc') = snd (fst res) /\
  r = fst (fst res) /\
  w' = snd res /\
  forall t,
    amdgpu_dm_update_crtc_color_mgmt adev (set_regamma_tf t crtc) w
    = ((r, set_regamma_tf t crtc'), w').
Proof.
  intros E1 E2 Hb Hsz H.
  destruct (verify_lut_sizes_defined (base crtc) E1) as [[hd Hd] _].
  assert (Hall : forall t,
    amdgpu_dm_update_crtc_color_mgmt adev (set_regamma_tf t crtc) w =
    let res :=
      __set_legacy_tf
        (set_tf TRANSFER_FUNCTION_SRGB
           (set_func_type TF_TYPE_DISTRIBUTED_POINTS
              (out_transfer_func (stream crtc))))
        (Some (blob_data b)) MAX_COLOR_LEGACY_LUT_ENTRIES
        (asic_type adev <=? CHIP_RAVEN) w in
    let c :=
      Build_dm_crtc_state (base (set_regamma_tf t crtc))
        (set_out_transfer_func (snd (fst res)) (stream crtc)) false true in
    if failed (fst (fst res)) then ((fst (fst res), c), snd res)
    else ((OK, crtc_setup_ctm (set_cm_has_degamma hd c)), snd res)).
  { intros t.
    destruct (verify_set_regamma_tf adev t crtc) as [V1 V2].
    destruct (update_crtc_valid adev (set_regamma_tf t crtc) w
                ltac:(congruence) ltac:(congruence))
      as (hd' & hr & Hd' & _ & Hv).
    change (degamma_lut (base (set_regamma_tf t crtc)))
      with (degamma_lut (base crtc)) in Hd'.
    assert (hd' = hd) by congruence. subst hd'.
    rewrite Hv.
    change (gamma_lut (base (set_regamma_tf t crtc))) with (gamma_lut (base crtc)).
    rewrite Hb. unfold __extract_blob_lut at 5 6. cbv beta iota delta [fst snd].
    rewrite Hsz, crtc_setup_regamma_legacy. reflexivity. }
  assert (Hself : set_regamma_tf (regamma_tf (base crtc)) crtc = crtc)
    by (destruct crtc as [[]]; reflexivity).
  pose proof (Hall (regamma_tf (base crtc))) as H0.
  rewrite Hself, H in H0. cbv zeta in H0, Hall |- *.
  destruct (__set_legacy_tf _ _ _ _ w) as [[r0 f0] w0].
  cbn [fst snd] in *.
  destruct (failed r0) eqn:Hr.
  - injection H0 as -> -> ->. repeat split; try reflexivity.
    intros t. rewrite Hall. reflexivity.
  - injection H0 as -> -> ->. apply failed_false in Hr. subst r0.
    pose proof (crtc_setup_ctm_spec
      (set_cm_has_degamma hd
         (Build_dm_crtc_state (base crtc)
            (set_out_transfer_func f0 (stream crtc)) false true)))
      as (_ & _ & _ & _ & _ & Hs & Ho & _).
    repeat split; try assumption; try reflexivity.
    intros t. rewrite Hall. rewrite <- crtc_setup_ctm_set_regamma_tf.
    reflexivity.
Qed.

Lemma amdgpu_dm_set_atomic_regamma_bypass stream lut has_rom (w : world) :
  amdgpu_dm_set_atomic_regamma stream lut 0 has_rom TRANSFER_FUNCTION_LINEAR w
  = ((OK, set_out_transfer_func
            (set_tf TRANSFER_FUNCTION_LINEAR
               (set_func_type TF_TYPE_BYPASS (out_transfer_func stream)))
            stream), w).
Proof. reflexivity. Qed.

Lemma amdgpu_dm_set_atomic_regamma_build stream lut size has_rom t (w : world) :
  ~ (size = 0 /\ t = TRANSFER_FUNCTION_LINEAR) ->
  amdgpu_dm_set_atomic_regamma stream lut size has_rom t w =
  let res :=
    __set_output_tf
      (set_sdr_ref_white_level 80
         (set_tf t (set_func_type TF_TYPE_DISTRIBUTED_POINTS
                      (out_transfer_func stream))))
      lut size has_rom w in
  ((fst (fst res), set_out_transfer_func (snd (fst res)) stream), snd res).
Proof.
  intros Hn. unfold amdgpu_dm_set_atomic_regamma.
  assert (Hc : negb (size =? 0) || negb (is_TRANSFER_FUNCTION_LINEAR t) = true).
  { destruct (Z.eqb_spec size 0) as [->|]; [|reflexivity].
    destruct t; try reflexivity. exfalso. apply Hn. split; reflexivity. }
  rewrite Hc. unfold bind, ret.
  destruct (__set_output_tf _ _ _ _ w) as [[r f] w']. reflexivity.
Qed.

(** C5: in atomic mode, once validation and the 3D LUT step have
    succeeded, the output regamma is set up from the gamma LUT with its
    size replaced by 0 unless the LUT is non-linear for
    [__is_lut_linear], which returns on a LUT of a validated size; with
    size 0 and a linear transfer function the
    output transfer function becomes [TF_TYPE_BYPASS], otherwise it is
    what [__set_output_tf] makes of a distributed-points function with
    the requested curve. *)
Theorem update_crtc_atomic_regamma adev crtc (w : world) r crtc' w' :
  amdgpu_dm_verify_lut_sizes (base crtc) = OK ->
  amdgpu_dm_verify_lut3d_size adev (base crtc) = OK ->
  snd (__extract_blob_lut (gamma_lut (base crtc)))
  <> MAX_COLOR_LEGACY_LUT_ENTRIES ->
  amdgpu_dm_update_crtc_color_mgmt adev crtc w = ((r, crtc'), w') ->
  let regamma_lut := fst (__extract_blob_lut (gamma_lut (base crtc))) in
  let regamma_size := snd (__extract_blob_lut (gamma_lut (base crtc))) in
  let t := drm_tf_to_dc_tf (regamma_tf (base crtc)) in
  let step :=
    crtc_atomic_shaper_lut3d (stream crtc)
      (fst (__extract_blob_lut (shaper_lut (base crtc))))
      (snd (__extract_blob_lut (shaper_lut (base crtc))))
      (fst (__extract_blob_lut (lut3d (base crtc))))
      (snd (__extract_blob_lut (lut3d (base crtc)))) w in
  failed (fst (fst step)) = false ->
  exists has_regamma,
  lut_is_nonlinear regamma_lut regamma_size = Some has_regamma /\
  let size := if has_regamma then regamma_size else 0 in
  (size = 0 /\ t = TRANSFER_FUNCTION_LINEAR ->
   r = OK /\ w' = snd step /\
   func_type (out_transfer_func (stream crtc')) = TF_TYPE_BYPASS /\
   tf (out_transfer_func (stream crtc')) = TRANSFER_FUNCTION_LINEAR) /\
  (~ (size = 0 /\ t = TRANSFER_FUNCTION_LINEAR) ->
   let func :=
     set_sdr_ref_white_level 80
       (set_tf t (set_func_type TF_TYPE_DISTRIBUTED_POINTS
                    (out_transfer_func (stream crtc)))) in
   let res :=
     __set_output_tf func regamma_lut size (asic_type adev <=? CHIP_RAVEN)
                     (snd step) in
   func_type func = TF_TYPE_DISTRIBUTED_POINTS /\
   r = fst (fst res) /\ w' = snd res /\
   out_transfer_func (stream crtc') = snd (fst res)).
Proof.
  intros E1 E2 Hsz H regamma_lut regamma_size t step Hstep.
  destruct (update_crtc_valid adev crtc w E1 E2) as (hd & hr & _ & Hrg & Hv).
  exists hr. split; [exact Hrg|]. intros size.
  rewrite Hv in H. clear Hv.
  rewrite crtc_setup_regamma_atomic in H by exact Hsz.
  cbv zeta in H.
  change (stream (set_cm_is_degamma_srgb false (set_cm_has_degamma false crtc)))
    with (stream crtc) in H.
  fold step in H. rewrite Hstep in H.
  fold regamma_lut regamma_size in H. fold size in H. fold t in H.
  assert (Hout : out_transfer_func (snd (fst step))
                 = out_transfer_func (stream crtc)).
  { subst step.
    destruct (crtc_atomic_shaper_lut3d _ _ _ _ _ w) as [[r1 s1] w1] eqn:E.
    apply crtc_atomic_shaper_lut3d_frame in E. apply E. }
  split.
  - intros [Hs Ht]. rewrite Hs, Ht in H.
    rewrite amdgpu_dm_set_atomic_regamma_bypass in H. cbn [fst snd failed] in H.
    injection H as <- <- <-.
    rewrite crtc_setup_ctm_out. repeat split; reflexivity.
  - intros Hn func res.
    rewrite amdgpu_dm_set_atomic_regamma_build in H by exact Hn.
    cbv zeta in H. rewrite Hout in H. fold func in H. fold res in H.
    cbn [fst snd] in H.
    split; [reflexivity|].
    destruct (failed (fst (fst res))) eqn:Hr.
    + injection H as <- <- <-. repeat split; reflexivity.
    + apply failed_false in Hr. injection H as <- <- <-.
      rewrite crtc_setup_ctm_out. repeat split; try reflexivity.
      symmetry. exact Hr.
Qed.

(** *** The 3D LUT and shaper pair *)

Lemma pair_invariant_eq s s' :
  lut3d_func s' = lut3d_func s -> func_shaper s' = func_shaper s ->
  pair_invariant s -> pair_invariant s'.
Proof. unfold pair_invariant. intros -> ->. auto. Qed.

Lemma pair_invariant_both s :
  is_Some (lut3d_func s) -> is_Some (func_shaper s) -> pair_invariant s.
Proof. left. auto. Qed.

(** After the pointers are in place and [acquire] holds. *)
Lemma amdgpu_dm_atomic_shaper_lut3d_build stream sl ss l3 l3s l f (w : world)
      r stream' w' :
  match amdgpu_dm_atomic_lut3d
          (set_func_shaper (Some f) (set_lut3d_func (Some l) stream))
          l3 l3s (Some l) with
  | None =>
    ret (OOPS, set_func_shaper (Some f) (set_lut3d_func (Some l) stream))
  | Some stream0 =>
    let* (r, stream1, func) :=
      amdgpu_dm_atomic_shaper_lut stream0 sl ss (Some f) in
    ret (r, set_func_shaper func stream1)
  end w = ((r, stream'), w') ->
  is_Some (lut3d_func stream') /\ is_Some (func_shaper stream').
Proof.
  destruct (amdgpu_dm_atomic_lut3d _ l3 l3s (Some l)) as [stream0|] eqn:E3.
  - apply amdgpu_dm_atomic_lut3d_frame in E3.
    destruct E3 as (_ & H3 & _). unfold bind, ret.
    destruct (amdgpu_dm_atomic_shaper_lut stream0 sl ss (Some f) w)
      as [[[r1 s1] f1] w1] eqn:E.
    apply amdgpu_dm_atomic_shaper_lut_frame in E.
    destruct E as (_ & Hl & _ & _ & Hf).
    intros H. injection H as <- <- <-. cbn.
    rewrite Hl. split; [exact H3 | apply Hf; eauto].
  - unfold ret. intros H. injection H as <- <- <-. cbn. eauto.
Qed.

Lemma amdgpu_dm_atomic_shaper_lut3d_pair stream sl ss l3 l3s (w : world)
      r stream' w' :
  mpc_3dlut_paired L ->
  amdgpu_dm_atomic_shaper_lut3d stream sl ss l3 l3s w = ((r, stream'), w') ->
  pair_invariant stream -> pair_invariant stream'.
Proof.
  intros Hpair H Hinv. unfold amdgpu_dm_atomic_shaper_lut3d in H.
  destruct stream as [o l f g c]. cbn [lut3d_func func_shaper] in H.
  destruct Hinv as [[[l0 Hl] [f0 Hf]] | [Hl Hf]]; cbn in Hl, Hf; subst l f.
  - (* held *)
    destruct (negb (ss =? 0) && negb (l3s =? 0)) eqn:Hacq.
    + rewrite !bool_decide_eq_true_2 in H by eauto.
      cbn [negb andb orb] in H. unfold bind at 1 in H. unfold ret at 1 in H.
      cbn [negb] in H.
      apply (amdgpu_dm_atomic_shaper_lut3d_build
               {| out_transfer_func := o; lut3d_func := Some l0;
                  func_shaper := Some f0; gamut_remap_matrix := g;
                  csc_color_matrix := c |}) in H.
      apply pair_invariant_both; apply H.
    + rewrite !bool_decide_eq_true_2 in H by eauto.
      cbn [negb andb orb] in H. unfold bind, ret in H.
      destruct (dc_acquire_release_mpc_3dlut_for_ctx false _ _ _ w)
        as [[[ok l'] f'] w1] eqn:E.
      destruct ok; cbn [negb] in H.
      * apply Hpair in E. destruct E as [-> ->].
        injection H as <- <- <-. right. split; reflexivity.
      * injection H as <- <- <-. left. cbn. eauto.
  - (* not held *)
    destruct (negb (ss =? 0) && negb (l3s =? 0)) eqn:Hacq.
    + rewrite !bool_decide_eq_false_2 in H by (intros [? ?]; discriminate).
      cbn [negb andb orb] in H. unfold bind at 1 in H.
      destruct (dc_acquire_release_mpc_3dlut_for_ctx true _ _ _ w)
        as [[[ok l'] f'] w1] eqn:E.
      destruct ok; cbn [negb] in H.
      * apply Hpair in E. destruct E as [[l0 ->] [f0 ->]].
        apply (amdgpu_dm_atomic_shaper_lut3d_build
                 {| out_transfer_func := o; lut3d_func := None;
                    func_shaper := None; gamut_remap_matrix := g;
                    csc_color_matrix := c |}) in H.
        apply pair_invariant_both; apply H.
      * unfold ret in H. injection H as <- <- <-. right. split; reflexivity.
    + rewrite !bool_decide_eq_false_2 in H by (intros [? ?]; discriminate).
      cbn [negb andb orb] in H. unfold bind, ret in H. cbn [negb] in H.
      injection H as <- <- <-. right. split; reflexivity.
Qed.

Lemma crtc_atomic_shaper_lut3d_pair stream sl ss l3 l3s (w : world)
      r stream' w' :
  mpc_3dlut_paired L ->
  crtc_atomic_shaper_lut3d stream sl ss l3 l3s w = ((r, stream'), w') ->
  pair_invariant stream -> pair_invariant stream'.
Proof.
  intros Hpair H. unfold crtc_atomic_shaper_lut3d in H.
  destruct (bool_decide (is_Some l3));
    eapply amdgpu_dm_atomic_shaper_lut3d_pair; eassumption.
Qed.

Lemma crtc_setup_regamma_pair crtc has_rom t sl ss l3 l3s rl rs hr
      (w : world) r crtc' w' :
  mpc_3dlut_paired L ->
  crtc_setup_regamma crtc has_rom t sl ss l3 l3s rl rs hr w
  = ((r, crtc'), w') ->
  pair_invariant (stream crtc) -> pair_invariant (stream crtc').
Proof.
  intros Hpair H Hinv.
  destruct (Z.eq_dec rs MAX_COLOR_LEGACY_LUT_ENTRIES) as [->|Hrs].
  - rewrite crtc_setup_regamma_legacy in H. cbv zeta in H.
    injection H as _ <- _. exact Hinv.
  - rewrite crtc_setup_regamma_atomic in H by exact Hrs. cbv zeta in H.
    destruct (crtc_atomic_shaper_lut3d _ _ _ _ _ w) as [[r1 s1] w1] eqn:E1.
    pose proof (crtc_atomic_shaper_lut3d_pair _ _ _ _ _ _ _ _ _ Hpair E1 Hinv)
      as Hinv1.
    clear E1. rename Hinv1 into E1. cbn [fst snd] in H.
    destruct (failed r1).
    + injection H as _ <- _. exact E1.
    + destruct (amdgpu_dm_set_atomic_regamma _ _ _ _ _ w1)
        as [[r2 s2] w2] eqn:E2.
      apply amdgpu_dm_set_atomic_regamma_frame in E2.
      destruct E2 as (Hl & Hf & _).
      injection H as _ <- _. cbn [stream set_stream].
      eapply pair_invariant_eq; eassumption.
Qed.

(** What the atomic path does of a held pair when the commit has no
    3D LUT: one release call. *)
Lemma crtc_atomic_shaper_lut3d_release stream sl ss l3s l f (w : world) :
  lut3d_func stream = Some l -> func_shaper stream = Some f ->
  crtc_atomic_shaper_lut3d stream sl ss None l3s w =
  let rel :=
    dc_acquire_release_mpc_3dlut_for_ctx false stream (Some l) (Some f) w in
  if fst (fst (fst rel))
  then ((OK, set_func_shaper (snd (fst rel))
               (set_lut3d_func (snd (fst (fst rel))) stream)), snd rel)
  else ((DC_ERROR_UNEXPECTED, stream), snd rel).
Proof.
  intros Hl Hf. unfold crtc_atomic_shaper_lut3d.
  rewrite bool_decide_eq_false_2 by (intros [? ?]; discriminate).
  unfold amdgpu_dm_atomic_shaper_lut3d. rewrite Hl, Hf.
  rewrite !bool_decide_eq_true_2 by eauto. cbn [Z.eqb negb andb orb].
  unfold bind, ret.
  destruct (dc_acquire_release_mpc_3dlut_for_ctx false _ _ _ w)
    as [[[ok l'] f'] w1].
  destruct ok; reflexivity.
Qed.

(** C4: under the pairing contract of the MPC 3D LUT pool, the CRTC
    update keeps the 3D LUT and shaper of the stream both present or both
    absent, whatever it returns; and in atomic mode, when the commit has
    no 3D LUT and the stream holds the pair, it calls the release: when
    the release succeeds both pointers are absent afterwards, when it
    fails the update returns [DC_ERROR_UNEXPECTED] with the stream as it
    was. *)
Theorem update_crtc_releases_pair adev crtc (w : world) r crtc' w' :
  mpc_3dlut_paired L ->
  pair_invariant (stream crtc) ->
  amdgpu_dm_update_crtc_color_mgmt adev crtc w = ((r, crtc'), w') ->
  pair_invariant (stream crtc') /\
  (amdgpu_dm_verify_lut_sizes (base crtc) = OK ->
   amdgpu_dm_verify_lut3d_size adev (base crtc) = OK ->
   snd (__extract_blob_lut (gamma_lut (base crtc)))
   <> MAX_COLOR_LEGACY_LUT_ENTRIES ->
   lut3d (base crtc) = None ->
   is_Some (lut3d_func (stream crtc)) ->
   is_Some (func_shaper (stream crtc)) ->
   let rel :=
     dc_acquire_release_mpc_3dlut_for_ctx false (stream crtc)
       (lut3d_func (stream crtc)) (func_shaper (stream crtc)) w in
   (fst (fst (fst rel)) = true ->
    lut3d_func (stream crtc') = None /\ func_shaper (stream crtc') = None) /\
   (fst (fst (fst rel)) = false ->
    r = DC_ERROR_UNEXPECTED /\ stream crtc' = stream crtc /\ w' = snd rel)).
Proof.
  intros Hpair Hinv H. split.
  - destruct (amdgpu_dm_verify_lut_sizes_cases (base crtc)) as [E1|E1];
      [rewrite update_crtc_verify_lut_sizes_fails in H by exact E1;
       injection H as _ <- _; exact Hinv|].
    destruct (amdgpu_dm_verify_lut3d_size_cases adev (base crtc)) as [E2|E2];
      [rewrite update_crtc_verify_lut3d_size_fails in H by exact E2;
       injection H as _ <- _; exact Hinv|].
    destruct (update_crtc_valid adev crtc w E1 E2) as (hd & hr & _ & _ & Hv).
    rewrite Hv in H. clear Hv.
    destruct (crtc_setup_regamma _ _ _ _ _ _ _ _ _ _ w) as [[r1 c1] w1] eqn:E.
    pose proof (crtc_setup_regamma_pair _ _ _ _ _ _ _ _ _ _ _ _ _ _ Hpair E Hinv)
      as Hinv1.
    clear E. rename Hinv1 into E.
    destruct (failed r1); injection H as _ <- _; [exact E|].
    eapply pair_invariant_eq; [| |exact E].
    + rewrite crtc_setup_ctm_lut3d_func. reflexivity.
    + rewrite crtc_setup_ctm_func_shaper. reflexivity.
  - intros E1 E2 Hsz Hno [l Hl] [f Hf] rel.
    destruct (update_crtc_valid adev crtc w E1 E2) as (hd & hr & _ & _ & Hv).
    rewrite Hv in H. clear Hv.
    rewrite crtc_setup_regamma_atomic in H by exact Hsz. cbv zeta in H.
    change (stream (set_cm_is_degamma_srgb false (set_cm_has_degamma false crtc)))
      with (stream crtc) in H.
    rewrite Hno in H. cbn [__extract_blob_lut fst snd] in H.
    rewrite (crtc_atomic_shaper_lut3d_release (stream crtc) _ _ _ l f w Hl Hf)
      in H.
    cbv zeta in H. subst rel. rewrite Hl, Hf.
    destruct (dc_acquire_release_mpc_3dlut_for_ctx false _ _ _ w)
      as [[[ok l'] f'] w1] eqn:E.
    cbn [fst snd] in *.
    destruct ok; cbn [fst snd failed] in H; split; intros Hok;
      try discriminate Hok.
    + apply Hpair in E. destruct E as [-> ->].
      destruct (amdgpu_dm_set_atomic_regamma _ _ _ _ _ w1)
        as [[r2 s2] w2] eqn:Er.
      apply amdgpu_dm_set_atomic_regamma_frame in Er.
      destruct Er as (Hl2 & Hf2 & _). cbn [fst snd] in H.
      destruct (failed r2); injection H as _ <- _.
      * cbn [stream set_stream]. rewrite Hl2, Hf2. split; reflexivity.
      * rewrite crtc_setup_ctm_lut3d_func, crtc_setup_ctm_func_shaper.
        cbn [stream set_stream set_cm_has_degamma]. rewrite Hl2, Hf2.
        split; reflexivity.
    + injection H as <- <- <-. repeat split; reflexivity.
Qed.

(** *** A 3D LUT without a shaper LUT *)

(** With shaper size 0, [acquire] is false: a stream that holds no pair
    is left without 3D LUT, whatever 3D LUT the commit supplies. *)
Lemma amdgpu_dm_atomic_shaper_lut3d_no_shaper stream sl l3 l3s (w : world) :
  lut3d_func stream = None -> func_shaper stream = None ->
  amdgpu_dm_atomic_shaper_lut3d stream sl 0 l3 l3s w
  = ((OK, set_func_shaper None (set_lut3d_func None stream)), w).
Proof.
  intros Hl Hf. unfold amdgpu_dm_atomic_shaper_lut3d. rewrite Hl, Hf.
  reflexivity.
Qed.

(** C1 (the code at the failing input): a commit in atomic mode that
    supplies a 3D LUT of the supported size and no shaper LUT, on a
    device with a 3D LUT and a stream that holds no pair, returns 0 and
    leaves the stream without 3D LUT and without shaper; no call into DC
    is made. *)
Theorem update_crtc_lut3d_without_shaper (w : world) :
  amdgpu_dm_update_crtc_color_mgmt adev_dcn3 (crtc_of base_lut3d_only stream0) w
  = ((OK, crtc_lut3d_only_done), w) /\
  lut3d (base (crtc_of base_lut3d_only stream0))
  = Some (blob_of 4913 (grey 0)) /\
  shaper_lut (base (crtc_of base_lut3d_only stream0)) = None /\
  lut3d_func (stream crtc_lut3d_only_done) = None /\
  func_shaper (stream crtc_lut3d_only_done) = None.
Proof.
  split; [|repeat split; reflexivity].
  destruct (update_crtc_valid adev_dcn3 (crtc_of base_lut3d_only stream0) w
              ltac:(vm_compute; reflexivity) ltac:(vm_compute; reflexivity))
    as (hd & hr & Hd & Hrg & Hv).
  injection Hd as <-. injection Hrg as <-. rewrite Hv.
  rewrite crtc_setup_regamma_atomic by (vm_compute; congruence).
  reflexivity.
Qed.

(** The same for every such commit: no 3D LUT is ever programmed when
    the shaper LUT is absent. *)
Lemma update_crtc_lut3d_without_shaper_any adev crtc (w : world) r crtc' w' :
  amdgpu_dm_verify_lut_sizes (base crtc) = OK ->
  amdgpu_dm_verify_lut3d_size adev (base crtc) = OK ->
  snd (__extract_blob_lut (gamma_lut (base crtc)))
  <> MAX_COLOR_LEGACY_LUT_ENTRIES ->
  is_Some (lut3d (base crtc)) ->
  shaper_lut (base crtc) = None ->
  lut3d_func (stream crtc) = None -> func_shaper (stream crtc) = None ->
  amdgpu_dm_update_crtc_color_mgmt adev crtc w = ((r, crtc'), w') ->
  lut3d_func (stream crtc') = None /\ func_shaper (stream crtc') = None.
Proof.
  intros E1 E2 Hsz H3 Hsh Hl Hf H.
  destruct (update_crtc_valid adev crtc w E1 E2) as (hd & hr & _ & _ & Hv).
  rewrite Hv in H. clear Hv.
  rewrite crtc_setup_regamma_atomic in H by exact Hsz. cbv zeta in H.
  change (stream (set_cm_is_degamma_srgb false (set_cm_has_degamma false crtc)))
    with (stream crtc) in H.
  rewrite Hsh in H. cbn [__extract_blob_lut fst snd] in H.
  unfold crtc_atomic_shaper_lut3d in H.
  rewrite bool_decide_eq_true_2 in H by (destruct H3 as [b ->]; eauto).
  rewrite bool_decide_eq_false_2 in H by (intros [? ?]; discriminate).
  rewrite amdgpu_dm_atomic_shaper_lut3d_no_shaper in H by assumption.
  cbn [fst snd failed] in H.
  destruct (amdgpu_dm_set_atomic_regamma _ _ _ _ _ w) as [[r2 s2] w2] eqn:Er.
  apply amdgpu_dm_set_atomic_regamma_frame in Er.
  destruct Er as (Hl2 & Hf2 & _). cbn [fst snd] in H.
  destruct (failed r2); injection H as _ <- _.
  - cbn [stream set_stream]. rewrite Hl2, Hf2. split; reflexivity.
  - rewrite crtc_setup_ctm_lut3d_func, crtc_setup_ctm_func_shaper.
    cbn [stream set_stream set_cm_has_degamma]. rewrite Hl2, Hf2.
    split; reflexivity.
Qed.

End Crtc.

(** ** The plane update *)

Section Plane.

Context {world : Type} {L : DcLib world}.

(** C9 (as amended): when the plane has no degamma LUT, or one on which
    [__is_lut_linear] returns true (on a LUT of one sample it returns
    false or divides by zero), the plane's [degamma_tf] is the default and
    [cm_has_degamma] is set on the CRTC, the plane's input transfer
    function is what [__set_input_tf] makes, from the degamma LUT of the
    CRTC, of a distributed-points function whose curve is, in legacy sRGB
    degamma mode, BT.709 for the two 8-bit 4:2:0 video formats and sRGB
    for every other format, the 10-bit 4:2:0 formats included, and linear
    when the CRTC is not in that mode. *)
Theorem update_plane_crtc_degamma crtc plane_state dc_plane (w : world) :
  lut_is_nonlinear (fst (__extract_blob_lut (plane_degamma_lut plane_state)))
                   (snd (__extract_blob_lut (plane_degamma_lut plane_state)))
  = Some false ->
  degamma_tf plane_state = DRM_TRANSFER_FUNCTION_DEFAULT ->
  cm_has_degamma crtc = true ->
  let curve :=
    if cm_is_degamma_srgb crtc then
      match format dc_plane with
      | SURFACE_PIXEL_FORMAT_VIDEO_420_YCbCr
      | SURFACE_PIXEL_FORMAT_VIDEO_420_YCrCb => TRANSFER_FUNCTION_BT709
      | SURFACE_PIXEL_FORMAT_VIDEO_420_10bpc_YCbCr
      | SURFACE_PIXEL_FORMAT_VIDEO_420_10bpc_YCrCb
      | SURFACE_PIXEL_FORMAT_OTHER _ => TRANSFER_FUNCTION_SRGB
      end
    else TRANSFER_FUNCTION_LINEAR in
  let func :=
    Build_dc_transfer_func TF_TYPE_DISTRIBUTED_POINTS curve
      (sdr_ref_white_level (in_transfer_func dc_plane))
      (tf_pts (in_transfer_func dc_plane)) in
  let res :=
    __set_input_tf func
      (fst (__extract_blob_lut (degamma_lut (base crtc))))
      (snd (__extract_blob_lut (degamma_lut (base crtc)))) w in
  amdgpu_dm_update_plane_color_mgmt crtc plane_state dc_plane w
  = ((fst (fst res),
      Build_dc_plane_state (format dc_plane) (snd (fst res))
        (dc_fixpt_from_s3132 (plane_hdr_mult plane_state))),
     snd res).
Proof.
  intros Hlin Hdef Hcm curve func res.
  unfold amdgpu_dm_update_plane_color_mgmt.
  destruct (__extract_blob_lut (plane_degamma_lut plane_state)) as [pl ps].
  cbn [fst snd] in Hlin. rewrite Hlin, Hdef, Hcm.
  cbn [is_DRM_TRANSFER_FUNCTION_DEFAULT negb].
  destruct (__extract_blob_lut (degamma_lut (base crtc))) as [cl cs] eqn:Ec.
  unfold bind, ret. subst res func curve. cbn [fst snd].
  destruct dc_plane as [fmt [ty t0 sdr pts] hm].
  destruct (cm_is_degamma_srgb crtc); [destruct fmt|];
    unfold set_tf, set_func_type, set_hdr_mult, set_in_transfer_func;
    cbn [plane_base_tf in_transfer_func format func_type tf
         sdr_ref_white_level tf_pts];
    match goal with
    | |- context [__set_input_tf ?f ?l ?z w] =>
      destruct (__set_input_tf f l z w) as [[r f'] w']
    end; reflexivity.
Qed.

End Plane.

(** C9 (as stated) fails: a 10-bit 4:2:0 plane under a CRTC in legacy
    sRGB degamma mode with [cm_has_degamma] gets the sRGB curve, where
    "BT.709 for 4:2:0 chroma-subsampled formats" asks for BT.709; the
    switch names the two 8-bit formats only. *)
Lemma update_plane_crtc_degamma_10bpc :
  ~ (lut_is_nonlinear
       (fst (__extract_blob_lut (plane_degamma_lut plane_state0)))
       (snd (__extract_blob_lut (plane_degamma_lut plane_state0)))
     = Some false ->
     degamma_tf plane_state0 = DRM_TRANSFER_FUNCTION_DEFAULT ->
     cm_has_degamma crtc_degamma_srgb = true ->
     cm_is_degamma_srgb crtc_degamma_srgb = true ->
     tf (in_transfer_func (snd (fst run_plane_p010)))
     = spec_plane_base_tf (format dc_plane_p010)).
Proof.
  intros H. specialize (H eq_refl eq_refl eq_refl eq_refl).
  vm_compute in H. discriminate H.
Qed.

(** What the run gives: status 0, distributed points, sRGB. *)
Example update_plane_crtc_degamma_10bpc_run :
  is_420_subsampled (format dc_plane_p010) = true /\
  run_plane_p010
  = ((OK,
      Build_dc_plane_state SURFACE_PIXEL_FORMAT_VIDEO_420_10bpc_YCbCr
        (Build_dc_transfer_func TF_TYPE_DISTRIBUTED_POINTS
                                TRANSFER_FUNCTION_SRGB 0 [])
        (2 ^ 32)),
     Build_sim_world 1 1).
Proof. split; vm_compute; reflexivity. Qed.

Lemma update_crtc_adjustment_disabled_witness :
  amdgpu_dm_update_crtc_color_mgmt (L := sim_lib) adev_dcn3
    (crtc_of base_ctm_srgb stream0) (Build_sim_world 1 2)
  = ((OK, crtc_ctm_srgb_done), Build_sim_world 1 2) /\
  enable_adjustment (csc_color_matrix (stream crtc_ctm_srgb_done)) = false.
Proof.
  assert (H : amdgpu_dm_update_crtc_color_mgmt (L := sim_lib) adev_dcn3
                (crtc_of base_ctm_srgb stream0) (Build_sim_world 1 2)
              = ((OK, crtc_ctm_srgb_done), Build_sim_world 1 2))
    by (vm_compute; reflexivity).
  split; [exact H|].
  exact (proj1 (update_crtc_adjustment_disabled (L := sim_lib) adev_dcn3
                  (crtc_of base_ctm_srgb stream0) (Build_sim_world 1 2)
                  OK crtc_ctm_srgb_done (Build_sim_world 1 2) H eq_refl)).
Defined.

(** ** The model at work on the small DC *)

Lemma sim_lib_paired : mpc_3dlut_paired sim_lib.
Proof.
  intros acquire stream l s w l' s' w' H. cbn in H.
  unfold sim_acquire_release in H.
  destruct acquire.
  - destruct (sim_free_3dluts w); simplify_eq. split; eauto.
  - destruct l, s; simplify_eq. split; reflexivity.
Qed.

Lemma update_crtc_legacy_witness :
  amdgpu_dm_update_crtc_color_mgmt (L := sim_lib) adev_dcn3
    (crtc_of base_legacy stream0) (Build_sim_world 1 2)
  = ((OK, crtc_legacy_done), Build_sim_world 1 1) /\
  cm_is_degamma_srgb crtc_legacy_done = true /\
  amdgpu_dm_update_crtc_color_mgmt (L := sim_lib) adev_dcn3
    (set_regamma_tf DRM_TRANSFER_FUNCTION_HLG (crtc_of base_legacy stream0))
    (Build_sim_world 1 2)
  = ((OK, set_regamma_tf DRM_TRANSFER_FUNCTION_HLG crtc_legacy_done),
     Build_sim_world 1 1).
Proof.
  assert (H : amdgpu_dm_update_crtc_color_mgmt (L := sim_lib) adev_dcn3
                (crtc_of base_legacy stream0) (Build_sim_world 1 2)
              = ((OK, crtc_legacy_done), Build_sim_world 1 1))
    by (vm_compute; reflexivity).
  destruct (update_crtc_legacy (L := sim_lib) adev_dcn3
              (crtc_of base_legacy stream0) (Build_sim_world 1 2)
              (Build_drm_property_blob (ramp 256)) OK crtc_legacy_done
              (Build_sim_world 1 1)
              ltac:(vm_compute; reflexivity) ltac:(vm_compute; reflexivity)
              eq_refl ltac:(vm_compute; reflexivity) H)
    as (Hs & _ & _ & _ & Ht).
  split; [exact H|]. split; [exact Hs|]. exact (Ht DRM_TRANSFER_FUNCTION_HLG).
Defined.

Lemma update_crtc_atomic_regamma_witness :
  amdgpu_dm_update_crtc_color_mgmt (L := sim_lib) adev_dcn3
    (crtc_of base_gamma_zero stream0) (Build_sim_world 1 2)
  = ((OK, crtc_gamma_zero_done), Build_sim_world 1 1) /\
  OK = fst (fst (__set_output_tf (L := sim_lib)
                   (Build_dc_transfer_func TF_TYPE_DISTRIBUTED_POINTS
                                           TRANSFER_FUNCTION_LINEAR 80 [])
                   (Some (replicate 4096 (grey 0))) 4096 false
                   (Build_sim_world 1 2))).
Proof.
  assert (H : amdgpu_dm_update_crtc_color_mgmt (L := sim_lib) adev_dcn3
                (crtc_of base_gamma_zero stream0) (Build_sim_world 1 2)
              = ((OK, crtc_gamma_zero_done), Build_sim_world 1 1))
    by (vm_compute; reflexivity).
  split; [exact H|].
  destruct (update_crtc_atomic_regamma (L := sim_lib) adev_dcn3
              (crtc_of base_gamma_zero stream0) (Build_sim_world 1 2)
              OK crtc_gamma_zero_done (Build_sim_world 1 1)
              ltac:(vm_compute; reflexivity) ltac:(vm_compute; reflexivity)
              ltac:(vm_compute; congruence) H
              ltac:(vm_compute; reflexivity))
    as (hr & Hhr & _ & Hbuild).
  vm_compute in Hhr. injection Hhr as <-.
  destruct Hbuild as (_ & Hr & _).
  - intros [Hs _]. vm_compute in Hs. discriminate Hs.
  - etransitivity; [exact Hr|]. vm_compute. reflexivity.
Defined.

Lemma update_crtc_releases_pair_witness :
  mpc_3dlut_paired sim_lib /\
  pair_invariant (stream (crtc_of base0 stream_held)) /\
  amdgpu_dm_update_crtc_color_mgmt (L := sim_lib) adev_dcn3
    (crtc_of base0 stream_held) (Build_sim_world 0 2)
  = ((OK, crtc_released_done), Build_sim_world 1 2) /\
  pair_invariant (stream crtc_released_done) /\
  lut3d_func (stream crtc_released_done) = None /\
  func_shaper (stream crtc_released_done) = None.
Proof.
  assert (Hinv : pair_invariant (stream (crtc_of base0 stream_held)))
    by (left; split; eexists; reflexivity).
  assert (H : amdgpu_dm_update_crtc_color_mgmt (L := sim_lib) adev_dcn3
                (crtc_of base0 stream_held) (Build_sim_world 0 2)
              = ((OK, crtc_released_done), Build_sim_world 1 2))
    by (vm_compute; reflexivity).
  destruct (update_crtc_releases_pair (L := sim_lib) adev_dcn3
              (crtc_of base0 stream_held) (Build_sim_world 0 2)
              OK crtc_released_done (Build_sim_world 1 2)
              sim_lib_paired Hinv H) as [Hinv' Hrel].
  destruct (Hrel ltac:(vm_compute; reflexivity) ltac:(vm_compute; reflexivity)
                 ltac:(vm_compute; congruence) eq_refl
                 ltac:(eexists; reflexivity) ltac:(eexists; reflexivity))
    as [Hok _].
  destruct (Hok eq_refl) as [Hl Hf].
  repeat split; try assumption. exact sim_lib_paired.
Defined.

Lemma update_plane_crtc_degamma_witness :
  amdgpu_dm_update_plane_color_mgmt (L := sim_lib) crtc_degamma_srgb
    plane_state0 dc_plane_nv12 (Build_sim_world 1 2)
  = ((OK,
      Build_dc_plane_state SURFACE_PIXEL_FORMAT_VIDEO_420_YCbCr
        (Build_dc_transfer_func TF_TYPE_DISTRIBUTED_POINTS
                                TRANSFER_FUNCTION_BT709 0 [])
        (2 ^ 32)),
     Build_sim_world 1 1).
Proof.
  etransitivity.
  - exact (update_plane_crtc_degamma (L := sim_lib) crtc_degamma_srgb
             plane_state0 dc_plane_nv12 (Build_sim_world 1 2)
             eq_refl eq_refl eq_refl).
  - vm_compute. reflexivity.
Defined.

(** With a shaper LUT next to the 3D LUT the pair is acquired, the 3D
    LUT is written and marked initialized, and the shaper is built. *)
Example update_crtc_lut3d_with_shaper :
  let res :=
    amdgpu_dm_update_crtc_color_mgmt (L := sim_lib) adev_dcn3
      (crtc_of base_lut3d_shaper stream0) (Build_sim_world 1 2) in
  fst (fst res) = OK /\
  option_map initialized (lut3d_func (stream (snd (fst res)))) = Some true /\
  option_map use_12bits (lut3d_func (stream (snd (fst res)))) = Some true /\
  option_map use_tetrahedral_9 (lut3d_func (stream (snd (fst res))))
  = Some false /\
  option_map func_type (func_shaper (stream (snd (fst res))))
  = Some TF_TYPE_DISTRIBUTED_POINTS /\
  snd res = Build_sim_world 0 1.
Proof. vm_compute. repeat split; reflexivity. Qed.

(** The loop of [__drm_3dlut_to_dc_3dlut] leaves by its condition: for
    4913 samples it stops at [lut_i = 1228], [i = 4912], and the last
    sample goes to [lut0[1228]]. *)
Example __drm_3dlut_to_dc_3dlut_exit :
  snd (__drm_3dlut_to_dc_3dlut_loop (L := sim_lib)
         (Z.to_nat (u32 (4913 - 4))) (replicate 4913 (grey 65535)) 4913
         sim_3dlut 0 0) = 4912 /\
  snd (fst (__drm_3dlut_to_dc_3dlut_loop (L := sim_lib)
              (Z.to_nat (u32 (4913 - 4))) (replicate 4913 (grey 65535)) 4913
              sim_3dlut 0 0)) = 1228 /\
  lut0 (__drm_3dlut_to_dc_3dlut (L := sim_lib) (replicate 4913 (grey 65535))
          4913 sim_3dlut) !! 1228%nat = Some (Build_dc_rgb 4095 4095 4095).
Proof. vm_compute. repeat split; reflexivity. Qed.

(** No CTM, no LUT, default curve: remap and output stage are bypassed. *)
Example update_crtc_nothing_set (w : sim_world) :
  amdgpu_dm_update_crtc_color_mgmt (L := sim_lib) adev_dcn3
    (crtc_of base0 stream0) w
  = ((OK, crtc_released_done), w).
Proof. reflexivity. Qed.

(** * Further properties of the code *)

(** ** More on the linearity detector *)

Lemma lookup_map_seq {A} (f : nat -> A) (n i : nat) :
  (i < n)%nat -> map f (seq 0 n) !! i = Some (f i).
Proof.
  intros Hi. change (map f (seq 0 n)) with (f <$> seq 0 n).
  rewrite list_lookup_fmap, lookup_seq_lt by exact Hi. reflexivity.
Qed.

Lemma ramp_length n : length (ramp n) = n.
Proof. unfold ramp. rewrite length_map, length_seq. reflexivity. Qed.

Lemma ramp_at n i :
  0 <= i < Z.of_nat n ->
  lut_at (ramp n) i = grey (i * 65535 / (Z.of_nat n - 1)).
Proof.
  intros Hi. unfold lut_at, ramp.
  rewrite lookup_map_seq by lia. rewrite Z2Nat.id by lia. reflexivity.
Qed.

Lemma ramp_wf n : (2 <= n)%nat -> lut_wf (ramp n).
Proof.
  intros Hn. unfold lut_wf. rewrite Forall_lookup. intros i e He.
  assert (Hi : (i < n)%nat).
  { apply lookup_lt_Some in He. rewrite ramp_length in He. exact He. }
  unfold ramp in He. rewrite lookup_map_seq in He by exact Hi.
  injection He as <-. cbn.
  assert (0 <= Z.of_nat i * 65535 / (Z.of_nat n - 1) <= 65535).
  { split; [apply Z.div_pos; lia | apply Z.div_le_upper_bound; lia]. }
  lia.
Qed.

(** X1: on the ramp [i * 65535 / (n - 1)] of any size from 2 to 65538,
    [__is_lut_linear] returns true. *)
Theorem __is_lut_linear_ramp (n : nat) :
  (2 <= n)%nat -> Z.of_nat n <= 65538 ->
  __is_lut_linear (ramp n) (Z.of_nat n) = Some true.
Proof.
  intros Hn Hmax. unfold __is_lut_linear.
  apply (__is_lut_linear_loop_spec (Z.to_nat (Z.of_nat n)) (ramp n)
           (Z.of_nat n) 0); try lia.
  - apply ramp_wf. exact Hn.
  - rewrite ramp_length. reflexivity.
  - intros j Hj. rewrite ramp_at by lia.
    unfold sample_linear, grey. cbn. repeat split; lia.
Qed.

Lemma __is_lut_linear_ramp_witness :
  (2 <= 4096)%nat /\ Z.of_nat 4096 <= 65538 /\
  __is_lut_linear (ramp 4096) (Z.of_nat 4096) = Some true.
Proof.
  split; [lia|]. split; [lia|].
  exact (__is_lut_linear_ramp 4096 ltac:(lia) ltac:(lia)).
Defined.

(** X2: a LUT that [__is_lut_linear] accepts starts within one of 0 and
    ends within one of 65535, with equal channels at both ends; a LUT
    whose end points are elsewhere (a constant LUT, an inverted ramp) is
    never taken for linear. *)
Theorem __is_lut_linear_end_points (lut : list drm_color_lut) :
  lut_wf lut ->
  1 < Z.of_nat (length lut) <= 65538 ->
  __is_lut_linear lut (Z.of_nat (length lut)) = Some true ->
  red (lut_at lut 0) <= 1 /\
  65534 <= red (lut_at lut (Z.of_nat (length lut) - 1)) /\
  green (lut_at lut 0) = red (lut_at lut 0) /\
  blue (lut_at lut 0) = red (lut_at lut 0) /\
  green (lut_at lut (Z.of_nat (length lut) - 1))
  = red (lut_at lut (Z.of_nat (length lut) - 1)) /\
  blue (lut_at lut (Z.of_nat (length lut) - 1))
  = red (lut_at lut (Z.of_nat (length lut) - 1)).
Proof.
  intros Hwf Hs H. unfold __is_lut_linear in H.
  pose proof (proj1 (__is_lut_linear_loop_spec
                       (Z.to_nat (Z.of_nat (length lut))) lut
                       (Z.of_nat (length lut)) 0
                       Hwf eq_refl Hs ltac:(lia) ltac:(lia)) H) as Hall.
  clear H. rename Hall into H.
  pose proof (H 0 ltac:(lia)) as (Hrg0 & Hgb0 & H0).
  pose proof (H (Z.of_nat (length lut) - 1) ltac:(lia)) as (Hrg1 & Hgb1 & H1).
  rewrite Z.mul_comm, Z.div_mul in H1 by lia.
  change (0 * 65535 / (Z.of_nat (length lut) - 1)) with 0 in H0.
  repeat split; try congruence; lia.
Qed.

Lemma __is_lut_linear_end_points_witness :
  red (lut_at ramp5 0) <= 1 /\ 65534 <= red (lut_at ramp5 4).
Proof.
  destruct (__is_lut_linear_end_points ramp5 ramp5_wf
              ltac:(vm_compute; split; congruence)
              ltac:(vm_compute; reflexivity)) as (H0 & H1 & _).
  split; [exact H0 | exact H1].
Defined.

(** ** The sample conversions *)

Section Conversions.

Context {world : Type} {L : DcLib world}.



Lemma __drm_3dlut_to_dc_3dlut_loop_lookup lut lut_size (q : nat) n :
  lut_size = 4 * Z.of_nat q + 1 -> (1 <= q)%nat -> lut_size < 2 ^ 32 ->
  forall (k : nat) l, (k <= q)%nat -> (q - k <= n)%nat ->
  exists l',
    __drm_3dlut_to_dc_3dlut_loop n lut lut_size l (Z.of_nat k)
                                 (4 * Z.of_nat k)
    = (l', Z.of_nat q, 4 * Z.of_nat q) /\
    (use_tetrahedral_9 l' = use_tetrahedral_9 l /\
     use_12bits l' = use_12bits l /\ initialized l' = initialized l) /\
    (length (lut0 l') = length (lut0 l) /\ length (lut1 l') = length (lut1 l) /\
     length (lut2 l') = length (lut2 l) /\ length (lut3 l') = length (lut3 l)) /\
    forall j : nat,
      lut0 l' !! j =
        (if decide ((k <= j < q)%nat /\ (j < length (lut0 l))%nat)
         then Some (__to_dc_lut3d_color (lut_at lut (4 * Z.of_nat j)) 12)
         else lut0 l !! j) /\
      lut1 l' !! j =
        (if decide ((k <= j < q)%nat /\ (j < length (lut1 l))%nat)
         then Some (__to_dc_lut3d_color (lut_at lut (4 * Z.of_nat j + 1)) 12)
         else lut1 l !! j) /\
      lut2 l' !! j =
        (if decide ((k <= j < q)%nat /\ (j < length (lut2 l))%nat)
         then Some (__to_dc_lut3d_color (lut_at lut (4 * Z.of_nat j + 2)) 12)
         else lut2 l !! j) /\
      lut3 l' !! j =
        (if decide ((k <= j < q)%nat /\ (j < length (lut3 l))%nat)
         then Some (__to_dc_lut3d_color (lut_at lut (4 * Z.of_nat j + 3)) 12)
         else lut3 l !! j).
Proof.
  intros Hsz Hq Hmax.
  assert (Hbound : u32 (lut_size - 4) = 4 * Z.of_nat q - 3)
    by (rewrite u32_small; lia).
  induction n as [|n IH]; intros k l Hk Hn.
  - assert (k = q) by lia. subst k. exists l.
    cbn [__drm_3dlut_to_dc_3dlut_loop].
    repeat split; try reflexivity; case_decide; try reflexivity; lia.
  - cbn [__drm_3dlut_to_dc_3dlut_loop]. rewrite Hbound.
    rewrite u32_small by lia.
    destruct (Z.ltb_spec (4 * Z.of_nat k) (4 * Z.of_nat q - 3)) as [Hlt|Hge].
    + rewrite Nat2Z.id.
      replace (Z.of_nat k + 1) with (Z.of_nat (S k)) by lia.
      replace (4 * Z.of_nat k + 4) with (4 * Z.of_nat (S k)) by lia.
      match goal with
      | |- context [__drm_3dlut_to_dc_3dlut_loop n lut lut_size ?l1 _ _] =>
        destruct (IH (S k) l1 ltac:(lia) ltac:(lia))
          as (l' & Hrun & Hflags & Hlen & Hlook)
      end.
      cbn [lut0 lut1 lut2 lut3 use_tetrahedral_9 use_12bits initialized]
        in Hflags, Hlen, Hlook.
      rewrite !length_insert in Hlen, Hlook.
      exists l'. split; [exact Hrun|]. split; [exact Hflags|].
      split; [exact Hlen|]. intros j.
      destruct (Hlook j) as (H0 & H1 & H2 & H3).
      rewrite list_lookup_insert in H0, H1, H2, H3.
      rewrite H0, H1, H2, H3. clear H0 H1 H2 H3 Hlook.
      repeat split; repeat case_decide; try reflexivity; try lia;
        destruct_and?; subst; try reflexivity; lia.
    + assert (k = q) by lia. subst k. exists l.
      repeat split; try reflexivity; case_decide; try reflexivity; lia.
Qed.

(** X4: for a 3D LUT of [4 q + 1] samples ([17^3 = 4 * 1228 + 1]),
    [__drm_3dlut_to_dc_3dlut] deals the samples out cyclically: sample
    [4 j + c] goes, with 12 bits per channel, to entry [j] of [lut<c>],
    [lut0] receives the extra last sample at entry [q], the entries
    behind those and the mode flags are left as they were. *)
Theorem __drm_3dlut_to_dc_3dlut_distribution (lut : list drm_color_lut)
    (lut_size : Z) (q : nat) (lut3d : dc_3dlut) :
  lut_size = 4 * Z.of_nat q + 1 -> (1 <= q)%nat -> lut_size < 2 ^ 32 ->
  let r := __drm_3dlut_to_dc_3dlut lut lut_size lut3d in
  (use_tetrahedral_9 r = use_tetrahedral_9 lut3d /\
   use_12bits r = use_12bits lut3d /\ initialized r = initialized lut3d) /\
  forall j : nat,
    let col := fun i => __to_dc_lut3d_color (lut_at lut i) 12 in
    ((j <= q)%nat -> (j < length (lut0 lut3d))%nat ->
     lut0 r !! j = Some (col (4 * Z.of_nat j))) /\
    ((j < q)%nat ->
     ((j < length (lut1 lut3d))%nat ->
      lut1 r !! j = Some (col (4 * Z.of_nat j + 1))) /\
     ((j < length (lut2 lut3d))%nat ->
      lut2 r !! j = Some (col (4 * Z.of_nat j + 2))) /\
     ((j < length (lut3 lut3d))%nat ->
      lut3 r !! j = Some (col (4 * Z.of_nat j + 3)))) /\
    ((q < j)%nat -> lut0 r !! j = lut0 lut3d !! j) /\
    ((q <= j)%nat ->
     lut1 r !! j = lut1 lut3d !! j /\ lut2 r !! j = lut2 lut3d !! j /\
     lut3 r !! j = lut3 lut3d !! j).
Proof.
  intros Hsz Hq Hmax r. subst r. unfold __drm_3dlut_to_dc_3dlut.
  destruct (__drm_3dlut_to_dc_3dlut_loop_lookup lut lut_size q
              (Z.to_nat (u32 (lut_size - 4))) Hsz Hq Hmax 0%nat lut3d
              ltac:(lia) ltac:(rewrite u32_small; lia))
    as (l' & Hrun & Hflags & Hlen & Hlook).
  change (Z.of_nat 0) with 0 in Hrun. change (4 * 0) with 0 in Hrun.
  rewrite Hrun. unfold set_lut0.
  cbn [use_tetrahedral_9 use_12bits initialized lut0 lut1 lut2 lut3].
  split; [exact Hflags|]. intros j. cbv zeta beta.
  destruct (Hlook j) as (H0 & H1 & H2 & H3).
  destruct Hlen as (L0 & L1 & L2 & L3).
  rewrite Nat2Z.id, list_lookup_insert, L0, H0, H1, H2, H3.
  clear H0 H1 H2 H3 Hlook Hrun.
  repeat split; intros; repeat case_decide; try reflexivity; try lia;
    destruct_and?; subst; try reflexivity; lia.
Qed.

End Conversions.


Lemma __drm_3dlut_to_dc_3dlut_distribution_witness :
  lut0 (__drm_3dlut_to_dc_3dlut (L := sim_lib) (replicate 4913 (grey 65535))
          4913 sim_3dlut) !! 1228%nat
  = Some (Build_dc_rgb 4095 4095 4095) /\
  lut1 (__drm_3dlut_to_dc_3dlut (L := sim_lib) (replicate 4913 (grey 65535))
          4913 sim_3dlut) !! 1227%nat
  = Some (Build_dc_rgb 4095 4095 4095).
Proof.
  destruct (__drm_3dlut_to_dc_3dlut_distribution (L := sim_lib)
              (replicate 4913 (grey 65535)) 4913 1228 sim_3dlut
              ltac:(lia) ltac:(lia) ltac:(lia)) as [_ Hj].
  split.
  - destruct (Hj 1228%nat) as (H0 & _).
    etransitivity; [exact (H0 ltac:(lia) ltac:(vm_compute; lia))|].
    vm_compute. reflexivity.
  - destruct (Hj 1227%nat) as (_ & H1 & _).
    destruct (H1 ltac:(lia)) as (H1' & _).
    etransitivity; [exact (H1' ltac:(vm_compute; lia))|].
    vm_compute. reflexivity.
Defined.

(** ** More on the CTM conversion and the curve table *)

Lemma __drm_ctm_to_dc_matrix_loop_length n : forall i c m,
  length (__drm_ctm_to_dc_matrix_loop n i c m) = length m.
Proof.
  induction n as [|n IH]; intros i c m; [reflexivity|].
  cbn [__drm_ctm_to_dc_matrix_loop].
  destruct (Z.rem i 4 =? 3); rewrite IH, length_insert; reflexivity.
Qed.

(** X5: [__drm_ctm_to_dc_matrix] keeps the length of the array it
    writes to, and on a 12-entry array its result depends on the CTM
    alone: nothing of the matrix that was programmed before survives,
    and converting twice is converting once. *)
Theorem __drm_ctm_to_dc_matrix_overwrites (c : drm_color_ctm)
    (m m' : list fixed31_32) :
  length (__drm_ctm_to_dc_matrix c m) = length m /\
  (length m = 12%nat -> length m' = 12%nat ->
   __drm_ctm_to_dc_matrix c m = __drm_ctm_to_dc_matrix c m' /\
   __drm_ctm_to_dc_matrix c (__drm_ctm_to_dc_matrix c m)
   = __drm_ctm_to_dc_matrix c m).
Proof.
  split; [apply __drm_ctm_to_dc_matrix_loop_length|].
  intros Hm Hm'. split.
  - rewrite !__drm_ctm_to_dc_matrix_entries by assumption. reflexivity.
  - rewrite (__drm_ctm_to_dc_matrix_entries c (__drm_ctm_to_dc_matrix c m)).
    + rewrite __drm_ctm_to_dc_matrix_entries by assumption. reflexivity.
    + unfold __drm_ctm_to_dc_matrix.
      rewrite __drm_ctm_to_dc_matrix_loop_length. exact Hm.
Qed.

Lemma __drm_ctm_to_dc_matrix_overwrites_witness :
  __drm_ctm_to_dc_matrix ctm_identity (replicate 12 0)
  = __drm_ctm_to_dc_matrix ctm_identity (replicate 12 (2 ^ 40)).
Proof.
  exact (proj1 (proj2 (__drm_ctm_to_dc_matrix_overwrites ctm_identity
                         (replicate 12 0) (replicate 12 (2 ^ 40)))
                  eq_refl eq_refl)).
Defined.

(** X6: [drm_tf_to_dc_tf] gives the linear curve exactly for the DRM
    default, the DRM linear curve and every value the switch does not
    name; on the other named curves it is one-to-one. *)
Theorem drm_tf_to_dc_tf_linear (t t' : drm_transfer_function) :
  (drm_tf_to_dc_tf t = TRANSFER_FUNCTION_LINEAR <->
   t = DRM_TRANSFER_FUNCTION_DEFAULT \/ t = DRM_TRANSFER_FUNCTION_LINEAR \/
   exists v, t = DRM_TRANSFER_FUNCTION_OTHER v) /\
  (drm_tf_to_dc_tf t = drm_tf_to_dc_tf t' ->
   drm_tf_to_dc_tf t <> TRANSFER_FUNCTION_LINEAR -> t = t').
Proof.
  split.
  - split.
    + destruct t; cbn; intros H; try discriminate H; eauto.
    + intros [->|[->|[v ->]]]; reflexivity.
  - destruct t, t'; cbn; intros H Hn; try discriminate H; try reflexivity;
      contradiction.
Qed.

Lemma drm_tf_to_dc_tf_linear_witness :
  DRM_TRANSFER_FUNCTION_PQ = DRM_TRANSFER_FUNCTION_PQ /\
  drm_tf_to_dc_tf (DRM_TRANSFER_FUNCTION_OTHER 99) = TRANSFER_FUNCTION_LINEAR.
Proof.
  split.
  - exact (proj2 (drm_tf_to_dc_tf_linear DRM_TRANSFER_FUNCTION_PQ
                    DRM_TRANSFER_FUNCTION_PQ) eq_refl
             ltac:(cbn; discriminate)).
  - apply (proj1 (drm_tf_to_dc_tf_linear (DRM_TRANSFER_FUNCTION_OTHER 99)
                    DRM_TRANSFER_FUNCTION_DEFAULT)).
    right. right. exists 99. reflexivity.
Defined.

(** ** More on the CRTC update *)

Section CrtcMore.

Context {world : Type} {L : DcLib world}.

(** The three ways a run of the CRTC update ends. *)
Lemma update_crtc_cases adev crtc (w : world) r crtc' w' :
  amdgpu_dm_update_crtc_color_mgmt adev crtc w = ((r, crtc'), w') ->
  (r = EINVAL /\ crtc' = crtc /\ w' = w /\
   (amdgpu_dm_verify_lut_sizes (base crtc) = EINVAL \/
    amdgpu_dm_verify_lut3d_size adev (base crtc) = EINVAL)) \/
  (amdgpu_dm_verify_lut_sizes (base crtc) = OK /\
   amdgpu_dm_verify_lut3d_size adev (base crtc) = OK /\
   exists has_degamma has_regamma,
     lut_is_nonlinear (fst (__extract_blob_lut (degamma_lut (base crtc))))
                      (snd (__extract_blob_lut (degamma_lut (base crtc))))
     = Some has_degamma /\
     lut_is_nonlinear (fst (__extract_blob_lut (gamma_lut (base crtc))))
                      (snd (__extract_blob_lut (gamma_lut (base crtc))))
     = Some has_regamma /\
   exists r1 c1,
     crtc_setup_regamma
       (set_cm_is_degamma_srgb false (set_cm_has_degamma false crtc))
       (asic_type adev <=? CHIP_RAVEN)
       (drm_tf_to_dc_tf (regamma_tf (base crtc)))
       (fst (__extract_blob_lut (shaper_lut (base crtc))))
       (snd (__extract_blob_lut (shaper_lut (base crtc))))
       (fst (__extract_blob_lut (lut3d (base crtc))))
       (snd (__extract_blob_lut (lut3d (base crtc))))
       (fst (__extract_blob_lut (gamma_lut (base crtc))))
       (snd (__extract_blob_lut (gamma_lut (base crtc)))) has_regamma w
     = ((r1, c1), w') /\
     ((failed r1 = true /\ r = r1 /\ crtc' = c1) \/
      (r1 = OK /\ r = OK /\
       crtc' = crtc_setup_ctm (set_cm_has_degamma has_degamma c1)))).
Proof.
  intros H.
  destruct (amdgpu_dm_verify_lut_sizes_cases (base crtc)) as [E1|E1].
  { rewrite update_crtc_verify_lut_sizes_fails in H by exact E1.
    injection H as <- <- <-. left. auto. }
  destruct (amdgpu_dm_verify_lut3d_size_cases adev (base crtc)) as [E2|E2].
  { rewrite update_crtc_verify_lut3d_size_fails in H by exact E2.
    injection H as <- <- <-. left. auto. }
  right. split; [exact E1|]. split; [exact E2|].
  destruct (update_crtc_valid adev crtc w E1 E2) as (hd & hr & Hd & Hrg & Hv).
  exists hd, hr. split; [exact Hd|]. split; [exact Hrg|].
  rewrite Hv in H. clear Hv.
  destruct (crtc_setup_regamma _ _ _ _ _ _ _ _ _ _ w) as [[r1 c1] w1].
  exists r1, c1.
  destruct (failed r1) eqn:Hr; injection H as <- <- <-.
  - split; [reflexivity|]. left. auto.
  - split; [reflexivity|]. right. apply failed_false in Hr. auto.
Qed.

(** What the regamma block does to the sRGB flag and to the pair. *)
Lemma crtc_setup_regamma_flags crtc has_rom t sl ss l3 l3s rl rs hr
      (w : world) r crtc' w' :
  crtc_setup_regamma crtc has_rom t sl ss l3 l3s rl rs hr w
  = ((r, crtc'), w') ->
  cm_is_degamma_srgb crtc'
  = (if rs =? MAX_COLOR_LEGACY_LUT_ENTRIES then true
     else cm_is_degamma_srgb crtc) /\
  (rs = MAX_COLOR_LEGACY_LUT_ENTRIES ->
   lut3d_func (stream crtc') = lut3d_func (stream crtc) /\
   func_shaper (stream crtc') = func_shaper (stream crtc)).
Proof.
  intros H. destruct (Z.eqb_spec rs MAX_COLOR_LEGACY_LUT_ENTRIES) as [->|Hrs].
  - rewrite crtc_setup_regamma_legacy in H. cbv zeta in H.
    injection H as _ <- _. cbn. auto.
  - rewrite crtc_setup_regamma_atomic in H by exact Hrs. cbv zeta in H.
    split; [|intros; contradiction].
    destruct (failed _); injection H as _ <- _; reflexivity.
Qed.

(** X7: the CRTC update never writes to the DRM state [crtc->base], and
    on every path that returns an error the gamut remap matrix and the
    CSC adjustment of the stream are as they were before the call. *)
Theorem update_crtc_frame adev crtc (w : world) r crtc' w' :
  amdgpu_dm_update_crtc_color_mgmt adev crtc w = ((r, crtc'), w') ->
  base crtc' = base crtc /\
  (r <> OK ->
   gamut_remap_matrix (stream crtc') = gamut_remap_matrix (stream crtc) /\
   csc_color_matrix (stream crtc') = csc_color_matrix (stream crtc)).
Proof.
  intros H. apply update_crtc_cases in H.
  destruct H as [(-> & -> & _) |
                 (_ & _ & hd & hr & Hd & Hrg & r1 & c1 & Hrun & Hend)]; [auto|].
  apply crtc_setup_regamma_frame in Hrun.
  destruct Hrun as (Hb & _ & Hg & Hc).
  destruct Hend as [(_ & -> & ->) | (_ & -> & ->)].
  - split; [exact Hb|]. intros _. split; assumption.
  - split; [|intros Hn; contradiction].
    destruct (crtc_setup_ctm_spec (set_cm_has_degamma hd c1)) as (_ & _ & _ & Hb' & _).
    rewrite Hb'. exact Hb.
Qed.

(** The two flags after a run that passed validation. *)
Lemma update_crtc_flags_after adev crtc (w : world) r crtc' w' :
  amdgpu_dm_verify_lut_sizes (base crtc) = OK ->
  amdgpu_dm_verify_lut3d_size adev (base crtc) = OK ->
  amdgpu_dm_update_crtc_color_mgmt adev crtc w = ((r, crtc'), w') ->
  cm_is_degamma_srgb crtc'
  = (snd (__extract_blob_lut (gamma_lut (base crtc)))
     =? MAX_COLOR_LEGACY_LUT_ENTRIES) /\
  exists has_degamma,
    lut_is_nonlinear (fst (__extract_blob_lut (degamma_lut (base crtc))))
                     (snd (__extract_blob_lut (degamma_lut (base crtc))))
    = Some has_degamma /\
    cm_has_degamma crtc' = (negb (failed r) && has_degamma).
Proof.
  intros E1 E2 H. apply update_crtc_cases in H.
  destruct H as [(_ & _ & _ & [E|E]) |
                 (_ & _ & hd & hr & Hd & Hrg & r1 & c1 & Hrun & Hend)];
    [congruence | congruence |].
  pose proof (crtc_setup_regamma_flags _ _ _ _ _ _ _ _ _ _ _ _ _ _ Hrun)
    as [Hs _].
  apply crtc_setup_regamma_frame in Hrun. destruct Hrun as (_ & Hd' & _).
  cbn [cm_is_degamma_srgb cm_has_degamma set_cm_is_degamma_srgb
       set_cm_has_degamma] in Hs, Hd'.
  destruct Hend as [(Hf & -> & ->) | (-> & -> & ->)].
  - rewrite Hf, Hs, Hd'.
    split; [destruct (_ =? _); reflexivity|].
    exists hd. split; [exact Hd | reflexivity].
  - destruct (crtc_setup_ctm_spec (set_cm_has_degamma hd c1))
      as (_ & _ & _ & _ & Hd'' & Hs' & _).
    rewrite Hd'', Hs'. cbn [cm_is_degamma_srgb cm_has_degamma set_cm_has_degamma
                            failed negb andb].
    rewrite Hs. split; [destruct (_ =? _); reflexivity|].
    exists hd. split; [exact Hd | reflexivity].
Qed.

(** X8: once both size validations have passed, the update leaves
    [cm_is_degamma_srgb] set exactly when the gamma LUT has the legacy
    size, whatever it returns, and [cm_has_degamma] set exactly when it
    returns 0 and the degamma LUT is present and not linear (the check
    returns on a LUT of the validated size): an error return leaves
    [cm_has_degamma] cleared. *)
Theorem update_crtc_flags adev crtc (w : world) r crtc' w' :
  amdgpu_dm_verify_lut_sizes (base crtc) = OK ->
  amdgpu_dm_verify_lut3d_size adev (base crtc) = OK ->
  amdgpu_dm_update_crtc_color_mgmt adev crtc w = ((r, crtc'), w') ->
  cm_is_degamma_srgb crtc'
  = (snd (__extract_blob_lut (gamma_lut (base crtc)))
     =? MAX_COLOR_LEGACY_LUT_ENTRIES) /\
  exists has_degamma,
    lut_is_nonlinear (fst (__extract_blob_lut (degamma_lut (base crtc))))
                     (snd (__extract_blob_lut (degamma_lut (base crtc))))
    = Some has_degamma /\
    cm_has_degamma crtc' = (negb (failed r) && has_degamma).
Proof. apply update_crtc_flags_after. Qed.

(** X9: in legacy mode the update leaves the 3D LUT and the shaper of
    the stream as they are, also when the commit carries a 3D LUT and a
    shaper LUT: the pair is only ever touched in atomic mode. *)
Theorem update_crtc_legacy_keeps_pair adev crtc (w : world) r crtc' w' :
  snd (__extract_blob_lut (gamma_lut (base crtc)))
  = MAX_COLOR_LEGACY_LUT_ENTRIES ->
  amdgpu_dm_update_crtc_color_mgmt adev crtc w = ((r, crtc'), w') ->
  lut3d_func (stream crtc') = lut3d_func (stream crtc) /\
  func_shaper (stream crtc') = func_shaper (stream crtc).
Proof.
  intros Hleg H. apply update_crtc_cases in H.
  destruct H as [(_ & -> & _) |
                 (_ & _ & hd & hr & Hd & Hrg & r1 & c1 & Hrun & Hend)]; [auto|].
  rewrite Hleg in Hrun.
  pose proof (crtc_setup_regamma_flags _ _ _ _ _ _ _ _ _ _ _ _ _ _ Hrun)
    as [_ Hp].
  specialize (Hp eq_refl). cbn [stream set_cm_is_degamma_srgb set_cm_has_degamma] in Hp.
  destruct Hend as [(_ & _ & ->) | (_ & _ & ->)]; [exact Hp|].
  rewrite crtc_setup_ctm_lut3d_func, crtc_setup_ctm_func_shaper.
  exact Hp.
Qed.

(** *** Statuses *)

Lemma extract_size_nonzero (b : option drm_property_blob) :
  snd (__extract_blob_lut b) <> 0 -> is_Some (fst (__extract_blob_lut b)).
Proof. destruct b; cbn; [eauto | congruence]. Qed.

Lemma __set_legacy_tf_status func lut size has_rom (w : world) r f w' :
  __set_legacy_tf func lut size has_rom w = ((r, f), w') ->
  r = OK \/ r = ENOMEM \/ (r = OOPS /\ lut = None).
Proof.
  unfold __set_legacy_tf, __drm_lut_to_dc_gamma, bind, ret. intros H.
  repeat (case_match; simplify_eq); auto.
Qed.

Lemma __set_output_tf_status func lut size has_rom (w : world) r f w' :
  __set_output_tf func lut size has_rom w = ((r, f), w') ->
  r = OK \/ r = ENOMEM \/ (r = OOPS /\ lut = None /\ size <> 0).
Proof.
  unfold __set_output_tf, __drm_lut_to_dc_gamma, bind, ret. intros H.
  destruct (Z.eqb_spec size 0); cbn [negb] in H;
    repeat (case_match; simplify_eq); auto.
Qed.


Lemma __set_func_shaper_status func lut size (w : world) r f w' :
  __set_func_shaper func lut size w = ((r, f), w') ->
  r = OK \/ r = ENOMEM \/ (r = OOPS /\ lut = None).
Proof.
  unfold __set_func_shaper, __drm_lut_to_dc_gamma, bind, ret. intros H.
  repeat (case_match; simplify_eq); auto.
Qed.

Lemma amdgpu_dm_set_atomic_regamma_status stream lut size has_rom t
      (w : world) r stream' w' :
  amdgpu_dm_set_atomic_regamma stream lut size has_rom t w
  = ((r, stream'), w') ->
  r = OK \/ r = ENOMEM \/ (r = OOPS /\ lut = None /\ size <> 0).
Proof.
  unfold amdgpu_dm_set_atomic_regamma, bind, ret. intros H.
  destruct (negb (size =? 0) || negb (is_TRANSFER_FUNCTION_LINEAR t));
    [|simplify_eq; auto].
  destruct (__set_output_tf _ _ _ _ w) as [[r1 f1] w1] eqn:E.
  apply __set_output_tf_status in E. simplify_eq. exact E.
Qed.

(** The build after the pointers are in place, [acquire] holds and both
    LUTs are there. *)
Lemma amdgpu_dm_atomic_shaper_lut3d_built stream sl ss l3 l3s l f (w : world)
      r stream' w' :
  match amdgpu_dm_atomic_lut3d
          (set_func_shaper (Some f) (set_lut3d_func (Some l) stream))
          (Some l3) l3s (Some l) with
  | None =>
    ret (OOPS, set_func_shaper (Some f) (set_lut3d_func (Some l) stream))
  | Some stream0 =>
    let* (r, stream1, func) :=
      amdgpu_dm_atomic_shaper_lut stream0 (Some sl) ss (Some f) in
    ret (r, set_func_shaper func stream1)
  end w = ((r, stream'), w') ->
  (r = OK \/ r = ENOMEM) /\
  is_Some (func_shaper stream') /\
  exists l',
    lut3d_func stream' = Some l' /\ initialized l' = true /\
    use_12bits l' = true /\ use_tetrahedral_9 l' = false.
Proof.
  cbn [amdgpu_dm_atomic_lut3d]. unfold bind, ret.
  destruct (amdgpu_dm_atomic_shaper_lut _ (Some sl) ss (Some f) w)
    as [[[r1 s1] f1] w1] eqn:E.
  intros H. injection H as <- <- <-.
  pose proof (amdgpu_dm_atomic_shaper_lut_frame _ _ _ _ _ _ _ _ _ E)
    as (_ & Hl & _ & _ & Hf).
  split; [|split].
  - unfold amdgpu_dm_atomic_shaper_lut in E.
    destruct (ss =? 0); [unfold ret in E; simplify_eq; auto|].
    unfold bind, ret in E.
    destruct (__set_func_shaper _ _ _ w) as [[r2 f2] w2] eqn:E2.
    apply __set_func_shaper_status in E2.
    destruct (failed r2) eqn:Hr; simplify_eq.
    + destruct E2 as [->|[->|[_ ?]]]; [discriminate Hr | auto | discriminate].
    + auto.
  - cbn. apply Hf. eauto.
  - cbn [lut3d_func set_func_shaper]. rewrite Hl.
    cbn [lut3d_func set_lut3d_func]. eexists. split; [reflexivity|].
    cbn. auto.
Qed.

(** The acquire case of [amdgpu_dm_atomic_shaper_lut3d]. *)
Lemma amdgpu_dm_atomic_shaper_lut3d_acquire stream sl ss l3 l3s (w : world)
      r stream' w' :
  mpc_3dlut_paired L -> pair_invariant stream ->
  ss <> 0 -> l3s <> 0 ->
  amdgpu_dm_atomic_shaper_lut3d stream (Some sl) ss (Some l3) l3s w
  = ((r, stream'), w') ->
  (r = DC_ERROR_UNEXPECTED /\ stream' = stream) \/
  ((r = OK \/ r = ENOMEM) /\
   is_Some (func_shaper stream') /\
   exists l',
     lut3d_func stream' = Some l' /\ initialized l' = true /\
     use_12bits l' = true /\ use_tetrahedral_9 l' = false).
Proof.
  intros Hpair Hinv Hss Hl3s H. unfold amdgpu_dm_atomic_shaper_lut3d in H.
  destruct (Z.eqb_spec ss 0) as [|_]; [contradiction|].
  destruct (Z.eqb_spec l3s 0) as [|_]; [contradiction|].
  cbn [negb andb orb] in H.
  destruct stream as [o l f g c]. cbn [lut3d_func func_shaper] in H.
  destruct Hinv as [[[l0 Hl] [f0 Hf]] | [Hl Hf]]; cbn in Hl, Hf; subst l f.
  - rewrite !bool_decide_eq_true_2 in H by eauto.
    cbn [negb andb orb] in H. unfold bind at 1 in H. unfold ret at 1 in H.
    cbn [negb] in H. right.
    eapply (amdgpu_dm_atomic_shaper_lut3d_built
              {| out_transfer_func := o; lut3d_func := Some l0;
                 func_shaper := Some f0; gamut_remap_matrix := g;
                 csc_color_matrix := c |}). exact H.
  - rewrite !bool_decide_eq_false_2 in H by (intros [? ?]; discriminate).
    cbn [negb andb orb] in H. unfold bind at 1 in H.
    destruct (dc_acquire_release_mpc_3dlut_for_ctx true _ _ _ w)
      as [[[ok l'] f'] w1] eqn:E.
    destruct ok; cbn [negb] in H.
    + apply Hpair in E. destruct E as [[l0 ->] [f0 ->]]. right.
      eapply (amdgpu_dm_atomic_shaper_lut3d_built
                {| out_transfer_func := o; lut3d_func := None;
                   func_shaper := None; gamut_remap_matrix := g;
                   csc_color_matrix := c |}). exact H.
    + unfold ret in H. injection H as <- <- <-. left. auto.
Qed.

(** Without [acquire] nothing is built. *)
Lemma amdgpu_dm_atomic_shaper_lut3d_no_acquire stream sl ss l3 l3s (w : world)
      r stream' w' :
  ss = 0 \/ l3s = 0 ->
  amdgpu_dm_atomic_shaper_lut3d stream sl ss l3 l3s w = ((r, stream'), w') ->
  r = OK \/ r = DC_ERROR_UNEXPECTED.
Proof.
  intros Hz H. unfold amdgpu_dm_atomic_shaper_lut3d in H.
  assert (Hacq : negb (ss =? 0) && negb (l3s =? 0) = false).
  { destruct Hz as [-> | ->]; [reflexivity|].
    destruct (ss =? 0); reflexivity. }
  rewrite Hacq in H. unfold bind, ret in H.
  repeat (case_match; simplify_eq); auto.
Qed.

Lemma crtc_atomic_shaper_lut3d_status stream (bs b3 : option drm_property_blob)
      (w : world) r stream' w' :
  mpc_3dlut_paired L -> pair_invariant stream ->
  crtc_atomic_shaper_lut3d stream
    (fst (__extract_blob_lut bs)) (snd (__extract_blob_lut bs))
    (fst (__extract_blob_lut b3)) (snd (__extract_blob_lut b3)) w
  = ((r, stream'), w') ->
  r = OK \/ r = ENOMEM \/ r = DC_ERROR_UNEXPECTED.
Proof.
  intros Hpair Hinv H. unfold crtc_atomic_shaper_lut3d in H.
  destruct b3 as [b3|]; cbn [__extract_blob_lut fst snd] in H.
  - rewrite bool_decide_eq_true_2 in H by eauto.
    destruct bs as [bs|]; cbn [__extract_blob_lut fst snd] in H.
    + rewrite bool_decide_eq_true_2 in H by eauto.
      destruct (Z.eq_dec (drm_color_lut_size bs) 0) as [Hs|Hs];
        [apply amdgpu_dm_atomic_shaper_lut3d_no_acquire in H; tauto|].
      destruct (Z.eq_dec (drm_color_lut_size b3) 0) as [H3|H3];
        [apply amdgpu_dm_atomic_shaper_lut3d_no_acquire in H; tauto|].
      apply amdgpu_dm_atomic_shaper_lut3d_acquire in H; try assumption.
      tauto.
    + rewrite bool_decide_eq_false_2 in H by (intros [? ?]; discriminate).
      apply amdgpu_dm_atomic_shaper_lut3d_no_acquire in H; tauto.
  - rewrite bool_decide_eq_false_2 in H by (intros [? ?]; discriminate).
    apply amdgpu_dm_atomic_shaper_lut3d_no_acquire in H; tauto.
Qed.

(** X10: on a stream that holds the 3D LUT and the shaper together or
    not at all, and with a pool that hands them out together, the CRTC
    update never dereferences a NULL pointer: it returns 0, [-EINVAL],
    [-ENOMEM] or [DC_ERROR_UNEXPECTED]. *)
Theorem update_crtc_no_oops adev crtc (w : world) r crtc' w' :
  mpc_3dlut_paired L ->
  pair_invariant (stream crtc) ->
  amdgpu_dm_update_crtc_color_mgmt adev crtc w = ((r, crtc'), w') ->
  r = OK \/ r = EINVAL \/ r = ENOMEM \/ r = DC_ERROR_UNEXPECTED.
Proof.
  intros Hpair Hinv H. apply update_crtc_cases in H.
  destruct H as [(-> & _) |
                 (_ & _ & hd & hr & Hd & Hrg & r1 & c1 & Hrun & Hend)]; [auto|].
  destruct Hend as [(_ & -> & _) | (_ & -> & _)]; [|auto].
  destruct (Z.eq_dec (snd (__extract_blob_lut (gamma_lut (base crtc))))
                     MAX_COLOR_LEGACY_LUT_ENTRIES) as [Hleg|Hat].
  - rewrite Hleg in Hrun. rewrite crtc_setup_regamma_legacy in Hrun.
    cbv zeta in Hrun.
    destruct (__set_legacy_tf _ _ _ _ w) as [[r2 f2] w2] eqn:E.
    apply __set_legacy_tf_status in E. cbn [fst snd] in Hrun.
    injection Hrun as <- _ _.
    destruct E as [->|[->|[_ E]]]; auto.
    pose proof (extract_size_nonzero (gamma_lut (base crtc))
                  ltac:(rewrite Hleg; discriminate)) as [x Hx].
    congruence.
  - rewrite crtc_setup_regamma_atomic in Hrun by exact Hat. cbv zeta in Hrun.
    change (stream (set_cm_is_degamma_srgb false (set_cm_has_degamma false crtc)))
      with (stream crtc) in Hrun.
    destruct (crtc_atomic_shaper_lut3d _ _ _ _ _ w) as [[r2 s2] w2] eqn:E.
    apply crtc_atomic_shaper_lut3d_status in E; [|assumption|assumption].
    cbn [fst snd] in Hrun.
    destruct (failed r2) eqn:Hf.
    + injection Hrun as <- _ _. tauto.
    + destruct (amdgpu_dm_set_atomic_regamma _ _ _ _ _ w2)
        as [[r3 s3] w3] eqn:E3.
      apply amdgpu_dm_set_atomic_regamma_status in E3.
      cbn [fst snd] in Hrun. injection Hrun as <- _ _.
      destruct E3 as [->|[->|(_ & Hnone & Hsz)]]; auto.
      exfalso. rewrite Hnone in Hrg. cbn [lut_is_nonlinear] in Hrg.
      injection Hrg as <-. apply Hsz. reflexivity.
Qed.

(** X11: in atomic mode, when the commit carries a non-empty 3D LUT and
    a non-empty shaper LUT and the update returns 0 or [-ENOMEM], the
    stream holds a 3D LUT that is marked initialized, 12-bit and
    tetrahedral-17, together with a shaper: the 3D LUT stays programmed
    also when a later stage runs out of memory. *)
Theorem update_crtc_lut3d_built adev crtc (w : world) bs b3 r crtc' w' :
  mpc_3dlut_paired L ->
  pair_invariant (stream crtc) ->
  snd (__extract_blob_lut (gamma_lut (base crtc)))
  <> MAX_COLOR_LEGACY_LUT_ENTRIES ->
  shaper_lut (base crtc) = Some bs -> drm_color_lut_size bs <> 0 ->
  lut3d (base crtc) = Some b3 -> drm_color_lut_size b3 <> 0 ->
  amdgpu_dm_update_crtc_color_mgmt adev crtc w = ((r, crtc'), w') ->
  r = OK \/ r = ENOMEM ->
  is_Some (func_shaper (stream crtc')) /\
  exists l,
    lut3d_func (stream crtc') = Some l /\ initialized l = true /\
    use_12bits l = true /\ use_tetrahedral_9 l = false.
Proof.
  intros Hpair Hinv Hat Hbs Hss Hb3 Hs3 H Hr. apply update_crtc_cases in H.
  destruct H as [(-> & _) |
                 (_ & _ & hd & hr & Hd & Hrg & r1 & c1 & Hrun & Hend)];
    [destruct Hr; discriminate|].
  rewrite crtc_setup_regamma_atomic in Hrun by exact Hat. cbv zeta in Hrun.
  change (stream (set_cm_is_degamma_srgb false (set_cm_has_degamma false crtc)))
    with (stream crtc) in Hrun.
  rewrite Hbs, Hb3 in Hrun. cbn [__extract_blob_lut fst snd] in Hrun.
  destruct (crtc_atomic_shaper_lut3d _ _ _ _ _ w) as [[r2 s2] w2] eqn:E.
  unfold crtc_atomic_shaper_lut3d in E.
  rewrite !bool_decide_eq_true_2 in E by eauto.
  apply amdgpu_dm_atomic_shaper_lut3d_acquire in E; try assumption.
  cbn [fst snd] in Hrun.
  assert (Hbuilt : failed r2 = true /\ r2 = DC_ERROR_UNEXPECTED \/
                   is_Some (func_shaper s2) /\
                   exists l, lut3d_func s2 = Some l /\ initialized l = true /\
                             use_12bits l = true /\ use_tetrahedral_9 l = false).
  { destruct E as [[-> _] | (_ & Hf & Hl)]; [left; auto | right; auto]. }
  clear E. destruct (failed r2) eqn:Hf2.
  - injection Hrun as <- <- _.
    destruct Hend as [(_ & -> & ->) | (-> & _)]; [|discriminate Hf2].
    destruct Hbuilt as [[_ ->] | Hb]; [destruct Hr; discriminate|].
    exact Hb.
  - destruct Hbuilt as [[? _] | Hb]; [discriminate|].
    destruct (amdgpu_dm_set_atomic_regamma _ _ _ _ _ w2)
      as [[r3 s3] w3] eqn:E3.
    apply amdgpu_dm_set_atomic_regamma_frame in E3.
    destruct E3 as (Hl3 & Hf3 & _). cbn [fst snd] in Hrun.
    injection Hrun as <- <- _.
    destruct Hend as [(_ & _ & ->) | (_ & _ & ->)].
    + cbn [stream set_stream]. rewrite Hl3, Hf3. exact Hb.
    + rewrite crtc_setup_ctm_lut3d_func, crtc_setup_ctm_func_shaper.
      cbn [stream set_stream set_cm_has_degamma]. rewrite Hl3, Hf3. exact Hb.
Qed.

(** *** When the pool is consulted *)

Lemma bind_ext {A B} (m : M world A) (k k' : A -> M world B) (w : world) :
  (forall a w1, k a w1 = k' a w1) -> bind m k w = bind m k' w.
Proof. intros H. unfold bind. destruct (m w) as [a w1]. apply H. Qed.

Section OtherPool.

Variable h :
  bool -> dc_stream_state -> option dc_3dlut -> option dc_transfer_func ->
  M world (bool * option dc_3dlut * option dc_transfer_func).

Abbreviation L' := (with_acquire_release h L).

Lemma __drm_lut_to_dc_gamma_loop_pool conv n : forall lut i gamma,
  __drm_lut_to_dc_gamma_loop (L := L') conv n lut i gamma
  = __drm_lut_to_dc_gamma_loop (L := L) conv n lut i gamma.
Proof.
  induction n as [|n IH]; intros lut i gamma; [reflexivity|].
  cbn [__drm_lut_to_dc_gamma_loop]. rewrite IH. reflexivity.
Qed.

Lemma __drm_lut_to_dc_gamma_pool lut gamma is_legacy :
  __drm_lut_to_dc_gamma (L := L') lut gamma is_legacy
  = __drm_lut_to_dc_gamma (L := L) lut gamma is_legacy.
Proof.
  unfold __drm_lut_to_dc_gamma. destruct lut; [|reflexivity].
  destruct is_legacy; rewrite __drm_lut_to_dc_gamma_loop_pool; reflexivity.
Qed.

Lemma __set_legacy_tf_pool func lut size has_rom (w : world) :
  __set_legacy_tf (L := L') func lut size has_rom w
  = __set_legacy_tf (L := L) func lut size has_rom w.
Proof.
  unfold __set_legacy_tf. apply bind_ext. intros [g|] w1; [|reflexivity].
  rewrite __drm_lut_to_dc_gamma_pool.
  destruct (__drm_lut_to_dc_gamma _ _ _); reflexivity.
Qed.

Lemma __set_output_tf_pool func lut size has_rom (w : world) :
  __set_output_tf (L := L') func lut size has_rom w
  = __set_output_tf (L := L) func lut size has_rom w.
Proof.
  unfold __set_output_tf, bind, ret.
  destruct (negb (size =? 0)); [|reflexivity].
  change (@dc_create_gamma world L') with (@dc_create_gamma world L).
  destruct (dc_create_gamma w) as [[g|] w1]; [|reflexivity].
  rewrite __drm_lut_to_dc_gamma_pool.
  destruct (__drm_lut_to_dc_gamma _ _ _); reflexivity.
Qed.

Lemma __set_func_shaper_pool func lut size (w : world) :
  __set_func_shaper (L := L') func lut size w
  = __set_func_shaper (L := L) func lut size w.
Proof.
  unfold __set_func_shaper. apply bind_ext. intros [g|] w1; [|reflexivity].
  rewrite __drm_lut_to_dc_gamma_pool.
  destruct (__drm_lut_to_dc_gamma _ _ _); reflexivity.
Qed.

Lemma amdgpu_dm_set_atomic_regamma_pool stream lut size has_rom t (w : world) :
  amdgpu_dm_set_atomic_regamma (L := L') stream lut size has_rom t w
  = amdgpu_dm_set_atomic_regamma (L := L) stream lut size has_rom t w.
Proof.
  unfold amdgpu_dm_set_atomic_regamma.
  destruct (negb (size =? 0) || negb (is_TRANSFER_FUNCTION_LINEAR t));
    [|reflexivity].
  unfold bind. rewrite __set_output_tf_pool. reflexivity.
Qed.

Lemma __drm_3dlut_to_dc_3dlut_loop_pool n : forall lut lut_size l lut_i i,
  __drm_3dlut_to_dc_3dlut_loop (L := L') n lut lut_size l lut_i i
  = __drm_3dlut_to_dc_3dlut_loop (L := L) n lut lut_size l lut_i i.
Proof.
  induction n as [|n IH]; intros lut lut_size l lut_i i; [reflexivity|].
  cbn [__drm_3dlut_to_dc_3dlut_loop].
  destruct (u32 i <? u32 (lut_size - 4)); [|reflexivity].
  rewrite IH. reflexivity.
Qed.

Lemma amdgpu_dm_atomic_lut3d_pool stream lut lut_size l :
  amdgpu_dm_atomic_lut3d (L := L') stream lut lut_size l
  = amdgpu_dm_atomic_lut3d (L := L) stream lut lut_size l.
Proof.
  unfold amdgpu_dm_atomic_lut3d, __drm_3dlut_to_dc_3dlut.
  destruct lut, l; cbv beta iota; [|reflexivity..].
  rewrite __drm_3dlut_to_dc_3dlut_loop_pool. reflexivity.
Qed.

Lemma amdgpu_dm_atomic_shaper_lut_pool stream lut size f (w : world) :
  amdgpu_dm_atomic_shaper_lut (L := L') stream lut size f w
  = amdgpu_dm_atomic_shaper_lut (L := L) stream lut size f w.
Proof.
  unfold amdgpu_dm_atomic_shaper_lut. destruct f; [|reflexivity].
  destruct (size =? 0); [reflexivity|].
  unfold bind. rewrite __set_func_shaper_pool. reflexivity.
Qed.

Lemma crtc_atomic_shaper_lut3d_pool stream (bs b3 : option drm_property_blob)
      (w : world) :
  (is_Some (lut3d_func stream) /\ is_Some (func_shaper stream) /\
   snd (__extract_blob_lut bs) <> 0 /\ snd (__extract_blob_lut b3) <> 0) \/
  (lut3d_func stream = None /\ func_shaper stream = None /\
   (snd (__extract_blob_lut bs) = 0 \/ snd (__extract_blob_lut b3) = 0)) ->
  crtc_atomic_shaper_lut3d (L := L') stream
    (fst (__extract_blob_lut bs)) (snd (__extract_blob_lut bs))
    (fst (__extract_blob_lut b3)) (snd (__extract_blob_lut b3)) w
  = crtc_atomic_shaper_lut3d (L := L) stream
      (fst (__extract_blob_lut bs)) (snd (__extract_blob_lut bs))
      (fst (__extract_blob_lut b3)) (snd (__extract_blob_lut b3)) w.
Proof.
  intros Hcase.
  assert (Hgen : forall sl ss l3 l3s,
    (is_Some (lut3d_func stream) /\ is_Some (func_shaper stream) /\
     ss <> 0 /\ l3s <> 0) \/
    (lut3d_func stream = None /\ func_shaper stream = None /\
     (ss = 0 \/ l3s = 0)) ->
    amdgpu_dm_atomic_shaper_lut3d (L := L') stream sl ss l3 l3s w
    = amdgpu_dm_atomic_shaper_lut3d (L := L) stream sl ss l3 l3s w).
  { intros sl ss l3 l3s Hc. unfold amdgpu_dm_atomic_shaper_lut3d.
    destruct Hc as [([l Hl] & [f Hf] & Hs & H3) | (Hl & Hf & Hz)];
      rewrite Hl, Hf.
    - rewrite !bool_decide_eq_true_2 by eauto.
      destruct (Z.eqb_spec ss 0) as [|_]; [contradiction|].
      destruct (Z.eqb_spec l3s 0) as [|_]; [contradiction|].
      cbn [negb andb orb]. unfold bind, ret. cbn [negb].
      rewrite amdgpu_dm_atomic_lut3d_pool.
      destruct (amdgpu_dm_atomic_lut3d _ _ _ _); [|reflexivity].
      rewrite amdgpu_dm_atomic_shaper_lut_pool. reflexivity.
    - rewrite !(bool_decide_eq_false_2 (is_Some None))
        by (intros [? ?]; discriminate).
      assert (Hacq : negb (ss =? 0) && negb (l3s =? 0) = false).
      { destruct Hz as [-> | ->]; [reflexivity|].
        destruct (ss =? 0); reflexivity. }
      rewrite Hacq. reflexivity. }
  unfold crtc_atomic_shaper_lut3d.
  destruct b3 as [b3|]; cbn [__extract_blob_lut fst snd] in *.
  - rewrite (bool_decide_eq_true_2 (is_Some (Some (blob_data b3)))) by eauto.
    destruct bs as [bs|]; cbn [__extract_blob_lut fst snd] in *.
    + rewrite (bool_decide_eq_true_2 (is_Some (Some (blob_data bs)))) by eauto.
      apply Hgen. exact Hcase.
    + rewrite (bool_decide_eq_false_2 (is_Some None))
        by (intros [? ?]; discriminate).
      apply Hgen. destruct Hcase as [(_ & _ & Hs & _) | (Hl & Hf & _)];
        [congruence | right; auto].
  - rewrite (bool_decide_eq_false_2 (is_Some None))
      by (intros [? ?]; discriminate).
    apply Hgen. destruct Hcase as [(_ & _ & _ & H3) | (Hl & Hf & _)];
      [congruence | right; auto].
Qed.

Lemma crtc_setup_regamma_pool crtc has_rom t (bs b3 : option drm_property_blob)
      rl rs hr (w : world) :
  rs = MAX_COLOR_LEGACY_LUT_ENTRIES \/
  (is_Some (lut3d_func (stream crtc)) /\ is_Some (func_shaper (stream crtc)) /\
   snd (__extract_blob_lut bs) <> 0 /\ snd (__extract_blob_lut b3) <> 0) \/
  (lut3d_func (stream crtc) = None /\ func_shaper (stream crtc) = None /\
   (snd (__extract_blob_lut bs) = 0 \/ snd (__extract_blob_lut b3) = 0)) ->
  crtc_setup_regamma (L := L') crtc has_rom t
    (fst (__extract_blob_lut bs)) (snd (__extract_blob_lut bs))
    (fst (__extract_blob_lut b3)) (snd (__extract_blob_lut b3)) rl rs hr w
  = crtc_setup_regamma (L := L) crtc has_rom t
      (fst (__extract_blob_lut bs)) (snd (__extract_blob_lut bs))
      (fst (__extract_blob_lut b3)) (snd (__extract_blob_lut b3)) rl rs hr w.
Proof.
  intros Hcase.
  destruct (Z.eq_dec rs MAX_COLOR_LEGACY_LUT_ENTRIES) as [->|Hat].
  - rewrite (crtc_setup_regamma_legacy (L := L)).
    rewrite (crtc_setup_regamma_legacy (L := L')).
    rewrite __set_legacy_tf_pool. reflexivity.
  - destruct Hcase as [Hleg|Hcase]; [contradiction|].
    rewrite (crtc_setup_regamma_atomic (L := L)) by exact Hat.
    rewrite (crtc_setup_regamma_atomic (L := L')) by exact Hat.
    cbv zeta. rewrite crtc_atomic_shaper_lut3d_pool by exact Hcase.
    destruct (crtc_atomic_shaper_lut3d _ _ _ _ _ w) as [[r1 s1] w1].
    cbn [fst snd]. destruct (failed r1); [reflexivity|].
    rewrite amdgpu_dm_set_atomic_regamma_pool. reflexivity.
Qed.

End OtherPool.

(** X12: the MPC 3D LUT pool is consulted only to change what the stream
    holds.  In legacy mode, in atomic mode when the commit carries both
    LUTs and the stream already holds the pair, and in atomic mode when
    the commit lacks one of the LUTs and the stream holds nothing, the
    update gives the same result with any other pool - also with one that
    refuses every request. *)
Theorem update_crtc_pool_untouched h adev crtc (w : world) :
  snd (__extract_blob_lut (gamma_lut (base crtc)))
  = MAX_COLOR_LEGACY_LUT_ENTRIES \/
  (is_Some (lut3d_func (stream crtc)) /\ is_Some (func_shaper (stream crtc)) /\
   snd (__extract_blob_lut (shaper_lut (base crtc))) <> 0 /\
   snd (__extract_blob_lut (lut3d (base crtc))) <> 0) \/
  (lut3d_func (stream crtc) = None /\ func_shaper (stream crtc) = None /\
   (snd (__extract_blob_lut (shaper_lut (base crtc))) = 0 \/
    snd (__extract_blob_lut (lut3d (base crtc))) = 0)) ->
  amdgpu_dm_update_crtc_color_mgmt (L := with_acquire_release h L) adev crtc w
  = amdgpu_dm_update_crtc_color_mgmt (L := L) adev crtc w.
Proof.
  intros Hcase.
  destruct (amdgpu_dm_verify_lut_sizes_cases (base crtc)) as [E1|E1].
  { rewrite (update_crtc_verify_lut_sizes_fails (L := L)) by exact E1.
    apply (update_crtc_verify_lut_sizes_fails
             (L := with_acquire_release h L)). exact E1. }
  destruct (amdgpu_dm_verify_lut3d_size_cases adev (base crtc)) as [E2|E2].
  { rewrite (update_crtc_verify_lut3d_size_fails (L := L)) by exact E2.
    apply (update_crtc_verify_lut3d_size_fails
             (L := with_acquire_release h L)). exact E2. }
  destruct (update_crtc_valid (L := L) adev crtc w E1 E2)
    as (hd & hr & Hd & Hrg & ->).
  destruct (update_crtc_valid (L := with_acquire_release h L) adev crtc w E1 E2)
    as (hd' & hr' & Hd' & Hrg' & ->).
  assert (hd' = hd) by congruence. assert (hr' = hr) by congruence.
  subst hd' hr'.
  rewrite (crtc_setup_regamma_pool h) by exact Hcase.
  reflexivity.
Qed.

End CrtcMore.

(** ** More on the plane update *)

Section PlaneMore.

Context {world : Type} {L : DcLib world}.





(** X14: what the plane sets itself wins: with a non-linear degamma LUT
    or a [degamma_tf] other than the default on the plane, the result of
    the plane update is the same for every CRTC state, so neither the
    degamma LUT of the CRTC nor its legacy sRGB mode reaches the plane. *)
Theorem update_plane_own_state_wins crtc1 crtc2 plane_state dc_plane (w : world) :
  lut_is_nonlinear (fst (__extract_blob_lut (plane_degamma_lut plane_state)))
                   (snd (__extract_blob_lut (plane_degamma_lut plane_state)))
  = Some true \/
  degamma_tf plane_state <> DRM_TRANSFER_FUNCTION_DEFAULT ->
  amdgpu_dm_update_plane_color_mgmt crtc1 plane_state dc_plane w
  = amdgpu_dm_update_plane_color_mgmt crtc2 plane_state dc_plane w.
Proof.
  intros Hown. unfold amdgpu_dm_update_plane_color_mgmt.
  destruct (__extract_blob_lut (plane_degamma_lut plane_state)) as [pl ps].
  cbn [fst snd] in Hown.
  destruct (lut_is_nonlinear pl ps) as [[|]|]; [reflexivity| |reflexivity].
  destruct Hown as [Hown|Hown]; [discriminate|].
  destruct (degamma_tf plane_state); try reflexivity. contradiction.
Qed.

(** X15: a plane that sets nothing itself - the linearity check of its
    degamma LUT returns and finds no non-linear LUT, which leaves out the
    LUT of one sample that makes the check divide by zero - under a CRTC
    without degamma: outside legacy sRGB mode its degamma is put in
    bypass, in legacy sRGB mode a plane whose format is not one of the
    two 8-bit 4:2:0 video formats gets the predefined sRGB curve; both
    without a call into DC. *)
Theorem update_plane_implicit crtc plane_state dc_plane (w : world) :
  lut_is_nonlinear (fst (__extract_blob_lut (plane_degamma_lut plane_state)))
                   (snd (__extract_blob_lut (plane_degamma_lut plane_state)))
  = Some false ->
  degamma_tf plane_state = DRM_TRANSFER_FUNCTION_DEFAULT ->
  cm_has_degamma crtc = false ->
  (cm_is_degamma_srgb crtc = false \/
   plane_base_tf (format dc_plane) = TRANSFER_FUNCTION_SRGB) ->
  amdgpu_dm_update_plane_color_mgmt crtc plane_state dc_plane w
  = ((OK,
      Build_dc_plane_state (format dc_plane)
        (Build_dc_transfer_func
           (if cm_is_degamma_srgb crtc then TF_TYPE_PREDEFINED
            else TF_TYPE_BYPASS)
           (if cm_is_degamma_srgb crtc then TRANSFER_FUNCTION_SRGB
            else TRANSFER_FUNCTION_LINEAR)
           (sdr_ref_white_level (in_transfer_func dc_plane))
           (tf_pts (in_transfer_func dc_plane)))
        (dc_fixpt_from_s3132 (plane_hdr_mult plane_state))),
     w).
Proof.
  intros Hlin Hdef Hcm Hcase. unfold amdgpu_dm_update_plane_color_mgmt.
  destruct (__extract_blob_lut (plane_degamma_lut plane_state)) as [pl ps].
  cbn [fst snd] in Hlin. rewrite Hlin, Hdef, Hcm.
  cbn [is_DRM_TRANSFER_FUNCTION_DEFAULT negb].
  destruct (cm_is_degamma_srgb crtc); [|reflexivity].
  destruct Hcase as [Hcase|Hcase]; [discriminate|].
  cbn [format set_hdr_mult]. rewrite Hcase. reflexivity.
Qed.

End PlaneMore.

(** ** The CRTC update followed by the plane update *)

Section Composition.

Context {world : Type} {L : DcLib world}.

Lemma update_crtc_ok_state adev crtc (w : world) crtc' w' :
  amdgpu_dm_update_crtc_color_mgmt adev crtc w = ((OK, crtc'), w') ->
  base crtc' = base crtc /\
  cm_is_degamma_srgb crtc'
  = (snd (__extract_blob_lut (gamma_lut (base crtc)))
     =? MAX_COLOR_LEGACY_LUT_ENTRIES) /\
  lut_is_nonlinear (fst (__extract_blob_lut (degamma_lut (base crtc))))
                   (snd (__extract_blob_lut (degamma_lut (base crtc))))
  = Some (cm_has_degamma crtc').
Proof.
  intros H.
  pose proof (update_crtc_cases _ _ _ _ _ _ H) as Hc.
  destruct Hc as [(Hr & _) |
                  (E1 & E2 & hd & hr & Hd & Hrg & r1 & c1 & Hrun & Hend)];
    [discriminate Hr|].
  pose proof (update_crtc_flags_after _ _ _ _ _ _ E1 E2 H)
    as [Hs (hd' & Hd' & Hcm)].
  cbn [failed negb andb] in Hcm.
  split; [|split; [assumption | congruence]].
  apply crtc_setup_regamma_frame in Hrun. destruct Hrun as (Hb & _).
  destruct Hend as [(Hf & <- & _) | (_ & _ & ->)]; [discriminate Hf|].
  destruct (crtc_setup_ctm_spec (set_cm_has_degamma hd c1))
    as (_ & _ & _ & Hb' & _).
  rewrite Hb'. exact Hb.
Qed.


(** X17: after a successful CRTC update of a commit whose degamma LUT is
    absent or linear, a plane that sets no degamma LUT and no curve of
    its own is put in bypass in atomic mode and gets the predefined sRGB
    curve in legacy mode (unless its format is one of the two 8-bit
    4:2:0 video formats); the plane update then returns 0 without a call into
    DC. *)
Theorem update_plane_after_crtc_linear adev crtc (w : world) crtc' w1
    plane_state dc_plane (w2 : world) :
  amdgpu_dm_update_crtc_color_mgmt adev crtc w = ((OK, crtc'), w1) ->
  lut_is_nonlinear (fst (__extract_blob_lut (degamma_lut (base crtc))))
                   (snd (__extract_blob_lut (degamma_lut (base crtc))))
  = Some false ->
  plane_degamma_lut plane_state = None ->
  degamma_tf plane_state = DRM_TRANSFER_FUNCTION_DEFAULT ->
  (snd (__extract_blob_lut (gamma_lut (base crtc)))
   <> MAX_COLOR_LEGACY_LUT_ENTRIES \/
   plane_base_tf (format dc_plane) = TRANSFER_FUNCTION_SRGB) ->
  let legacy :=
    snd (__extract_blob_lut (gamma_lut (base crtc)))
    =? MAX_COLOR_LEGACY_LUT_ENTRIES in
  amdgpu_dm_update_plane_color_mgmt crtc' plane_state dc_plane w2
  = ((OK,
      Build_dc_plane_state (format dc_plane)
        (Build_dc_transfer_func
           (if legacy then TF_TYPE_PREDEFINED else TF_TYPE_BYPASS)
           (if legacy then TRANSFER_FUNCTION_SRGB else TRANSFER_FUNCTION_LINEAR)
           (sdr_ref_white_level (in_transfer_func dc_plane))
           (tf_pts (in_transfer_func dc_plane)))
        (dc_fixpt_from_s3132 (plane_hdr_mult plane_state))),
     w2).
Proof.
  intros Hc Hlin Hpl Hdef Hcase legacy. apply update_crtc_ok_state in Hc.
  destruct Hc as (_ & Hs & Hd). rewrite Hlin in Hd. injection Hd as Hd.
  symmetry in Hd. fold legacy in Hs.
  unfold amdgpu_dm_update_plane_color_mgmt.
  rewrite Hpl, Hdef, Hd, Hs.
  cbn [__extract_blob_lut lut_is_nonlinear is_DRM_TRANSFER_FUNCTION_DEFAULT negb].
  destruct legacy eqn:Hleg; [|reflexivity].
  destruct Hcase as [Hcase|Hcase].
  - subst legacy. apply Z.eqb_eq in Hleg. contradiction.
  - cbn [format set_hdr_mult]. rewrite Hcase. reflexivity.
Qed.

End Composition.

(** ** The further properties on the small DC *)

Lemma run_eta {A B C} (x : A * B * C) : x = ((fst (fst x), snd (fst x)), snd x).
Proof. destruct x as [[a b] c]. reflexivity. Qed.

Lemma stream0_pair : pair_invariant stream0.
Proof. right. split; reflexivity. Qed.

Lemma update_crtc_frame_witness :
  fst (fst run_gamma_zero_nomem) = ENOMEM /\
  base (snd (fst run_gamma_zero_nomem)) = base_gamma_zero /\
  csc_color_matrix (stream (snd (fst run_gamma_zero_nomem)))
  = Build_dc_csc_transform true.
Proof.
  assert (Hr : fst (fst run_gamma_zero_nomem) = ENOMEM)
    by (vm_compute; reflexivity).
  destruct (update_crtc_frame (L := sim_lib) adev_dcn3
              (crtc_of base_gamma_zero stream0) (Build_sim_world 1 0)
              _ _ _ (run_eta run_gamma_zero_nomem)) as [Hb Hf].
  split; [exact Hr|]. split; [exact Hb|].
  apply Hf. fold run_gamma_zero_nomem. rewrite Hr. discriminate.
Defined.

Lemma update_crtc_flags_witness :
  cm_is_degamma_srgb (snd (fst run_legacy_held)) = true /\
  cm_has_degamma (snd (fst run_legacy_held)) = false.
Proof.
  destruct (update_crtc_flags (L := sim_lib) adev_dcn3
              (crtc_of base_legacy stream_held) (Build_sim_world 0 2)
              _ _ _ ltac:(vm_compute; reflexivity)
              ltac:(vm_compute; reflexivity) (run_eta run_legacy_held))
    as [Hs (hd & Hhd & Hd)].
  vm_compute in Hhd. injection Hhd as <-.
  split.
  - etransitivity; [exact Hs|]. vm_compute. reflexivity.
  - etransitivity; [exact Hd|]. vm_compute. reflexivity.
Defined.

Lemma update_crtc_legacy_keeps_pair_witness :
  lut3d_func (stream (snd (fst run_legacy_held))) = Some sim_3dlut /\
  func_shaper (stream (snd (fst run_legacy_held))) = Some sim_func.
Proof.
  exact (update_crtc_legacy_keeps_pair (L := sim_lib) adev_dcn3
           (crtc_of base_legacy stream_held) (Build_sim_world 0 2)
           _ _ _ ltac:(vm_compute; reflexivity) (run_eta run_legacy_held)).
Defined.

Lemma update_crtc_no_oops_witness :
  fst (fst run_lut3d_shaper) = OK \/ fst (fst run_lut3d_shaper) = EINVAL \/
  fst (fst run_lut3d_shaper) = ENOMEM \/
  fst (fst run_lut3d_shaper) = DC_ERROR_UNEXPECTED.
Proof.
  exact (update_crtc_no_oops (L := sim_lib) adev_dcn3
           (crtc_of base_lut3d_shaper stream0) (Build_sim_world 1 2)
           _ _ _ sim_lib_paired stream0_pair (run_eta run_lut3d_shaper)).
Defined.

Lemma update_crtc_lut3d_built_witness :
  fst (fst run_lut3d_shaper) = OK /\
  is_Some (func_shaper (stream (snd (fst run_lut3d_shaper)))) /\
  exists l,
    lut3d_func (stream (snd (fst run_lut3d_shaper))) = Some l /\
    initialized l = true /\ use_12bits l = true /\
    use_tetrahedral_9 l = false.
Proof.
  assert (Hr : fst (fst run_lut3d_shaper) = OK) by (vm_compute; reflexivity).
  split; [exact Hr|].
  exact (update_crtc_lut3d_built (L := sim_lib) adev_dcn3
           (crtc_of base_lut3d_shaper stream0) (Build_sim_world 1 2)
           (Build_drm_property_blob (ramp 4096)) (blob_of 4913 (grey 0))
           _ _ _ sim_lib_paired stream0_pair
           ltac:(vm_compute; congruence) eq_refl
           ltac:(vm_compute; congruence) eq_refl
           ltac:(vm_compute; congruence)
           (run_eta run_lut3d_shaper) (or_introl Hr)).
Defined.

Lemma update_crtc_pool_untouched_witness :
  amdgpu_dm_update_crtc_color_mgmt
    (L := with_acquire_release pool_refuses sim_lib) adev_dcn3
    (crtc_of base_legacy stream_held) (Build_sim_world 0 2)
  = run_legacy_held.
Proof.
  assert (Hleg : snd (__extract_blob_lut
                        (gamma_lut (base (crtc_of base_legacy stream_held))))
                 = MAX_COLOR_LEGACY_LUT_ENTRIES) by (vm_compute; reflexivity).
  exact (update_crtc_pool_untouched (L := sim_lib) pool_refuses adev_dcn3
           (crtc_of base_legacy stream_held) (Build_sim_world 0 2)
           (or_introl Hleg)).
Defined.


(** The plane's own LUT of one grey sample: the linearity check divides
    by zero and the plane is left as it was, [hdr_mult] included. *)
Example update_plane_one_sample :
  run_plane_one_sample = ((DIVIDE_ERROR, dc_plane_rgb), Build_sim_world 1 2).
Proof. vm_compute. reflexivity. Qed.

Lemma update_plane_own_state_wins_witness :
  amdgpu_dm_update_plane_color_mgmt (L := sim_lib) crtc_degamma_srgb
    plane_state_lut dc_plane_rgb (Build_sim_world 1 2)
  = amdgpu_dm_update_plane_color_mgmt (L := sim_lib) (crtc_of base0 stream0)
      plane_state_lut dc_plane_rgb (Build_sim_world 1 2).
Proof.
  assert (Hown : lut_is_nonlinear
                   (fst (__extract_blob_lut (plane_degamma_lut plane_state_lut)))
                   (snd (__extract_blob_lut (plane_degamma_lut plane_state_lut)))
                 = Some true) by (vm_compute; reflexivity).
  exact (update_plane_own_state_wins (L := sim_lib) crtc_degamma_srgb
           (crtc_of base0 stream0) plane_state_lut dc_plane_rgb
           (Build_sim_world 1 2) (or_introl Hown)).
Defined.

Lemma update_plane_implicit_witness :
  amdgpu_dm_update_plane_color_mgmt (L := sim_lib) crtc_legacy_done
    plane_state0 dc_plane_rgb (Build_sim_world 0 0)
  = ((OK,
      Build_dc_plane_state (SURFACE_PIXEL_FORMAT_OTHER 8)
        (Build_dc_transfer_func TF_TYPE_PREDEFINED TRANSFER_FUNCTION_SRGB 0 [])
        dc_fixpt_one),
     Build_sim_world 0 0).
Proof.
  exact (update_plane_implicit (L := sim_lib) crtc_legacy_done plane_state0
           dc_plane_rgb (Build_sim_world 0 0) eq_refl eq_refl eq_refl
           (or_intror eq_refl)).
Defined.


Lemma update_plane_after_crtc_linear_witness :
  amdgpu_dm_update_plane_color_mgmt (L := sim_lib) crtc_released_done
    plane_state0 dc_plane_nv12 (Build_sim_world 0 0)
  = ((OK,
      Build_dc_plane_state SURFACE_PIXEL_FORMAT_VIDEO_420_YCbCr
        (Build_dc_transfer_func TF_TYPE_BYPASS TRANSFER_FUNCTION_LINEAR 0 [])
        dc_fixpt_one),
     Build_sim_world 0 0).
Proof.
  assert (Hat : snd (__extract_blob_lut
                       (gamma_lut (base (crtc_of base0 stream0))))
                <> MAX_COLOR_LEGACY_LUT_ENTRIES) by (vm_compute; congruence).
  exact (update_plane_after_crtc_linear (L := sim_lib) adev_dcn3
           (crtc_of base0 stream0) (Build_sim_world 1 2) crtc_released_done
           (Build_sim_world 1 2) plane_state0 dc_plane_nv12
           (Build_sim_world 0 0) eq_refl eq_refl eq_refl eq_refl
           (or_introl Hat)).
Defined.
